(** * The uni-model to CNTK graph builder ([cntkinstance.py])

    A shallow embedding of [Scripts/model2cntk/unimodel/cntkinstance.py]:
    the weight transformations done with numpy, the operator builders of
    [BlockApiSetup] and [ApiSetup], the graph assembler [CntkApiInstance]
    and the guard, the reader and the minibatch loop of [Evaluator],
    followed by the properties proved about them.

    Conventions.  Python integers are [Z].  Array entries are rationals
    ([Q]): the finite values of the float type, without rounding.  A Python
    exception is a value of [py_error] carried by the [result] monad; a
    function that can raise returns [result A].  numpy arrays are C-ordered:
    a shape and the flat buffer of entries. *)

From Stdlib Require Import ZArith QArith List Lia Sorted.
From stdpp Require Import gmap strings list pretty.

Open Scope Z_scope.

(** ** Python exceptions and the error monad *)

Inductive py_error :=
| IndexError
| KeyError (key : string)
| AttributeError
| AssertionError (msg : string)
| UnboundLocalError (var : string)
| TypeError
| ValueError
| ZeroDivisionError
| AxisError.

Inductive result (A : Type) :=
| Ok (a : A)
| Raise (e : py_error).

Arguments Ok {A} a.
Arguments Raise {A} e.

Global Instance result_ret : MRet result := @Ok.

Global Instance result_bind : MBind result :=
  fun A B f m => match m with Ok a => f a | Raise e => Raise e end.

Definition succeeds {A} (r : result A) : Prop := exists a, r = Ok a.

(** A loop whose body can raise: the first exception ends the loop. *)
Fixpoint foldM {S X} (body : S -> X -> result S) (s : S) (xs : list X) : result S :=
  match xs with
  | [] => Ok s
  | x :: xs' => s' ← body s x; foldM body s' xs'
  end.

Module Py.

(** [l[i]] for an index that is not negative. *)
Definition getitem {A} (l : list A) (i : nat) : result A :=
  match l !! i with
  | Some x => Ok x
  | None => Raise IndexError
  end.

(** [range(n)]. *)
Definition range (n : Z) : list Z := map Z.of_nat (seq 0 (Z.to_nat n)).

(** [a / b] on numbers. *)
Definition truediv (a b : Q) : result Q :=
  if Qeq_bool b 0 then Raise ZeroDivisionError else Ok (a / b)%Q.

(** [reduce(mul, l)], which has no initial value. *)
Definition reduce_mul (l : list Z) : result Z :=
  match l with
  | [] => Raise TypeError
  | x :: xs => Ok (fold_left Z.mul xs x)
  end.

(** Building a set keeps one copy of every element.  The set is kept as
    the strictly ascending list of its elements, which is also the order
    in which CPython iterates a set of small natural numbers. *)
Fixpoint set_add (x : Z) (s : list Z) : list Z :=
  match s with
  | [] => [x]
  | y :: s' =>
      if x <? y then x :: s
      else if x =? y then s
      else y :: set_add x s'
  end.

Definition set (l : list Z) : list Z := fold_right set_add [] l.

Definition mem (x : Z) (l : list Z) : bool := existsb (Z.eqb x) l.

(** [list(set(a) ^ set(b))]: the elements that are in exactly one of
    the two sets. *)
Definition set_xor (a b : list Z) : list Z :=
  set (List.filter (fun x => negb (mem x b)) a
       ++ List.filter (fun x => negb (mem x a)) b).

End Py.

(** ** numpy arrays *)

Record ndarray := { shape : list nat; flat : list Q }.

Module numpy.

(** Number of entries of an array of shape [s]. *)
Definition size (s : list nat) : nat := fold_right Nat.mul 1%nat s.

(** The buffer of a well-formed array has one entry per index. *)
Definition wf (a : ndarray) : Prop := length (flat a) = size (shape a).

(** [idx] is a full index of an array of shape [s]. *)
Definition in_bounds (s idx : list nat) : Prop := Forall2 lt idx s.

Definition asarray (a : ndarray) : ndarray := a.
Definition copy (a : ndarray) : ndarray := a.

(** [n] consecutive blocks of [sz] entries. *)
Fixpoint chunks {A} (n sz : nat) (l : list A) : list (list A) :=
  match n with
  | O => []
  | S n' => firstn sz l :: chunks n' sz (skipn sz l)
  end.

(** [a[idx]] for a full index; [None] when out of bounds. *)
Fixpoint get_flat (s : list nat) (d : list Q) (idx : list nat) : option Q :=
  match s, idx with
  | [], [] => d !! 0%nat
  | n :: s', i :: idx' =>
      if (i <? n)%nat
      then get_flat s' (firstn (size s') (skipn (i * size s') d)) idx'
      else None
  | _, _ => None
  end.

Definition get (a : ndarray) (idx : list nat) : option Q :=
  get_flat (shape a) (flat a) idx.

(** [a * c] for a scalar [c]. *)
Definition scale (a : ndarray) (c : Q) : ndarray :=
  {| shape := shape a; flat := map (fun x => (x * c)%Q) (flat a) |}.

(** [a[0]] where [a] is a vector: its first entry. *)
Definition item0 (a : ndarray) : result Q :=
  match shape a, flat a with
  | [S _], x :: _ => Ok x
  | [_], _ => Raise IndexError
  | [], _ => Raise IndexError
  | _, _ => Raise TypeError
  end.

(** [numpy.reshape(a, newshape)]: same buffer, new shape.  One entry of
    [newshape] may be [-1] and is then inferred. *)
Definition reshape (a : ndarray) (newshape : list Z) : result ndarray :=
  let n := Z.of_nat (length (flat a)) in
  let known := fold_right Z.mul 1 (List.filter (fun d => negb (d =? -1)) newshape) in
  let unknown := length (List.filter (fun d => d =? -1) newshape) in
  if existsb (fun d => d <? -1) newshape then Raise ValueError
  else match unknown with
       | O => if known =? n
              then Ok {| shape := map Z.to_nat newshape; flat := flat a |}
              else Raise ValueError
       | 1%nat =>
           if (known =? 0) || negb (n mod known =? 0) then Raise ValueError
           else Ok {| shape := map (fun d => Z.to_nat (if d =? -1 then n / known else d))
                                   newshape;
                      flat := flat a |}
       | _ => Raise ValueError
       end.

(** Column [j] of each row, for [j] below [m]. *)
Definition columns (m : nat) (rows : list (list Q)) : list (list Q) :=
  map (fun j => map (fun row => nth j row 0%Q) rows) (seq 0 m).

(** [numpy.transpose(a)] reverses the axes. *)
Fixpoint transpose_flat (s : list nat) (d : list Q) : list Q :=
  match s with
  | [] => d
  | n :: s' =>
      concat (columns (size s') (map (transpose_flat s') (chunks n (size s') d)))
  end.

Definition transpose (a : ndarray) : ndarray :=
  {| shape := rev (shape a); flat := transpose_flat (shape a) (flat a) |}.

(** Inserting along the first axis: before the row at position [pos]
    comes one new row for every occurrence of [pos] among the indices. *)
Fixpoint insert_rows {A} (new : A) (idxs : list nat) (pos : nat) (rows : list A)
  : list A :=
  repeat new (count_occ Nat.eq_dec idxs pos)
  ++ match rows with
     | [] => []
     | r :: rows' => r :: insert_rows new idxs (S pos) rows'
     end.

Fixpoint insert_flat (value : Q) (s : list nat) (ax : nat) (idxs : list nat)
    (d : list Q) : list Q :=
  match s with
  | [] => d
  | n :: s' =>
      match ax with
      | O => concat (insert_rows (repeat value (size s')) idxs 0 (chunks n (size s') d))
      | S ax' => concat (map (insert_flat value s' ax' idxs) (chunks n (size s') d))
      end
  end.

Definition normalize_axis (axis : Z) (ndim : nat) : result nat :=
  if (axis <? - Z.of_nat ndim) || (Z.of_nat ndim <=? axis) then Raise AxisError
  else Ok (Z.to_nat (if axis <? 0 then axis + Z.of_nat ndim else axis)).

(** [numpy.insert(arr, obj, value, axis)] for a list [obj] of indices and
    a scalar [value].  Negative indices count from the end; an index
    outside the axis is an [IndexError]. *)
Definition insert (arr : ndarray) (obj : list Z) (value : Q) (axis : Z)
  : result ndarray :=
  ax ← normalize_axis axis (length (shape arr));
  let N := nth ax (shape arr) 0%nat in
  let idxs := map (fun i => if i <? 0 then i + Z.of_nat N else i) obj in
  if existsb (fun i => (i <? 0) || (Z.of_nat N <? i)) idxs then Raise IndexError
  else Ok {| shape := <[ax := (N + length obj)%nat]> (shape arr);
             flat := insert_flat value (shape arr) ax (map Z.to_nat idxs) (flat arr) |}.

(** [numpy.split(ary, sections)] along the first axis, into equal parts. *)
Definition split (ary : option ndarray) (sections : Z) : result (list ndarray) :=
  match ary with
  | None => Raise AttributeError
  | Some a =>
      match shape a with
      | [] => Raise IndexError
      | n :: s' =>
          if sections =? 0 then Raise ZeroDivisionError
          else if (sections <? 0) || negb (Z.of_nat n mod sections =? 0)
          then Raise ValueError
          else
            let rows := (n / Z.to_nat sections)%nat in
            Ok (map (fun blk => {| shape := rows :: s'; flat := blk |})
                    (chunks (Z.to_nat sections) (rows * size s') (flat a)))
      end
  end.

End numpy.

(** ** The CNTK graph, symbolically *)

(** [cntk.InferredDimension]. *)
Definition InferredDimension : Z := -1.

(** A handle on a node of the graph that exists already: its identity and
    the shape of its output. *)
Record Function := { uid : nat; output_shape : list Z }.

(** The [init] argument of [ops.parameter]. *)
Inductive init_value :=
| InitScalar (q : Q)
| InitArray (a : ndarray).

Module ops.

(** The expressions built with [cntk.ops].  [Output f] is the use of an
    existing handle as an operand (what [sanitize_input] returns). *)
Inductive node :=
| Output (f : Function)
| parameter (shape : list Z) (init : init_value) (name : string)
| constant (value : Q) (shape : list Z) (name : string)
| convolution (w x : node) (strides : list Z) (auto_padding : list bool)
| slice (x : node) (axis begin_index end_index : Z)
| splice (xs : list node) (axis : Z) (name : string)
| plus (a b : node) (name : string)
| times (x w : node)
| element_times (a b : node)
| element_divide (a b : node)
| square (x : node)
| log (x : node)
| exp (x : node)
| reshape (x : node) (shape : list Z) (begin_axis end_axis : Z)
| batch_normalization (x scale bias mean var : node) (spatial : bool)
    (use_cudnn_engine : bool) (epsilon : Q) (running_count : node) (name : string)
| pooling (x : node) (average : bool) (kernel strides : list Z)
    (auto_padding : list bool) (ceil_out_dim : bool) (name : string)
| relu (x : node) (name : string)
| softmax (x : node) (name : string)
| dropout (x : node) (name : string)
| classification_error (x label : node) (topN : Z) (name : string)
| cross_entropy_with_softmax (x label : node) (name : string)
| psroipooling (conv_map rois : node) (group_size out_channel : Z) (name : string)
| combine (xs : list node) (name : string)
| BlockFunction (op_name name : string) (body : node).

Definition sanitize_input (f : Function) : Function := f.
Definition sanitize_shape (s : list Z) : list Z := s.

(** The shape of a parameter: that of its initial array when it has one. *)
Definition shape_of (p : node) : list Z :=
  match p with
  | parameter _ (InitArray a) _ => map Z.of_nat (shape a)
  | parameter s (InitScalar _) _ => s
  | Output f => output_shape f
  | _ => []
  end.

End ops.

(** ['.'.join(parts)]. *)
Definition join_dot (parts : list string) : string :=
  match parts with
  | [] => ""
  | p :: ps => fold_left (fun acc q => acc +:+ "." +:+ q) ps p
  end.

(** ** Layer descriptors *)

Module UniModel.

(** One pretrained tensor; [data] holds its entries. *)
Record tensor := { data : ndarray }.

(** The hyper-parameters of a layer; each builder reads its own. *)
Record parameters := {
  output : Z;
  kernel : list Z;
  stride : list Z;
  auto_pad : bool;
  need_bias : bool;
  group : Z;
  dilation : list Z;
  epsilon : Q;
  pooling_type : bool;
  num_output : Z;
  transpose : bool;
  top_n : Z;
  k : Q;
  kernel_size : Z;
  alpha : Q;
  beta : Q;
  group_size : Z;
  out_channel : Z
}.

(** [parameter_tensor] is [None] when the layer carries no list at all. *)
Record cntk_layer := {
  op_name : string;
  op_type : string;
  inputs : list string;
  params : parameters;
  parameter_tensor : option (list tensor)
}.

(** Truth value of [cntk_layer.parameter_tensor]: a list that is there
    and is not empty. *)
Definition has_tensors (l : cntk_layer) : bool :=
  match parameter_tensor l with
  | Some (_ :: _) => true
  | _ => false
  end.

(** The list indexed or measured once it is known to be truthy. *)
Definition tensors (l : cntk_layer) : list tensor :=
  default [] (parameter_tensor l).

Record data_provider := { dp_op_name : string; dp_tensor : list Z }.

Record cntk_uni_model := {
  data_providers : list data_provider;
  cntk_sorted_layers : list string;
  cntk_layers : gmap string cntk_layer
}.

End UniModel.

(** ** BlockApiSetup *)

Module BlockApiSetup.

Definition conv_ops (stride : list Z) (pad : bool) (weights data : ops.node) : ops.node :=
  ops.convolution weights data (InferredDimension :: ops.sanitize_shape stride) [pad].

(** The indices handed to [numpy.insert] for one axis. *)
Definition insert_lines (kernel_axis dilation_axis dilation_kernel_axis : Z) : list Z :=
  let kernel_sequence := map (fun x => x * dilation_axis) (Py.range kernel_axis) in
  let insert_lines := Py.set_xor (Py.range dilation_kernel_axis) kernel_sequence in
  imap (fun index line => line - Z.of_nat index) insert_lines.

Definition dilation_kernel (kernel dilation : list Z) : list Z :=
  map (fun kd => (fst kd - 1) * snd kd + 1) (List.combine kernel dilation).

(** One turn of the loop over the axes in [weights_parameter]. *)
Definition expand_axis (kernel dilation : list Z) (init used_init : ndarray)
    (axis : nat) : result ndarray :=
  kernel_axis ← Py.getitem kernel axis;
  dilation_axis ← Py.getitem dilation axis;
  dilation_kernel_axis ← Py.getitem (dilation_kernel kernel dilation) axis;
  numpy.insert used_init
    (insert_lines kernel_axis dilation_axis dilation_kernel_axis) 0
    (Z.of_nat (length (shape init)) - Z.of_nat axis - 1).

(** The array given as [init] by [weights_parameter]. *)
Definition expand_kernel (kernel dilation : list Z) (init : ndarray) : result ndarray :=
  let dilation_kernel := dilation_kernel kernel dilation in
  let used_init := numpy.copy init in
  if bool_decide (dilation_kernel <> kernel) then
    foldM (expand_axis kernel dilation init) used_init (seq 0 (length dilation))
  else Ok used_init.

Definition weights_parameter (kernel dilation : list Z) (output_channels : Z)
    (init : option ndarray) (group_name : string) : result ops.node :=
  match init with
  | None => Raise AttributeError
  | Some init =>
      used_init ← expand_kernel kernel dilation init;
      Ok (ops.parameter (output_channels :: InferredDimension
                       :: ops.sanitize_shape (dilation_kernel kernel dilation))
                    (InitArray used_init) group_name)
  end.

(** [convolution(...)] returns the block, a function of the input. *)
Definition convolution (output : Z) (kernel stride : list Z) (pad : bool)
    (kernel_init bias_init : option ndarray) (group : Z) (dilation : list Z)
    (name : string) : result (ops.node -> ops.node) :=
  if group =? 1 then
    w ← weights_parameter kernel dilation output kernel_init (join_dot [name; "W"]);
    let b := (fun bias_init => ops.parameter [output] (InitArray bias_init) (join_dot [name; "b"]))
               <$> bias_init in
    Ok (fun x =>
          let apply_x := conv_ops stride pad w x in
          ops.BlockFunction "Convolution" name
            match b with
            | Some b => ops.plus apply_x b ""
            | None => apply_x
            end)
  else
    (if group =? 0 then Raise ZeroDivisionError else Ok tt);;
    let sub_output_channels := Z.quot output group in
    groups_kernel_init ← numpy.split kernel_init group;
    groups_kernel ← foldM (fun acc i =>
                             init_i ← Py.getitem groups_kernel_init (Z.to_nat i);
                             w_i ← weights_parameter kernel dilation sub_output_channels
                                     (Some init_i) (join_dot [name; pretty i; "W"]);
                             Ok (acc ++ [w_i]))
                          [] (Py.range group);
    first_kernel ← Py.getitem groups_kernel 0;
    sub_input_channels ← Py.getitem (ops.shape_of first_kernel) 1;
    let b := (fun bias_init => ops.parameter [output] (InitArray bias_init) (join_dot [name; "b"]))
               <$> bias_init in
    Ok (fun x =>
          let groups_data :=
            map (fun i => ops.slice x 0 (i * sub_input_channels) ((i + 1) * sub_input_channels))
                (Py.range group) in
          let apply_sub :=
            map (fun gk_gd => conv_ops stride pad (fst gk_gd) (snd gk_gd))
                (List.combine groups_kernel groups_data) in
          let apply_x := ops.splice apply_sub 0 "" in
          ops.BlockFunction "Convolution" name
            match b with
            | Some b => ops.plus apply_x b ""
            | None => apply_x
            end).

Definition linear (output_shape input_shape : list Z) (scale_init bias_init : ndarray)
    (name : string) : ops.node -> ops.node :=
  let sc := ops.parameter (input_shape ++ output_shape) (InitArray scale_init)
                      (join_dot [name; "sc"]) in
  let b := ops.parameter output_shape (InitArray bias_init) (join_dot [name; "b"]) in
  fun x => ops.BlockFunction "linear" name (ops.plus (ops.times x sc) b "").

Definition lrn (k : Q) (n : Z) (alpha beta : Q) (name : string) : ops.node -> ops.node :=
  fun x =>
    let x2 := ops.square x in
    let x2s := ops.reshape x2 [1; InferredDimension] 0 1 in
    let w := ops.constant (alpha / inject_Z (2 * n - 1))%Q [1; 2 * n - 1; 1; 1] "W" in
    let y := ops.convolution w x2s [1] [true] in
    let b := ops.reshape y [InferredDimension] 0 2 in
    let den := ops.exp (ops.element_times (ops.constant beta [] "") (ops.log (ops.plus (ops.constant k [] "") b ""))) in
    ops.BlockFunction "lrn" name (ops.element_divide x den).

End BlockApiSetup.

(** What [insert_lines] comes to for an axis of [S p] taps and dilation
    [d]: [d - 1] copies of each of [1], ..., [p]. *)
Fixpoint adjusted_lines (p d : nat) : list nat :=
  match p with
  | O => []
  | S p' => adjusted_lines p' d ++ repeat (S p') (d - 1)
  end.

(** A list of rows with [d - 1] copies of [new] between two consecutive
    rows. *)
Definition dilate_rows {A} (d : nat) (new : A) (rows : list A) : list A :=
  match rows with
  | [] => []
  | r :: rows' => r :: flat_map (fun r' => repeat new (d - 1) ++ [r']) rows'
  end.

(** Extent of an axis of [n] taps once [d - 1] zeros stand between two
    consecutive taps: [(n - 1) * d + 1] when there is a tap at all. *)
Definition dilated_length (n d : nat) : nat := (n + (n - 1) * (d - 1))%nat.

(** The dilation of every axis of a weight of [ndim] axes, first axis
    first: [weights_parameter] applies entry [i] of [dilation] to the axis
    [ndim - 1 - i], and the leading axes are left alone. *)
Definition axis_factors (ndim : nat) (dilation : list Z) : list nat :=
  repeat 1%nat (ndim - length dilation) ++ rev (map Z.to_nat dilation).

(** [a] is [init] dilated by [factors]: the entry of [init] at [src] is
    found at [src * factors], and every entry of [a] whose index is not of
    this form is zero. *)
Record dilated (init : ndarray) (factors : list nat) (a : ndarray) : Prop := {
  dilated_wf : numpy.wf a;
  dilated_shape : shape a = zip_with dilated_length (shape init) factors;
  dilated_taps : forall src,
    numpy.in_bounds (shape init) src ->
    numpy.get a (zip_with Nat.mul src factors) = numpy.get init src;
  dilated_zeros : forall idx j x f,
    numpy.in_bounds (shape a) idx ->
    idx !! j = Some x -> factors !! j = Some f -> (x mod f <> 0)%nat ->
    numpy.get a idx = Some 0%Q
}.

(** What the block of a convolution computes before the bias is added: one
    convolution, or the splice of the convolutions of the groups. *)
Definition is_apply_x (x : ops.node) : Prop :=
  (exists w data strides auto_padding, x = ops.convolution w data strides auto_padding)
  \/ (exists apply_sub, x = ops.splice apply_sub 0 "").

(** ** ApiSetup: one builder per layer type *)

Global Instance result_fmap : FMap result :=
  fun A B f m => match m with Ok a => Ok (f a) | Raise e => Raise e end.

Module ApiSetup.
Import UniModel.

Definition builder : Type := cntk_layer -> list Function -> result ops.node.

Definition convolution : builder := fun cntk_layer inputs =>
  sanitize_input ← ops.sanitize_input <$> Py.getitem inputs 0;
  let params := params cntk_layer in
  let output_channel := output params in
  let kernel_size := kernel params in
  kernel_init ←
    (if has_tensors cntk_layer then
       kernel_data_tensor ← Py.getitem (tensors cntk_layer) 0;
       Ok (Some (numpy.asarray (data kernel_data_tensor)))
     else Ok None);
  let bias_shape := [output_channel; 1; 1] in
  bias_init ←
    (if need_bias params then
       if has_tensors cntk_layer then
         bias_data_tensor ← Py.getitem (tensors cntk_layer) 1;
         let bias_init := numpy.asarray (data bias_data_tensor) in
         Some <$> numpy.reshape bias_init bias_shape
       else Ok None
     else Ok None);
  block ← BlockApiSetup.convolution output_channel kernel_size (stride params)
            (auto_pad params) kernel_init bias_init (group params) (dilation params)
            (op_name cntk_layer);
  Ok (block (ops.Output sanitize_input)).

(** The messages of the two assertions. *)
Definition three_tensors_needed : string :=
  "At least three tensors (saved_mean, saved_variance and scale) are needed".
Definition two_inputs_needed : string :=
  "dense layer layer receives two inputs (scale/bias)".

(** [1 / global_scale if global_scale != 0 else 0]. *)
Definition inverse_scale (global_scale : Q) : result Q :=
  if negb (Qeq_bool global_scale 0) then Py.truediv 1 global_scale else Ok 0%Q.

(** The four initial values of [batch_normalization], in the order
    [scale_init], [bias_init], [mean_init], [var_init]. *)
Definition batch_normalization_init (cntk_layer : cntk_layer)
  : result (init_value * init_value * init_value * init_value) :=
  let scale_init := InitScalar 1 in
  let bias_init := InitScalar 0 in
  let mean_init := InitScalar 1 in
  let var_init := InitScalar 0 in
  if has_tensors cntk_layer then
    (if (length (tensors cntk_layer) <? 3)%nat
     then Raise (AssertionError three_tensors_needed)
     else Ok tt);;
    mean_tensor ← Py.getitem (tensors cntk_layer) 0;
    variance_tensor ← Py.getitem (tensors cntk_layer) 1;
    global_scale_tensor ← Py.getitem (tensors cntk_layer) 2;
    global_scale ← numpy.item0 (data global_scale_tensor);
    scale_init ← inverse_scale global_scale;
    let mean_init := numpy.scale (numpy.asarray (data mean_tensor)) scale_init in
    let var_init := numpy.scale (numpy.asarray (data variance_tensor)) scale_init in
    if (length (tensors cntk_layer) =? 5)%nat then
      scale_tensor ← Py.getitem (tensors cntk_layer) 3;
      bias_tensor ← Py.getitem (tensors cntk_layer) 4;
      let scale_init := numpy.asarray (data scale_tensor) in
      let bias_init := numpy.asarray (data bias_tensor) in
      Ok (InitArray scale_init, InitArray bias_init, InitArray mean_init, InitArray var_init)
    else
      Ok (InitScalar scale_init, bias_init, InitArray mean_init, InitArray var_init)
  else Ok (scale_init, bias_init, mean_init, var_init).

Definition batch_normalization : builder := fun cntk_layer inputs =>
  sanitize_input ← ops.sanitize_input <$> Py.getitem inputs 0;
  channels ← Py.getitem (output_shape sanitize_input) 0;
  let parameter_tensor := [channels] in
  inits ← batch_normalization_init cntk_layer;
  let '(scale_init, bias_init, mean_init, var_init) := inits in
  let name := op_name cntk_layer in
  let scale_parameters := ops.parameter parameter_tensor scale_init (join_dot [name; "scale"]) in
  let bias_parameters := ops.parameter parameter_tensor bias_init (join_dot [name; "bias"]) in
  let mean_parameters := ops.parameter parameter_tensor mean_init (join_dot [name; "mean"]) in
  let var_parameters := ops.parameter parameter_tensor var_init (join_dot [name; "var"]) in
  let epsilon := epsilon (params cntk_layer) in
  Ok (ops.batch_normalization (ops.Output sanitize_input) scale_parameters bias_parameters
        mean_parameters var_parameters true false epsilon (ops.constant 0 [] "") name).

Definition pooling : builder := fun cntk_layer inputs =>
  sanitize_input ← ops.sanitize_input <$> Py.getitem inputs 0;
  let average := pooling_type (params cntk_layer) in
  Ok (ops.pooling (ops.Output sanitize_input) average (kernel (params cntk_layer))
        (stride (params cntk_layer)) [auto_pad (params cntk_layer)] true
        (op_name cntk_layer)).

Definition relu : builder := fun cntk_layer inputs =>
  sanitize_input ← ops.sanitize_input <$> Py.getitem inputs 0;
  Ok (ops.relu (ops.Output sanitize_input) (op_name cntk_layer)).

(** The orientation of a pretrained dense weight (the branch on
    [parameters.transpose]). *)
Definition dense_scale_init (transpose : bool) (output_channel flattened_channel : Z)
    (scale_shape : list Z) (scale_init : ndarray) : result ndarray :=
  if transpose then
    scale_init ← numpy.reshape scale_init [output_channel; flattened_channel];
    let scale_init := numpy.copy (numpy.transpose scale_init) in
    numpy.reshape scale_init scale_shape
  else numpy.reshape scale_init scale_shape.

Definition dense : builder := fun cntk_layer inputs =>
  sanitize_input ← ops.sanitize_input <$> Py.getitem inputs 0;
  let input_channel := output_shape sanitize_input in
  let output_channel := num_output (params cntk_layer) in
  flattened_channel ← Py.reduce_mul input_channel;
  let scale_shape := input_channel ++ [output_channel] in
  let bias_shape := [output_channel] in
  bound ←
    (if has_tensors cntk_layer then
       (if bool_decide (length (tensors cntk_layer) <> 2%nat)
        then Raise (AssertionError two_inputs_needed)
        else Ok tt);;
       scale_tensor ← Py.getitem (tensors cntk_layer) 0;
       bias_tensor ← Py.getitem (tensors cntk_layer) 1;
       let scale_init := numpy.asarray (data scale_tensor) in
       scale_init ← dense_scale_init (transpose (params cntk_layer)) output_channel
                      flattened_channel scale_shape scale_init;
       let bias_init := numpy.asarray (data bias_tensor) in
       Ok (Some scale_init, Some bias_init)
     else Ok (None, None));
  scale_init ← from_option Ok (Raise (UnboundLocalError "scale_init")) (fst bound);
  bias_init ← from_option Ok (Raise (UnboundLocalError "bias_init")) (snd bound);
  Ok (BlockApiSetup.linear bias_shape scale_shape scale_init bias_init
        (op_name cntk_layer) (ops.Output sanitize_input)).

Definition plus : builder := fun cntk_layer inputs =>
  sanitize_left ← ops.sanitize_input <$> Py.getitem inputs 0;
  sanitize_right ← ops.sanitize_input <$> Py.getitem inputs 1;
  Ok (ops.plus (ops.Output sanitize_left) (ops.Output sanitize_right) (op_name cntk_layer)).

Definition classification_error : builder := fun cntk_layer inputs =>
  sanitize_output ← ops.sanitize_input <$> Py.getitem inputs 0;
  sanitize_label ← ops.sanitize_input <$> Py.getitem inputs 1;
  Ok (ops.classification_error (ops.Output sanitize_output) (ops.Output sanitize_label)
        (top_n (params cntk_layer)) (op_name cntk_layer)).

Definition cross_entropy_with_softmax : builder := fun cntk_layer inputs =>
  sanitize_output ← ops.sanitize_input <$> Py.getitem inputs 0;
  sanitize_label ← ops.sanitize_input <$> Py.getitem inputs 1;
  Ok (ops.cross_entropy_with_softmax (ops.Output sanitize_output)
        (ops.Output sanitize_label) (op_name cntk_layer)).

Definition dropout : builder := fun cntk_layer inputs =>
  sanitize_output ← ops.sanitize_input <$> Py.getitem inputs 0;
  Ok (ops.dropout (ops.Output sanitize_output) (op_name cntk_layer)).

Definition lrn : builder := fun cntk_layer inputs =>
  sanitize_output ← ops.sanitize_input <$> Py.getitem inputs 0;
  let params := params cntk_layer in
  Ok (BlockApiSetup.lrn (k params) (kernel_size params) (alpha params) (beta params)
        (op_name cntk_layer) (ops.Output sanitize_output)).

Definition splice : builder := fun cntk_layer inputs =>
  Ok (ops.splice (ops.Output <$> inputs) 0 (op_name cntk_layer)).

Definition psroi_pooling : builder := fun cntk_layer inputs =>
  conv_map ← ops.sanitize_input <$> Py.getitem inputs 0;
  rois ← ops.sanitize_input <$> Py.getitem inputs 1;
  let params := params cntk_layer in
  Ok (ops.psroipooling (ops.Output conv_map) (ops.Output rois) (group_size params)
        (out_channel params) (op_name cntk_layer)).

Definition softmax : builder := fun cntk_layer inputs =>
  santize_output ← ops.sanitize_input <$> Py.getitem inputs 0;
  Ok (ops.softmax (ops.Output santize_output) (op_name cntk_layer)).

(** The static methods of the class, by name. *)
Definition methods : list (string * builder) :=
  [ ("convolution", convolution);
    ("batch_normalization", batch_normalization);
    ("pooling", pooling);
    ("relu", relu);
    ("dense", dense);
    ("plus", plus);
    ("classification_error", classification_error);
    ("cross_entropy_with_softmax", cross_entropy_with_softmax);
    ("dropout", dropout);
    ("lrn", lrn);
    ("splice", splice);
    ("psroi_pooling", psroi_pooling);
    ("softmax", softmax) ].

(** [getattr(ApiSetup, name)]. *)
Definition getattr (name : string) : result builder :=
  match List.find (fun m => String.eqb (fst m) name) methods with
  | Some m => Ok (snd m)
  | None => Raise AttributeError
  end.

End ApiSetup.

(** The way back of the round trip of a dense weight, as the specification
    words it: the inverse reshape, the inverse transpose and the inverse
    reshape, applied to what [ApiSetup.dense_scale_init] returns when
    [transpose] is set. *)
Definition dense_scale_restore (output_channel flattened_channel : Z)
    (original_shape : list nat) (scale_init : ndarray) : result ndarray :=
  scale_init ← numpy.reshape scale_init [flattened_channel; output_channel];
  let scale_init := numpy.transpose scale_init in
  numpy.reshape scale_init (map Z.of_nat original_shape).

(** ** CntkApiInstance: the graph assembler *)

Global Instance Function_eq_dec : EqDecision Function.
Proof. solve_decision. Defined.

Global Instance Function_countable : Countable Function :=
  inj_countable' (fun f => (uid f, output_shape f))
                 (fun p => {| uid := fst p; output_shape := snd p |})
                 (fun f => match f with Build_Function _ _ => eq_refl end).

Module CntkApiInstance.
Import UniModel.

(** The object: the symbol table [_functions] and [_output], together
    with the store of the runtime, where every expression built so far
    is kept under the identity of its handle. *)
Record self := {
  _functions : gmap string Function;
  _output : option ops.node;
  definitions : gmap nat ops.node;
  next_uid : nat
}.

Definition init : self :=
  {| _functions := ∅; _output := None; definitions := ∅; next_uid := 0 |}.

Section runtime.

(** Shape inference belongs to the runtime. *)
Variable infer_shape : ops.node -> list Z.

(** [cntk.input(shape, name)] bound to [name]. *)
Definition bind_input (st : self) (name : string) (tensor : list Z) : self :=
  let input_var := {| uid := next_uid st; output_shape := tensor |} in
  {| _functions := <[name := input_var]> (_functions st);
     _output := _output st;
     definitions := definitions st;
     next_uid := S (next_uid st) |}.

Definition instance_input (cntk_tensor : option (list (string * list Z)))
    (data_providers : list data_provider) (st : self) : self :=
  match cntk_tensor with
  | Some items =>
      fold_left (fun st item => bind_input st (fst item) (snd item)) items st
  | None =>
      fold_left (fun st data_provider =>
                   bind_input st (dp_op_name data_provider) (dp_tensor data_provider))
                data_providers st
  end.

Definition lookup_function (st : self) (name : string) : result Function :=
  match _functions st !! name with
  | Some f => Ok f
  | None => Raise (KeyError name)
  end.

(** The inner loop over [cntk_layer.inputs]. *)
Definition resolve_input (st : self) (acc : list Function * gset Function)
    (local_input : string) : result (list Function * gset Function) :=
  let '(local_inputs, usused_func) := acc in
  f ← lookup_function st local_input;
  Ok (local_inputs ++ [f],
      if bool_decide (f ∈ usused_func) then usused_func ∖ {[f]} else usused_func).

(** One turn of the outer loop. *)
Definition instance_layer (cntk_layers : gmap string cntk_layer)
    (acc : self * gset Function) (cntk_sorted_layer : string)
  : result (self * gset Function) :=
  let '(st, usused_func) := acc in
  cntk_layer ← from_option Ok (Raise (KeyError cntk_sorted_layer))
                 (cntk_layers !! cntk_sorted_layer);
  resolved ← foldM (resolve_input st) ([], usused_func) (inputs cntk_layer);
  let '(local_inputs, usused_func) := resolved in
  build ← ApiSetup.getattr (op_type cntk_layer);
  expr ← build cntk_layer local_inputs;
  let f := {| uid := next_uid st; output_shape := infer_shape expr |} in
  Ok ({| _functions := <[op_name cntk_layer := f]> (_functions st);
         _output := _output st;
         definitions := <[uid f := expr]> (definitions st);
         next_uid := S (next_uid st) |},
      usused_func ∪ {[f]}).

Definition instance_functions (cntk_sorted_layers : list string)
    (cntk_layers : gmap string cntk_layer) (st : self) : result self :=
  final ← foldM (instance_layer cntk_layers) (st, ∅) cntk_sorted_layers;
  let '(st, usused_func) := final in
  Ok {| _functions := _functions st;
        _output := Some (ops.combine (ops.Output <$> elements usused_func) "outputs");
        definitions := definitions st;
        next_uid := next_uid st |}.

(** [__init__] and [__instance__]. *)
Definition new (cntk_uni_model : cntk_uni_model)
    (cntk_tensor : option (list (string * list Z))) : result self :=
  instance_functions (cntk_sorted_layers cntk_uni_model) (cntk_layers cntk_uni_model)
    (instance_input cntk_tensor (data_providers cntk_uni_model) init).

End runtime.

(** The descriptors of the layers, in the order in which they are
    processed. *)
Definition descriptors (cntk_uni_model : cntk_uni_model) : list cntk_layer :=
  omap (fun cntk_sorted_layer => cntk_layers cntk_uni_model !! cntk_sorted_layer)
       (cntk_sorted_layers cntk_uni_model).

(** The identifiers bound by [instance_input]. *)
Definition input_names (cntk_uni_model : cntk_uni_model)
    (cntk_tensor : option (list (string * list Z))) : list string :=
  match cntk_tensor with
  | Some items => fst <$> items
  | None => dp_op_name <$> data_providers cntk_uni_model
  end.

(** What holds of the symbol table and of [usused_func] once the layers
    [processed] have been built, starting from the table [bound]. *)
Record assembled (bound : gmap string Function) (processed : list cntk_layer)
    (st : self) (usused_func : gset Function) : Prop := {
  assembled_fresh : forall name f,
    _functions st !! name = Some f -> (uid f < next_uid st)%nat;
  assembled_names : forall name,
    is_Some (_functions st !! name)
    <-> is_Some (bound !! name) \/ name ∈ op_name <$> processed;
  assembled_inputs : forall l x,
    l ∈ processed -> x ∈ inputs l -> is_Some (_functions st !! x);
  assembled_acyclic : forall l, l ∈ processed -> op_name l ∉ inputs l;
  assembled_own : forall l f name,
    l ∈ processed -> _functions st !! op_name l = Some f ->
    _functions st !! name = Some f -> name = op_name l;
  assembled_unused : forall f,
    f ∈ usused_func
    <-> exists l, l ∈ processed /\ _functions st !! op_name l = Some f /\
                  forall l', l' ∈ processed -> op_name l ∉ inputs l'
}.

Definition get_model (st : self) : option ops.node := _output st.
Definition get_functions (st : self) : gmap string Function := _functions st.

End CntkApiInstance.

(** ** Evaluator *)

Module Evaluator.

(** What [eval_model] reads from [classify_eval_solver] before it starts
    to evaluate. *)
Record classify_eval_solver := {
  index_map : option string;
  mean_file : option string
}.

(** How a call ends: by the early [return], or by going on to build the
    reader from the two files and to run the minibatches. *)
Inductive outcome :=
| Returned
| Evaluation (map_file : string) (mean_file : option string).

Definition newline : string := String (Ascii.ascii_of_nat 10) "".

(** The lines written to [sys.stdout] and the outcome. *)
Definition eval_model (solver : classify_eval_solver) : list string * outcome :=
  let stdout := ["start eval..." +:+ newline; "launch map and mean files" +:+ newline] in
  let map_file := index_map solver in
  let mean_file := mean_file solver in
  match map_file with
  | None => (stdout ++ ["fail to locate index files, eval exit." +:+ newline], Returned)
  | Some map_file => (stdout, Evaluation map_file mean_file)
  end.

(** The transforms of [cntk.io.transforms] and the reader made of them. *)
Inductive transform :=
| crop (crop_type : string) (side_ratio : Q)
| scale (width height channels : Z) (interpolations : string)
| mean (filename : option string).

Record MinibatchSource := {
  image_map : string;
  features : list transform;
  labels : Z
}.

(** The truth value of an optional string: [None] and the empty string
    are false. *)
Definition truthy (s : option string) : bool :=
  match s with
  | Some (String _ _) => true
  | _ => false
  end.

(** [create_reader]; [crop_type] and [crop_ratio] are read from the
    evaluation solver. *)
Definition create_reader (crop_type : option string) (crop_ratio : Q)
    (map_file : string) (mean_file : option string) (input_tensor : list Z)
  : result MinibatchSource :=
  let transforms := [] in
  let transforms :=
    if truthy crop_type then transforms ++ [crop (default EmptyString crop_type) crop_ratio]
    else transforms in
  width ← Py.getitem input_tensor 1;
  height ← Py.getitem input_tensor 2;
  channels ← Py.getitem input_tensor 0;
  let transforms := transforms ++ [scale width height channels "linear"; mean mean_file] in
  label_shape ← Py.getitem input_tensor 3;
  Ok {| image_map := map_file; features := transforms; labels := label_shape |}.

(** The two lines that the evaluation writes, with the numbers that are
    formatted into them. *)
Inductive report :=
| progress (error : Q) (test_range : Z)
| final (error : Q).

(** [int(a / b)] on integers. *)
Definition int_truediv (a b : Z) : result Z :=
  if b =? 0 then Raise ZeroDivisionError else Ok (Z.quot a b).

Section minibatches.

(** The error that the trainer reports for the minibatch read on turn [i]. *)
Variable test_minibatch : Z -> Q.

(** One turn of the loop over the minibatches: the state is [test_result]
    and what was written so far. *)
Definition eval_turn (test_minibatch_size : Z) (acc : Q * list report) (i : Z)
  : result (Q * list report) :=
  let '(test_result, stdout) := acc in
  let eval_error := test_minibatch i in
  let test_result := (test_result + eval_error)%Q in
  if i mod 100 =? 0 then
    error ← Py.truediv test_result (inject_Z (i + 1));
    Ok (test_result, stdout ++ [progress error (i * test_minibatch_size)])
  else Ok (test_result, stdout).

(** The end of [eval_model]: the loop and the final line. *)
Definition eval_loop (num_samples test_minibatch_size : Z) : result (list report) :=
  let test_result := 0%Q in
  batches ← int_truediv num_samples test_minibatch_size;
  looped ← foldM (eval_turn test_minibatch_size) (test_result, []) (Py.range batches);
  let '(test_result, stdout) := looped in
  batches ← int_truediv num_samples test_minibatch_size;
  error ← Py.truediv test_result (inject_Z batches);
  Ok (stdout ++ [final error]).

(** The sum of the errors of the first [n] minibatches, as the loop adds
    them up. *)
Definition running_total (n : Z) : Q :=
  fold_left (fun test_result i => (test_result + test_minibatch i)%Q) (Py.range n) 0%Q.

End minibatches.

End Evaluator.

(** ** Concrete inputs used by the examples below *)

Module Examples.
Import UniModel.

Definition hyper : parameters :=
  {| output := 8; kernel := [3; 3]; stride := [1; 1]; auto_pad := true;
     need_bias := true; group := 1; dilation := [1; 1]; epsilon := (1 # 100000)%Q;
     pooling_type := false; num_output := 3; transpose := true; top_n := 1;
     k := 1; kernel_size := 5; alpha := (1 # 10000)%Q; beta := (3 # 4)%Q;
     group_size := 1; out_channel := 1 |}.

Definition layer (name type : string) (inputs : list string)
    (tensors : option (list tensor)) : cntk_layer :=
  {| op_name := name; op_type := type; inputs := inputs; params := hyper;
     parameter_tensor := tensors |}.

Definition vector (entries : list Q) : tensor :=
  {| data := {| shape := [length entries]; flat := entries |} |}.

(** An input of two channels. *)
Definition feature_map : Function := {| uid := 0; output_shape := [2; 4; 4] |}.
Definition other_map : Function := {| uid := 1; output_shape := [2; 4; 4] |}.
Definition third_map : Function := {| uid := 2; output_shape := [2; 4; 4] |}.

Definition saved_mean : tensor := vector [1 # 2; 3]%Q.
Definition saved_variance : tensor := vector [4; 1 # 4]%Q.
Definition zero_scale : tensor := vector [0]%Q.
Definition gamma : tensor := vector [2; 2]%Q.
Definition shift : tensor := vector [1; -1]%Q.

Definition batch_norm (tensors : list tensor) : cntk_layer :=
  layer "bn" "batch_normalization" ["conv"] (Some tensors).

(** A convolution of one input channel and two output channels, with a
    kernel of 1 by 2 and a bias. *)
Definition image : Function := {| uid := 0; output_shape := [1; 4; 4] |}.

Definition conv_kernel : tensor :=
  {| data := {| shape := [2; 1; 1; 2]%nat; flat := [1; 2; 3; 4]%Q |} |}.

Definition conv : cntk_layer :=
  {| op_name := "conv"; op_type := "convolution"; inputs := ["image"];
     params := {| output := 2; kernel := [2; 1]; stride := [1; 1]; auto_pad := true;
                  need_bias := true; group := 1; dilation := [2; 1];
                  epsilon := 0; pooling_type := false; num_output := 0;
                  transpose := false; top_n := 1; k := 1; kernel_size := 1;
                  alpha := 0; beta := 0; group_size := 1; out_channel := 1 |};
     parameter_tensor := Some [conv_kernel; gamma] |}.

(** The weight of a dense layer from three features to two outputs. *)
Definition dense_weight : ndarray :=
  {| shape := [6%nat]; flat := [1; 2; 3; 4; 5; 6]%Q |}.

(** Four layers with one branch: [A] feeds [B] and [C], which both feed
    [D]. *)
Definition diamond : cntk_uni_model :=
  {| data_providers := [ {| dp_op_name := "data"; dp_tensor := [2; 4; 4] |} ];
     cntk_sorted_layers := ["A"; "B"; "C"; "D"];
     cntk_layers :=
       list_to_map [ ("A", layer "A" "relu" ["data"] None);
                     ("B", layer "B" "relu" ["A"] None);
                     ("C", layer "C" "dropout" ["A"] None);
                     ("D", layer "D" "plus" ["B"; "C"] None) ] |}.

(** Every output has the shape of the input here. *)
Definition same_shape (expr : ops.node) : list Z := [2; 4; 4].

End Examples.

(** * Properties *)

Lemma bind_Ok {A B} (a : A) (f : A -> result B) : (Ok a ≫= f) = f a.
Proof. reflexivity. Qed.

Lemma bind_Raise {A B} (e : py_error) (f : A -> result B) : (Raise e ≫= f) = Raise e.
Proof. reflexivity. Qed.

Lemma bind_inv {A B} (m : result A) (f : A -> result B) (b : B) :
  (m ≫= f) = Ok b -> exists a, m = Ok a /\ f a = Ok b.
Proof. destruct m as [a|e]; simpl; [eauto | discriminate]. Qed.

Lemma fmap_inv {A B} (m : result A) (f : A -> B) (b : B) :
  (f <$> m) = Ok b -> exists a, m = Ok a /\ f a = b.
Proof. destruct m as [a|e]; simpl; [intros [= <-]; eauto | discriminate]. Qed.

Lemma getitem_cons_0 {A} (x : A) (l : list A) : Py.getitem (x :: l) 0 = Ok x.
Proof. reflexivity. Qed.

(** ** Batch normalization *)

Section batch_normalization.
Import UniModel.

Lemma batch_normalization_init_rejects (cntk_layer : cntk_layer) ts :
  parameter_tensor cntk_layer = Some ts -> ts <> [] -> (length ts < 3)%nat ->
  ApiSetup.batch_normalization_init cntk_layer = Raise (AssertionError ApiSetup.three_tensors_needed).
Proof.
  intros Hts Hne Hlen.
  unfold ApiSetup.batch_normalization_init, has_tensors, tensors.
  rewrite Hts. destruct ts as [|t ts]; [done|]. simpl default.
  destruct (Nat.ltb_spec (length (t :: ts)) 3); [reflexivity|lia].
Qed.

(** C2.  A batch-normalization layer whose list of pretrained tensors is
    not empty but holds fewer than three tensors is never built: for every
    list of inputs the builder raises, and as soon as the first input is
    there with a channel axis the exception is the validation error. *)
Theorem batch_normalization_needs_three_tensors :
  forall (cntk_layer : cntk_layer) (ts : list tensor) (inputs : list Function),
    parameter_tensor cntk_layer = Some ts ->
    ts <> [] ->
    (length ts < 3)%nat ->
    (forall expr, ApiSetup.batch_normalization cntk_layer inputs <> Ok expr) /\
    (forall x rest channels dims,
        inputs = x :: rest ->
        output_shape x = channels :: dims ->
        ApiSetup.batch_normalization cntk_layer inputs
        = Raise (AssertionError ApiSetup.three_tensors_needed)).
Proof.
  intros cntk_layer ts inputs Hts Hne Hlen.
  pose proof (batch_normalization_init_rejects _ _ Hts Hne Hlen) as Hinit.
  unfold ApiSetup.batch_normalization. split.
  - intros expr.
    destruct (Py.getitem inputs 0) as [x|e]; simpl; [|discriminate].
    destruct (Py.getitem (output_shape (ops.sanitize_input x)) 0); simpl; [|discriminate].
    rewrite Hinit. discriminate.
  - intros x rest channels dims -> Hshape. simpl.
    unfold ops.sanitize_input. rewrite Hshape. simpl. now rewrite Hinit.
Qed.

Lemma batch_normalization_needs_three_tensors_witness :
  (length [Examples.saved_mean; Examples.saved_variance] < 3)%nat /\
  ApiSetup.batch_normalization
    (Examples.batch_norm [Examples.saved_mean; Examples.saved_variance])
    [Examples.feature_map]
  = Raise (AssertionError ApiSetup.three_tensors_needed).
Proof.
  split; [simpl; lia|].
  eapply (proj2 (batch_normalization_needs_three_tensors
                   (Examples.batch_norm [Examples.saved_mean; Examples.saved_variance])
                   [Examples.saved_mean; Examples.saved_variance]
                   [Examples.feature_map] eq_refl ltac:(discriminate) ltac:(simpl; lia)));
    reflexivity.
Defined.

Lemma inverse_scale_total (global_scale : Q) :
  ApiSetup.inverse_scale global_scale
  = Ok (if Qeq_bool global_scale 0 then 0 else 1 / global_scale)%Q.
Proof.
  unfold ApiSetup.inverse_scale, Py.truediv.
  destruct (Qeq_bool global_scale 0); reflexivity.
Qed.

Lemma scale_by_zero (a : ndarray) (c : Q) :
  (c == 0)%Q -> Forall (fun x => (x == 0)%Q) (flat (numpy.scale a c)).
Proof.
  intros Hc. unfold numpy.scale. simpl. apply List.Forall_forall.
  intros x [y [<- _]]%in_map_iff. rewrite Hc. ring.
Qed.

(** What the builder computes from a list of at least three tensors. *)
Lemma batch_normalization_init_three (cntk_layer : cntk_layer)
    mean_tensor variance_tensor scale_tensor rest global_scale :
  parameter_tensor cntk_layer
  = Some (mean_tensor :: variance_tensor :: scale_tensor :: rest) ->
  numpy.item0 (data scale_tensor) = Ok global_scale ->
  let inv_scale := (if Qeq_bool global_scale 0 then 0 else 1 / global_scale)%Q in
  let mean_init := InitArray (numpy.scale (data mean_tensor) inv_scale) in
  let var_init := InitArray (numpy.scale (data variance_tensor) inv_scale) in
  ApiSetup.batch_normalization_init cntk_layer
  = Ok (match rest with
        | [scale_tensor; bias_tensor] =>
            (InitArray (data scale_tensor), InitArray (data bias_tensor),
             mean_init, var_init)
        | _ => (InitScalar inv_scale, InitScalar 0, mean_init, var_init)
        end).
Proof.
  intros Hts Hscale. cbv zeta.
  unfold ApiSetup.batch_normalization_init, has_tensors, tensors.
  rewrite Hts. simpl default.
  replace (length (mean_tensor :: variance_tensor :: scale_tensor :: rest) <? 3)%nat
    with false by (symmetry; apply Nat.ltb_ge; simpl; lia).
  simpl. rewrite Hscale. simpl. rewrite inverse_scale_total. simpl.
  destruct rest as [|s [|b [|x rest]]]; reflexivity.
Qed.

(** What the builder returns for a list of at least three tensors, on an
    input with a channel axis. *)
Lemma batch_normalization_built (cntk_layer : cntk_layer)
    mean_tensor variance_tensor scale_tensor rest global_scale
    (x : Function) (inputs : list Function) (channels : Z) (dims : list Z) :
  parameter_tensor cntk_layer
  = Some (mean_tensor :: variance_tensor :: scale_tensor :: rest) ->
  numpy.item0 (data scale_tensor) = Ok global_scale ->
  output_shape x = channels :: dims ->
  let inv_scale := (if Qeq_bool global_scale 0 then 0 else 1 / global_scale)%Q in
  let rescaled t := {| shape := shape (data t);
                       flat := map (fun v => (v * inv_scale)%Q) (flat (data t)) |} in
  let name := op_name cntk_layer in
  let built scale_init bias_init :=
    ops.batch_normalization (ops.Output x)
      (ops.parameter [channels] scale_init (join_dot [name; "scale"]))
      (ops.parameter [channels] bias_init (join_dot [name; "bias"]))
      (ops.parameter [channels] (InitArray (rescaled mean_tensor)) (join_dot [name; "mean"]))
      (ops.parameter [channels] (InitArray (rescaled variance_tensor))
         (join_dot [name; "var"]))
      true false (epsilon (params cntk_layer)) (ops.constant 0 [] "") name in
  ApiSetup.batch_normalization cntk_layer (x :: inputs)
  = Ok (match rest with
        | [affine_scale; affine_bias] =>
            built (InitArray (data affine_scale)) (InitArray (data affine_bias))
        | _ => built (InitScalar inv_scale) (InitScalar 0)
        end).
Proof.
  intros Hts Hscale Hshape. cbv zeta.
  pose proof (batch_normalization_init_three _ _ _ _ _ _ Hts Hscale) as Hinit.
  cbv zeta in Hinit.
  unfold ApiSetup.batch_normalization. simpl.
  unfold ops.sanitize_input. rewrite Hshape. simpl. rewrite Hinit.
  destruct rest as [|s [|b [|t rest']]]; reflexivity.
Qed.

(** C3.  With at least three pretrained tensors, a global scale equal to
    zero gives the inverse scale 0 and no exception, and any other global
    scale gives its inverse.  The arrays that the builder hands to the
    parameters of the running mean and of the running variance are the raw
    tensors with every entry multiplied by the inverse scale, in the shape
    of the raw tensors; with a global scale of zero the builder still
    returns its node, and these arrays have as many entries as the raw
    tensors, all of them zero. *)
Theorem batch_normalization_inverse_scale :
  forall (cntk_layer : cntk_layer) mean_tensor variance_tensor scale_tensor rest
         (global_scale : Q) (x : Function) (inputs : list Function)
         (channels : Z) (dims : list Z),
    parameter_tensor cntk_layer
    = Some (mean_tensor :: variance_tensor :: scale_tensor :: rest) ->
    numpy.item0 (data scale_tensor) = Ok global_scale ->
    output_shape x = channels :: dims ->
    exists inv_scale scale_init bias_init,
      ApiSetup.inverse_scale global_scale = Ok inv_scale /\
      ((global_scale == 0)%Q -> inv_scale = 0%Q) /\
      (~ (global_scale == 0)%Q -> inv_scale = (1 / global_scale)%Q) /\
      let rescaled t := {| shape := shape (data t);
                           flat := map (fun v => (v * inv_scale)%Q) (flat (data t)) |} in
      let name := op_name cntk_layer in
      ApiSetup.batch_normalization_init cntk_layer
      = Ok (scale_init, bias_init,
            InitArray (rescaled mean_tensor), InitArray (rescaled variance_tensor)) /\
      ApiSetup.batch_normalization cntk_layer (x :: inputs)
      = Ok (ops.batch_normalization (ops.Output x)
              (ops.parameter [channels] scale_init (join_dot [name; "scale"]))
              (ops.parameter [channels] bias_init (join_dot [name; "bias"]))
              (ops.parameter [channels] (InitArray (rescaled mean_tensor))
                 (join_dot [name; "mean"]))
              (ops.parameter [channels] (InitArray (rescaled variance_tensor))
                 (join_dot [name; "var"]))
              true false (epsilon (params cntk_layer)) (ops.constant 0 [] "") name) /\
      ((global_scale == 0)%Q ->
       length (flat (rescaled mean_tensor)) = length (flat (data mean_tensor)) /\
       length (flat (rescaled variance_tensor)) = length (flat (data variance_tensor)) /\
       Forall (fun v => (v == 0)%Q) (flat (rescaled mean_tensor)) /\
       Forall (fun v => (v == 0)%Q) (flat (rescaled variance_tensor))).
Proof.
  intros cntk_layer mean_tensor variance_tensor scale_tensor rest global_scale
         x inputs channels dims Hts Hscale Hshape.
  pose proof (batch_normalization_init_three _ _ _ _ _ _ Hts Hscale) as Hinit.
  pose proof (batch_normalization_built _ _ _ _ _ _ x inputs _ _ Hts Hscale Hshape)
    as Hbuilt.
  cbv zeta in Hinit, Hbuilt.
  set (inv_scale := (if Qeq_bool global_scale 0 then 0 else 1 / global_scale)%Q) in *.
  assert (Hzero : (global_scale == 0)%Q -> inv_scale = 0%Q).
  { intros H%Qeq_bool_iff. subst inv_scale. now rewrite H. }
  assert (Hinv : ~ (global_scale == 0)%Q -> inv_scale = (1 / global_scale)%Q).
  { intros H. subst inv_scale.
    destruct (Qeq_bool global_scale 0) eqn:E; [|reflexivity].
    apply Qeq_bool_iff in E. contradiction. }
  assert (Hall : forall t : tensor,
             (global_scale == 0)%Q ->
             Forall (fun v => (v == 0)%Q) (map (fun v => (v * inv_scale)%Q) (flat (data t)))).
  { intros t H0. rewrite (Hzero H0). apply (scale_by_zero (data t) 0). reflexivity. }
  assert (Hboth : exists scale_init bias_init,
             ApiSetup.batch_normalization_init cntk_layer
             = Ok (scale_init, bias_init,
                   InitArray (numpy.scale (data mean_tensor) inv_scale),
                   InitArray (numpy.scale (data variance_tensor) inv_scale)) /\
             ApiSetup.batch_normalization cntk_layer (x :: inputs)
             = Ok (ops.batch_normalization (ops.Output x)
                     (ops.parameter [channels] scale_init
                        (join_dot [op_name cntk_layer; "scale"]))
                     (ops.parameter [channels] bias_init
                        (join_dot [op_name cntk_layer; "bias"]))
                     (ops.parameter [channels]
                        (InitArray (numpy.scale (data mean_tensor) inv_scale))
                        (join_dot [op_name cntk_layer; "mean"]))
                     (ops.parameter [channels]
                        (InitArray (numpy.scale (data variance_tensor) inv_scale))
                        (join_dot [op_name cntk_layer; "var"]))
                     true false (epsilon (params cntk_layer)) (ops.constant 0 [] "")
                     (op_name cntk_layer))).
  { rewrite Hinit, Hbuilt. destruct rest as [|s [|b [|t rest']]]; eauto. }
  destruct Hboth as (scale_init & bias_init & Hinit' & Hbuilt').
  exists inv_scale, scale_init, bias_init.
  split; [apply inverse_scale_total|].
  split; [exact Hzero|]. split; [exact Hinv|]. cbv zeta.
  split; [exact Hinit'|]. split; [exact Hbuilt'|].
  intros H0. cbn [flat]. rewrite !length_map. auto.
Qed.

Lemma batch_normalization_inverse_scale_witness :
  numpy.item0 (data Examples.zero_scale) = Ok 0%Q /\
  ApiSetup.batch_normalization
    (Examples.batch_norm
       [Examples.saved_mean; Examples.saved_variance; Examples.zero_scale])
    [Examples.feature_map]
  = Ok (ops.batch_normalization (ops.Output Examples.feature_map)
          (ops.parameter [2] (InitScalar 0) "bn.scale")
          (ops.parameter [2] (InitScalar 0) "bn.bias")
          (ops.parameter [2]
             (InitArray {| shape := [2%nat]; flat := [(1 # 2) * 0; 3 * 0]%Q |}) "bn.mean")
          (ops.parameter [2]
             (InitArray {| shape := [2%nat]; flat := [4 * 0; (1 # 4) * 0]%Q |}) "bn.var")
          true false (1 # 100000)%Q (ops.constant 0 [] "") "bn").
Proof.
  split; [reflexivity|].
  destruct (batch_normalization_inverse_scale
              (Examples.batch_norm
                 [Examples.saved_mean; Examples.saved_variance; Examples.zero_scale])
              Examples.saved_mean Examples.saved_variance Examples.zero_scale []
              0%Q Examples.feature_map [] 2 [4; 4] eq_refl eq_refl eq_refl)
    as (inv_scale & scale_init & bias_init & _ & Hzero & _ & Hinit & Hbuilt & _).
  rewrite (Hzero (Qeq_refl 0)) in Hinit, Hbuilt.
  rewrite Hbuilt. injection Hinit as <- <-. reflexivity.
Defined.

(** C4.  With exactly five tensors the builder makes the scale and the
    bias parameter from the fourth and the fifth tensor as they are; with
    three or more tensors but not five, the scale is the inverse global
    scale and the bias is 0.  Which of the two holds depends on the number
    of tensors only, and in both the parameters of the running mean and of
    the running variance are made from the raw tensors with every entry
    multiplied by the inverse global scale, and by nothing else. *)
Theorem batch_normalization_three_or_five :
  forall (cntk_layer : cntk_layer) mean_tensor variance_tensor scale_tensor rest
         (global_scale : Q) (x : Function) (inputs : list Function)
         (channels : Z) (dims : list Z),
    parameter_tensor cntk_layer
    = Some (mean_tensor :: variance_tensor :: scale_tensor :: rest) ->
    numpy.item0 (data scale_tensor) = Ok global_scale ->
    output_shape x = channels :: dims ->
    exists inv_scale,
      ApiSetup.inverse_scale global_scale = Ok inv_scale /\
      let rescaled t := {| shape := shape (data t);
                           flat := map (fun v => (v * inv_scale)%Q) (flat (data t)) |} in
      let mean_init := InitArray (rescaled mean_tensor) in
      let var_init := InitArray (rescaled variance_tensor) in
      let name := op_name cntk_layer in
      let built scale_init bias_init :=
        ops.batch_normalization (ops.Output x)
          (ops.parameter [channels] scale_init (join_dot [name; "scale"]))
          (ops.parameter [channels] bias_init (join_dot [name; "bias"]))
          (ops.parameter [channels] mean_init (join_dot [name; "mean"]))
          (ops.parameter [channels] var_init (join_dot [name; "var"]))
          true false (epsilon (params cntk_layer)) (ops.constant 0 [] "") name in
      (forall affine_scale affine_bias,
          rest = [affine_scale; affine_bias] ->
          ApiSetup.batch_normalization_init cntk_layer
          = Ok (InitArray (data affine_scale), InitArray (data affine_bias),
                mean_init, var_init) /\
          ApiSetup.batch_normalization cntk_layer (x :: inputs)
          = Ok (built (InitArray (data affine_scale)) (InitArray (data affine_bias)))) /\
      (length rest <> 2%nat ->
       ApiSetup.batch_normalization_init cntk_layer
       = Ok (InitScalar inv_scale, InitScalar 0, mean_init, var_init) /\
       ApiSetup.batch_normalization cntk_layer (x :: inputs)
       = Ok (built (InitScalar inv_scale) (InitScalar 0))).
Proof.
  intros cntk_layer mean_tensor variance_tensor scale_tensor rest global_scale
         x inputs channels dims Hts Hscale Hshape.
  pose proof (batch_normalization_init_three _ _ _ _ _ _ Hts Hscale) as Hinit.
  pose proof (batch_normalization_built _ _ _ _ _ _ x inputs _ _ Hts Hscale Hshape)
    as Hbuilt.
  cbv zeta in Hinit, Hbuilt |- *.
  eexists. split; [apply inverse_scale_total|]. split.
  - intros affine_scale affine_bias ->. split; [exact Hinit|exact Hbuilt].
  - intros Hlen. rewrite Hinit, Hbuilt.
    destruct rest as [|s [|b [|t rest']]]; try (split; reflexivity). now destruct Hlen.
Qed.

Lemma batch_normalization_three_or_five_witness :
  ApiSetup.batch_normalization
    (Examples.batch_norm [Examples.saved_mean; Examples.saved_variance;
                          Examples.zero_scale; Examples.gamma; Examples.shift])
    [Examples.feature_map]
  = Ok (ops.batch_normalization (ops.Output Examples.feature_map)
          (ops.parameter [2] (InitArray (data Examples.gamma)) "bn.scale")
          (ops.parameter [2] (InitArray (data Examples.shift)) "bn.bias")
          (ops.parameter [2]
             (InitArray {| shape := [2%nat]; flat := [(1 # 2) * 0; 3 * 0]%Q |}) "bn.mean")
          (ops.parameter [2]
             (InitArray {| shape := [2%nat]; flat := [4 * 0; (1 # 4) * 0]%Q |}) "bn.var")
          true false (1 # 100000)%Q (ops.constant 0 [] "") "bn").
Proof.
  destruct (batch_normalization_three_or_five
              (Examples.batch_norm
                 [Examples.saved_mean; Examples.saved_variance;
                  Examples.zero_scale; Examples.gamma; Examples.shift])
              Examples.saved_mean Examples.saved_variance Examples.zero_scale
              [Examples.gamma; Examples.shift] 0%Q Examples.feature_map [] 2 [4; 4]
              eq_refl eq_refl eq_refl)
    as (inv_scale & Hinv & Hfive & _).
  injection Hinv as <-.
  exact (proj2 (Hfive Examples.gamma Examples.shift eq_refl)).
Defined.

End batch_normalization.

(** ** The builders of two inputs *)

Section pairwise.
Import UniModel.

(** C8, as the code has it.  No builder of two inputs checks how many
    handles it is given.  Each reads the first two: with fewer than two
    the indexing raises [IndexError] and the native operation is not
    built; with two or more the native operation is built on the first
    two, whatever follows them. *)
Theorem pairwise_builders_read_two_inputs :
  forall (cntk_layer : cntk_layer) (inputs : list Function),
    (forall left right rest,
        inputs = left :: right :: rest ->
        ApiSetup.plus cntk_layer inputs
        = Ok (ops.plus (ops.Output left) (ops.Output right) (op_name cntk_layer)) /\
        ApiSetup.cross_entropy_with_softmax cntk_layer inputs
        = Ok (ops.cross_entropy_with_softmax (ops.Output left) (ops.Output right)
                (op_name cntk_layer)) /\
        ApiSetup.classification_error cntk_layer inputs
        = Ok (ops.classification_error (ops.Output left) (ops.Output right)
                (top_n (params cntk_layer)) (op_name cntk_layer))) /\
    ((length inputs < 2)%nat ->
     ApiSetup.plus cntk_layer inputs = Raise IndexError /\
     ApiSetup.cross_entropy_with_softmax cntk_layer inputs = Raise IndexError /\
     ApiSetup.classification_error cntk_layer inputs = Raise IndexError).
Proof.
  intros cntk_layer inputs. split.
  - intros left right rest ->. repeat split.
  - intros Hlen. destruct inputs as [|x [|y rest]]; simpl in Hlen; try lia;
      repeat split.
Qed.

Lemma pairwise_builders_read_two_inputs_witness :
  ApiSetup.plus (Examples.layer "sum" "plus" ["left"; "right"] None)
    [Examples.feature_map; Examples.other_map]
  = Ok (ops.plus (ops.Output Examples.feature_map) (ops.Output Examples.other_map) "sum") /\
  ApiSetup.plus (Examples.layer "sum" "plus" ["left"] None) [Examples.feature_map]
  = Raise IndexError.
Proof.
  split.
  - exact (proj1 (proj1 (pairwise_builders_read_two_inputs
                           (Examples.layer "sum" "plus" ["left"; "right"] None)
                           [Examples.feature_map; Examples.other_map])
                    Examples.feature_map Examples.other_map [] eq_refl)).
  - exact (proj1 (proj2 (pairwise_builders_read_two_inputs
                           (Examples.layer "sum" "plus" ["left"] None)
                           [Examples.feature_map])
                    ltac:(simpl; lia))).
Defined.

(** C8, as stated, fails: three handles are not two, and the addition is
    built all the same. *)
Lemma pairwise_arity_is_not_validated :
  ~ (forall (cntk_layer : cntk_layer) (inputs : list Function),
        length inputs <> 2%nat ->
        exists e, ApiSetup.plus cntk_layer inputs = Raise e).
Proof.
  intros Hclaim.
  destruct (Hclaim (Examples.layer "sum" "plus" ["a"; "b"; "c"] None)
              [Examples.feature_map; Examples.other_map; Examples.third_map]
              ltac:(discriminate)) as [e He].
  discriminate He.
Qed.

End pairwise.

(** ** Dense layers *)

Section dense.
Import UniModel.

(** C10.  A dense layer without pretrained tensors is never built: the
    initial values are not bound when [linear] is called.  A dense layer
    is built only from exactly two tensors, and any other number of
    tensors that is not zero is refused by the assertion. *)
Theorem dense_needs_two_tensors :
  forall (cntk_layer : cntk_layer) (inputs : list Function),
    (has_tensors cntk_layer = false ->
     (forall expr, ApiSetup.dense cntk_layer inputs <> Ok expr) /\
     (forall x rest channels dims,
         inputs = x :: rest ->
         output_shape x = channels :: dims ->
         ApiSetup.dense cntk_layer inputs = Raise (UnboundLocalError "scale_init"))) /\
    (forall expr,
        ApiSetup.dense cntk_layer inputs = Ok expr ->
        exists scale_tensor bias_tensor,
          parameter_tensor cntk_layer = Some [scale_tensor; bias_tensor]) /\
    (has_tensors cntk_layer = true ->
     length (tensors cntk_layer) <> 2%nat ->
     (forall expr, ApiSetup.dense cntk_layer inputs <> Ok expr) /\
     (forall x rest channels dims,
         inputs = x :: rest ->
         output_shape x = channels :: dims ->
         ApiSetup.dense cntk_layer inputs
         = Raise (AssertionError ApiSetup.two_inputs_needed))).
Proof.
  intros cntk_layer inputs. unfold ApiSetup.dense.
  split; [|split].
  - intros Hnone. rewrite Hnone. split.
    + intros expr.
      destruct (Py.getitem inputs 0) as [x|e]; simpl; [|discriminate].
      destruct (Py.reduce_mul _); simpl; discriminate.
    + intros x rest channels dims -> Hshape. simpl.
      unfold ops.sanitize_input. rewrite Hshape. reflexivity.
  - intros expr.
    destruct (Py.getitem inputs 0) as [x|e]; simpl; [|discriminate].
    destruct (Py.reduce_mul _) as [flattened|e]; simpl; [|discriminate].
    unfold has_tensors, tensors.
    destruct (parameter_tensor cntk_layer) as [[|s [|b [|t ts]]]|];
      simpl; try discriminate.
    intros _. eauto.
  - intros Hsome Hlen. split.
    + intros expr.
      destruct (Py.getitem inputs 0) as [x|e]; simpl; [|discriminate].
      destruct (Py.reduce_mul _) as [flattened|e]; simpl; [|discriminate].
      rewrite Hsome. rewrite bool_decide_true by exact Hlen. discriminate.
    + intros x rest channels dims -> Hshape. simpl.
      unfold ops.sanitize_input. rewrite Hshape. simpl.
      rewrite Hsome. rewrite bool_decide_true by exact Hlen. reflexivity.
Qed.

Lemma dense_needs_two_tensors_witness :
  ApiSetup.dense (Examples.layer "fc" "dense" ["pool"] None) [Examples.feature_map]
  = Raise (UnboundLocalError "scale_init") /\
  ApiSetup.dense (Examples.layer "fc" "dense" ["pool"] (Some [Examples.gamma]))
    [Examples.feature_map]
  = Raise (AssertionError ApiSetup.two_inputs_needed).
Proof.
  split.
  - exact (proj2 (proj1 (dense_needs_two_tensors
                           (Examples.layer "fc" "dense" ["pool"] None)
                           [Examples.feature_map]) eq_refl)
             Examples.feature_map [] 2 [4; 4] eq_refl eq_refl).
  - exact (proj2 (proj2 (proj2 (dense_needs_two_tensors
                           (Examples.layer "fc" "dense" ["pool"] (Some [Examples.gamma]))
                           [Examples.feature_map])) eq_refl ltac:(discriminate))
             Examples.feature_map [] 2 [4; 4] eq_refl eq_refl).
Defined.

End dense.

(** ** Convolution *)

Section convolution.
Import UniModel.

Lemma reshape_Ok (a b : ndarray) (newshape : list Z) :
  numpy.reshape a newshape = Ok b ->
  flat b = flat a /\
  (List.Forall (fun d => 0 <= d) newshape ->
   shape b = map Z.to_nat newshape /\
   fold_right Z.mul 1 newshape = Z.of_nat (length (flat a))).
Proof.
  unfold numpy.reshape.
  destruct (existsb _ newshape); [discriminate|].
  destruct (length (List.filter _ newshape)) as [|[|n]] eqn:Hunknown; [| |discriminate].
  - destruct (Z.eqb_spec (fold_right Z.mul 1
                (List.filter (fun d => negb (d =? -1)) newshape))
                (Z.of_nat (length (flat a)))) as [Hsize|]; [|discriminate].
    intros [= <-]. simpl. split; [reflexivity|]. intros Hpos. split; [reflexivity|].
    rewrite <- Hsize. f_equal. symmetry. apply forallb_filter_id.
    apply forallb_forall. intros d Hd.
    rewrite List.Forall_forall in Hpos. specialize (Hpos d Hd).
    apply negb_true_iff, Z.eqb_neq. lia.
  - destruct (_ || _); [discriminate|].
    intros [= <-]. simpl. split; [reflexivity|]. intros Hpos. exfalso.
    assert (Hnone : List.filter (fun d => d =? -1) newshape = []).
    { clear Hunknown. induction Hpos as [|d l Hd Hl IH]; [reflexivity|]. simpl.
      destruct (Z.eqb_spec d (-1)); [lia|exact IH]. }
    rewrite Hnone in Hunknown. discriminate.
Qed.

Lemma block_convolution_needs_kernel output kernel stride pad bias_init group dilation name :
  forall block,
    BlockApiSetup.convolution output kernel stride pad None bias_init group dilation name
    <> Ok block.
Proof.
  intros block. unfold BlockApiSetup.convolution.
  destruct (group =? 1); [discriminate|].
  destruct (group =? 0); discriminate.
Qed.

Lemma block_convolution_body output kernel stride pad kernel_init bias_init group
    dilation name block x :
  BlockApiSetup.convolution output kernel stride pad kernel_init bias_init group dilation name
  = Ok block ->
  exists apply_x,
    is_apply_x apply_x /\
    block x = ops.BlockFunction "Convolution" name
                match bias_init with
                | Some bias_init =>
                    ops.plus apply_x
                      (ops.parameter [output] (InitArray bias_init) (join_dot [name; "b"])) ""
                | None => apply_x
                end.
Proof.
  unfold BlockApiSetup.convolution.
  destruct (group =? 1).
  - intros (w & _ & [= <-])%bind_inv.
    eexists. split; [left; unfold BlockApiSetup.conv_ops; eauto 6|].
    destruct bias_init; reflexivity.
  - intros (_ & _ & (inits & _ & (kernels & _ & (first & _ & (sub & _ & [= <-])%bind_inv)
             %bind_inv)%bind_inv)%bind_inv)%bind_inv.
    eexists. split; [right; eauto|].
    destruct bias_init; reflexivity.
Qed.

(** C7.  In every convolution that is built, the block adds a bias
    parameter exactly when the layer asks for one ([need_bias]); this
    parameter is initialised with the second pretrained tensor reshaped
    to [(output_channels, 1, 1)]. *)
Theorem convolution_bias_iff_need_bias :
  forall (cntk_layer : cntk_layer) (inputs : list Function) (expr : ops.node),
    ApiSetup.convolution cntk_layer inputs = Ok expr ->
    exists body,
      expr = ops.BlockFunction "Convolution" (op_name cntk_layer) body /\
      if need_bias (params cntk_layer) then
        exists apply_x bias_data_tensor bias_init,
          is_apply_x apply_x /\
          tensors cntk_layer !! 1%nat = Some bias_data_tensor /\
          numpy.reshape (data bias_data_tensor) [output (params cntk_layer); 1; 1]
          = Ok bias_init /\
          flat bias_init = flat (data bias_data_tensor) /\
          (0 <= output (params cntk_layer) ->
           shape bias_init = [Z.to_nat (output (params cntk_layer)); 1%nat; 1%nat]) /\
          body = ops.plus apply_x
                   (ops.parameter [output (params cntk_layer)] (InitArray bias_init)
                      (join_dot [op_name cntk_layer; "b"])) ""
      else is_apply_x body.
Proof.
  intros cntk_layer inputs expr. unfold ApiSetup.convolution.
  intros (x & _ & (kernel_init & Hkernel & (bias_init & Hbias & (block & Hblock & [= <-])
            %bind_inv)%bind_inv)%bind_inv)%bind_inv.
  destruct (has_tensors cntk_layer) eqn:Htensors.
  2:{ injection Hkernel as <-. now apply block_convolution_needs_kernel in Hblock. }
  destruct (block_convolution_body _ _ _ _ _ _ _ _ _ _ (ops.Output x) Hblock)
    as (apply_x & Happly & ->).
  eexists. split; [reflexivity|].
  destruct (need_bias (params cntk_layer)).
  - apply bind_inv in Hbias as (bias_data_tensor & Hget & Hbias).
    apply fmap_inv in Hbias as (reshaped & Hreshape & <-).
    unfold Py.getitem in Hget.
    destruct (tensors cntk_layer !! 1%nat) as [t|] eqn:Hsecond; [|discriminate].
    injection Hget as ->.
    destruct (reshape_Ok _ _ _ Hreshape) as [Hflat Hshape].
    exists apply_x, bias_data_tensor, reshaped.
    repeat split; try assumption.
    intros Hpos. apply Hshape. repeat constructor; lia.
  - injection Hbias as <-. exact Happly.
Qed.

Lemma convolution_bias_iff_need_bias_witness :
  exists body,
    ApiSetup.convolution Examples.conv [Examples.image]
    = Ok (ops.BlockFunction "Convolution" "conv" body) /\
    exists apply_x bias_init,
      body = ops.plus apply_x
               (ops.parameter [2] (InitArray bias_init) "conv.b") "" /\
      shape bias_init = [2; 1; 1]%nat.
Proof.
  destruct (ApiSetup.convolution Examples.conv [Examples.image]) as [expr|e] eqn:Hbuilt;
    [|vm_compute in Hbuilt; discriminate].
  destruct (convolution_bias_iff_need_bias Examples.conv [Examples.image] expr Hbuilt)
    as (body & -> & apply_x & t & bias_init & _ & _ & _ & _ & Hshape & ->).
  eexists. split; [reflexivity|].
  exists apply_x, bias_init. split; [reflexivity|].
  apply Hshape. simpl. lia.
Defined.

End convolution.

(** ** Errors: the evaluator returns early, the assembler does not catch *)

Section errors.
Import UniModel.

Lemma foldM_app {S X} (body : S -> X -> result S) (s : S) (xs ys : list X) :
  foldM body s (xs ++ ys) = (foldM body s xs ≫= fun s' => foldM body s' ys).
Proof.
  revert s. induction xs as [|x xs IH]; intros s; simpl; [reflexivity|].
  destruct (body s x) as [s'|e]; simpl; [apply IH|reflexivity].
Qed.

(** C9, as the code has it.  Only the index map is looked at.  When it is
    missing, [eval_model] writes its two opening lines and the diagnostic
    and returns without raising and without starting the evaluation.
    When it is there the evaluation starts with the mean file as
    configured, missing or not.  An exception raised while a layer is
    built leaves [instance_functions] as it is. *)
Theorem eval_model_returns_early_without_index_map :
  (forall solver,
      Evaluator.index_map solver = None ->
      Evaluator.eval_model solver
      = (["start eval..." +:+ Evaluator.newline;
          "launch map and mean files" +:+ Evaluator.newline;
          "fail to locate index files, eval exit." +:+ Evaluator.newline],
         Evaluator.Returned)) /\
  (forall solver map_file,
      Evaluator.index_map solver = Some map_file ->
      Evaluator.eval_model solver
      = (["start eval..." +:+ Evaluator.newline;
          "launch map and mean files" +:+ Evaluator.newline],
         Evaluator.Evaluation map_file (Evaluator.mean_file solver))) /\
  (forall infer_shape cntk_layers st done acc cntk_sorted_layer rest e,
      foldM (CntkApiInstance.instance_layer infer_shape cntk_layers) (st, ∅) done = Ok acc ->
      CntkApiInstance.instance_layer infer_shape cntk_layers acc cntk_sorted_layer
      = Raise e ->
      CntkApiInstance.instance_functions infer_shape
        (done ++ cntk_sorted_layer :: rest) cntk_layers st
      = Raise e).
Proof.
  split; [|split].
  - intros solver Hnone. unfold Evaluator.eval_model. now rewrite Hnone.
  - intros solver map_file Hsome. unfold Evaluator.eval_model. now rewrite Hsome.
  - intros infer_shape cntk_layers st done acc cntk_sorted_layer rest e Hdone Hraise.
    unfold CntkApiInstance.instance_functions.
    rewrite foldM_app, Hdone. simpl. now rewrite Hraise.
Qed.

Lemma eval_model_returns_early_without_index_map_witness :
  snd (Evaluator.eval_model
         {| Evaluator.index_map := None; Evaluator.mean_file := Some "mean.xml" |})
  = Evaluator.Returned /\
  snd (Evaluator.eval_model
         {| Evaluator.index_map := Some "val_map.txt"; Evaluator.mean_file := None |})
  = Evaluator.Evaluation "val_map.txt" None /\
  CntkApiInstance.instance_functions (fun _ => []) ([] ++ ["bn"])
    {[ "bn" := Examples.batch_norm [Examples.saved_mean] ]}
    (CntkApiInstance.bind_input CntkApiInstance.init "conv" [2; 4; 4])
  = Raise (AssertionError ApiSetup.three_tensors_needed).
Proof.
  destruct eval_model_returns_early_without_index_map as (Hnone & Hsome & Hraise).
  split; [|split].
  - exact (f_equal snd
             (Hnone {| Evaluator.index_map := None;
                       Evaluator.mean_file := Some "mean.xml" |} eq_refl)).
  - exact (f_equal snd
             (Hsome {| Evaluator.index_map := Some "val_map.txt";
                       Evaluator.mean_file := None |} "val_map.txt" eq_refl)).
  - apply (Hraise _ _ _ [] _ "bn" [] _ eq_refl). reflexivity.
Defined.

(** C9, as stated, fails for the mean file: without it, and with an index
    map, [eval_model] does not return early. *)
Lemma eval_model_ignores_missing_mean_file :
  ~ (forall solver,
        Evaluator.index_map solver = None \/ Evaluator.mean_file solver = None ->
        snd (Evaluator.eval_model solver) = Evaluator.Returned).
Proof.
  intros Hclaim.
  specialize (Hclaim {| Evaluator.index_map := Some "val_map.txt";
                        Evaluator.mean_file := None |} (or_intror eq_refl)).
  discriminate Hclaim.
Qed.

End errors.

(** ** The assembler *)

Section assembler.
Import UniModel CntkApiInstance.

Variable infer_shape : ops.node -> list Z.

Lemma resolve_input_spec (st : self) (names : list string) :
  forall local_inputs usused_func resolved remaining,
    foldM (resolve_input st) (local_inputs, usused_func) names = Ok (resolved, remaining) ->
    (forall x, x ∈ names -> is_Some (_functions st !! x)) /\
    (forall f, f ∈ remaining
               <-> f ∈ usused_func /\ ~ exists x, x ∈ names /\ _functions st !! x = Some f).
Proof.
  induction names as [|name names IH]; intros local_inputs usused_func resolved remaining.
  - intros [= <- <-]. split; [intros x Hx; inversion Hx|].
    intros f. split; [intros Hf; split; [exact Hf|]|tauto].
    intros (x & Hx & _). inversion Hx.
  - simpl. unfold lookup_function.
    destruct (_functions st !! name) as [g|] eqn:Hname; simpl; [|discriminate].
    intros Hrest. apply IH in Hrest as [Hbound Hrem]. split.
    + intros x [->|Hx]%elem_of_cons; [eauto|auto].
    + intros f. rewrite Hrem. split.
      * intros [Hf Hnot]. split.
        -- case_bool_decide; set_solver.
        -- intros (x & [->|Hx]%elem_of_cons & Hfx).
           ++ assert (f = g) as -> by congruence. case_bool_decide; set_solver.
           ++ apply Hnot. eauto.
      * intros [Hf Hnot]. split.
        -- assert (f <> g) by (intros ->; apply Hnot; exists name; split; [left|]; auto).
           case_bool_decide; set_solver.
        -- intros (x & Hx & Hfx). apply Hnot. exists x. split; [right|]; auto.
Qed.

Lemma instance_layer_assembled (cntk_layers : gmap string cntk_layer)
    (bound : gmap string Function) (processed : list cntk_layer)
    (st st' : self) (usused_func usused_func' : gset Function) (key : string) :
  assembled bound processed st usused_func ->
  instance_layer infer_shape cntk_layers (st, usused_func) key = Ok (st', usused_func') ->
  exists l,
    cntk_layers !! key = Some l /\
    (bound !! op_name l = None ->
     op_name l ∉ op_name <$> processed ->
     assembled bound (processed ++ [l]) st' usused_func').
Proof.
  intros Hinv. unfold instance_layer.
  destruct (cntk_layers !! key) as [l|]; simpl; [|discriminate].
  destruct (foldM (resolve_input st) ([], usused_func) (inputs l))
    as [[local_inputs remaining]|] eqn:Hresolve; simpl; [|discriminate].
  destruct (ApiSetup.getattr (op_type l)) as [build|]; simpl; [|discriminate].
  destruct (build l local_inputs) as [expr|]; simpl; [|discriminate].
  intros [= <- <-]. exists l. split; [reflexivity|].
  intros Hbound Hnew.
  apply resolve_input_spec in Hresolve as [Hinputs Hremaining].
  destruct Hinv as [Hfresh Hnames Hins Hacyclic Hown Hunused].
  assert (Hfree : _functions st !! op_name l = None).
  { destruct (_functions st !! op_name l) eqn:E; [|reflexivity].
    assert (is_Some (_functions st !! op_name l)) as [H|H]%Hnames by eauto.
    - rewrite Hbound in H. now destruct H.
    - contradiction. }
  assert (Hold : forall name f, _functions st !! name = Some f ->
                                <[op_name l := {| uid := next_uid st;
                                                  output_shape := infer_shape expr |}]>
                                  (_functions st) !! name = Some f).
  { intros name f Hf. rewrite lookup_insert_ne; [exact Hf|]. intros <-. congruence. }
  assert (Hself : op_name l ∉ inputs l).
  { intros Hin. apply Hinputs in Hin as [f Hf]. congruence. }
  assert (Hearlier : forall l', l' ∈ processed -> op_name l ∉ inputs l').
  { intros l' Hl' Hin. destruct (Hins l' _ Hl' Hin) as [f Hf]. congruence. }
  split; simpl.
  - intros name f. rewrite lookup_insert. case_decide.
    + intros [= <-]. simpl. lia.
    + intros Hf. apply Hfresh in Hf. lia.
  - intros name. rewrite lookup_insert, fmap_app, elem_of_app. case_decide.
    + subst name. split; [intros _|eauto]. right. right. simpl. left.
    + rewrite Hnames. simpl. rewrite list_elem_of_singleton. naive_solver.
  - intros l' x [Hl'| ->%list_elem_of_singleton]%elem_of_app Hx.
    + destruct (Hins l' x Hl' Hx) as [f Hf]. eauto.
    + destruct (Hinputs x Hx) as [f Hf]. eauto.
  - intros l' [Hl'| ->%list_elem_of_singleton]%elem_of_app; auto.
  - intros l' f name [Hl'| ->%list_elem_of_singleton]%elem_of_app.
    + assert (op_name l' <> op_name l).
      { intros E. apply Hnew. rewrite <- E. now apply list_elem_of_fmap_2. }
      rewrite lookup_insert_ne by auto. intros Hf.
      rewrite lookup_insert. case_decide.
      * intros [= <-]. apply Hfresh in Hf. simpl in Hf. lia.
      * intros Hname. eapply Hown; eauto.
    + rewrite lookup_insert_eq. intros [= <-].
      rewrite lookup_insert. case_decide; [auto|].
      intros Hf. apply Hfresh in Hf. simpl in Hf. lia.
  - intros f. rewrite elem_of_union, elem_of_singleton, Hremaining, Hunused. split.
    + intros [[(l1 & Hl1 & Hf & Hfree1) Hnot]| ->].
      * exists l1. split; [apply elem_of_app; auto|]. split; [auto|].
        intros l' [Hl'| ->%list_elem_of_singleton]%elem_of_app; [auto|].
        intros Hin. apply Hnot. eauto.
      * exists l. split; [apply elem_of_app; right; apply list_elem_of_singleton; auto|].
        split; [apply lookup_insert_eq|].
        intros l' [Hl'| ->%list_elem_of_singleton]%elem_of_app; auto.
    + intros (l1 & [Hl1| ->%list_elem_of_singleton]%elem_of_app & Hf & Hfree1).
      * assert (op_name l1 <> op_name l).
        { intros E. apply Hnew. rewrite <- E. now apply list_elem_of_fmap_2. }
        rewrite lookup_insert_ne in Hf by auto.
        left. split.
        -- exists l1. split; [auto|]. split; [auto|].
           intros l' Hl'. apply Hfree1, elem_of_app. auto.
        -- intros (x & Hx & Hfx).
           assert (x = op_name l1) as -> by (eapply Hown; eauto).
           apply (Hfree1 l); [|exact Hx].
           apply elem_of_app. right. now apply list_elem_of_singleton.
      * rewrite lookup_insert_eq in Hf. injection Hf as <-. now right.
Qed.


Lemma instance_layers_assembled (cntk_layers : gmap string cntk_layer)
    (bound : gmap string Function) (keys : list string) :
  forall processed st usused_func acc,
    assembled bound processed st usused_func ->
    foldM (instance_layer infer_shape cntk_layers) (st, usused_func) keys = Ok acc ->
    NoDup (op_name <$> (processed ++ omap (fun key => cntk_layers !! key) keys)) ->
    (forall l, l ∈ omap (fun key => cntk_layers !! key) keys -> bound !! op_name l = None) ->
    assembled bound (processed ++ omap (fun key => cntk_layers !! key) keys)
      (fst acc) (snd acc).
Proof.
  induction keys as [|key keys IH]; intros processed st usused_func acc Hinv.
  - intros [= <-] _ _. simpl. now rewrite app_nil_r.
  - change (foldM (instance_layer infer_shape cntk_layers) (st, usused_func) (key :: keys))
      with (instance_layer infer_shape cntk_layers (st, usused_func) key
            ≫= fun acc' => foldM (instance_layer infer_shape cntk_layers) acc' keys).
    intros ([st' usused_func'] & Hstep & Hrest)%bind_inv.
    destruct (instance_layer_assembled _ _ _ _ _ _ _ _ Hinv Hstep) as (l & Hl & Hnext).
    cbn [omap list_omap]. rewrite Hl. intros Hnodup Hbound.
    replace (processed ++ l :: omap (fun key => cntk_layers !! key) keys)
      with ((processed ++ [l]) ++ omap (fun key => cntk_layers !! key) keys) in *
      by now rewrite <- app_assoc.
    eapply IH; eauto.
    + apply Hnext.
      * apply Hbound. left.
      * rewrite !fmap_app in Hnodup.
        apply NoDup_app in Hnodup as [Hnodup _].
        apply NoDup_app in Hnodup as (_ & Hdisjoint & _).
        intros Hin. apply (Hdisjoint _ Hin). simpl. left.
    + intros l' Hl'. apply Hbound. now right.
Qed.

Lemma bind_inputs_spec {X} (name_of : X -> string) (tensor_of : X -> list Z)
    (items : list X) :
  forall st,
    (forall name f, _functions st !! name = Some f -> (uid f < next_uid st)%nat) ->
    let st' := fold_left (fun st item => bind_input st (name_of item) (tensor_of item))
                         items st in
    (forall name f, _functions st' !! name = Some f -> (uid f < next_uid st')%nat) /\
    (forall name, is_Some (_functions st' !! name)
                  <-> is_Some (_functions st !! name) \/ name ∈ name_of <$> items).
Proof.
  induction items as [|item items IH]; intros st Hfresh; simpl.
  - split; [exact Hfresh|]. intros name. split; [auto|]. intros [H|H]; [auto|inversion H].
  - destruct (IH (bind_input st (name_of item) (tensor_of item))) as [Hfresh' Hnames'].
    + intros name f. unfold bind_input. simpl. rewrite lookup_insert. case_decide.
      * intros [= <-]. simpl. lia.
      * intros Hf. apply Hfresh in Hf. lia.
    + split; [exact Hfresh'|]. intros name. rewrite Hnames'.
      unfold bind_input at 1. simpl. rewrite lookup_insert, elem_of_cons.
      case_decide; [subst name|]; naive_solver.
Qed.

End assembler.

(** ** Blocks of a buffer *)

Section blocks.
Context {A : Type}.
Implicit Types (l : list A) (ls : list (list A)).

Lemma chunks_length n sz l : length (numpy.chunks n sz l) = n.
Proof. revert l. induction n as [|n IH]; intros l; simpl; [reflexivity|]. now rewrite IH. Qed.

Lemma chunks_concat n sz l :
  length l = (n * sz)%nat -> concat (numpy.chunks n sz l) = l.
Proof.
  revert l. induction n as [|n IH]; intros l Hlen; simpl.
  - destruct l; [reflexivity|discriminate].
  - rewrite IH; [apply take_drop|]. rewrite length_drop. lia.
Qed.

Lemma chunks_each n sz l :
  length l = (n * sz)%nat -> List.Forall (fun b => length b = sz) (numpy.chunks n sz l).
Proof.
  revert l. induction n as [|n IH]; intros l Hlen; simpl; constructor.
  - rewrite length_take. lia.
  - apply IH. rewrite length_drop. lia.
Qed.

Lemma chunks_of_concat sz ls :
  List.Forall (fun b => length b = sz) ls ->
  numpy.chunks (length ls) sz (concat ls) = ls.
Proof.
  induction 1 as [|b ls Hb Hls IH]; simpl; [reflexivity|].
  subst sz. rewrite take_app_length, drop_app_length. now rewrite IH.
Qed.

Lemma concat_length_uniform sz ls :
  List.Forall (fun b => length b = sz) ls -> length (concat ls) = (length ls * sz)%nat.
Proof.
  induction 1 as [|b ls Hb Hls IH]; simpl; [reflexivity|].
  rewrite length_app. lia.
Qed.

Lemma map_nth_seq (d : A) l : map (fun j => nth j l d) (seq 0 (length l)) = l.
Proof.
  apply (nth_ext _ _ d d).
  - now rewrite length_map, length_seq.
  - intros i Hi. rewrite length_map, length_seq in Hi.
    rewrite (nth_indep _ d (nth 0 l d)) by (rewrite length_map, length_seq; exact Hi).
    rewrite (map_nth (fun j => nth j l d)). now rewrite seq_nth.
Qed.

End blocks.

(** ** Dense weights *)

Section dense_weights.
Import UniModel.

Lemma columns_columns (r c : nat) (rows : list (list Q)) :
  length rows = r ->
  List.Forall (fun row => length row = c) rows ->
  numpy.columns r (numpy.columns c rows) = rows.
Proof.
  intros Hr Hc. unfold numpy.columns.
  transitivity (map (fun i => nth i rows []) (seq 0 r));
    [|subst r; apply map_nth_seq].
  apply map_ext_in. intros i Hi%in_seq. rewrite map_map.
  assert (Hrow : length (nth i rows []) = c).
  { rewrite List.Forall_forall in Hc. apply Hc, nth_In. lia. }
  transitivity (map (fun j => nth j (nth i rows []) 0%Q) (seq 0 c));
    [|rewrite <- Hrow; apply map_nth_seq].
  apply map_ext. intros j.
  rewrite (nth_indep _ 0%Q (nth j [] 0%Q)) by (rewrite length_map; lia).
  now rewrite (map_nth (fun row => nth j row 0%Q)).
Qed.

Lemma columns_length (m : nat) (rows : list (list Q)) :
  length (numpy.columns m rows) = m.
Proof. unfold numpy.columns. now rewrite length_map, length_seq. Qed.

Lemma columns_each (m : nat) (rows : list (list Q)) :
  List.Forall (fun col => length col = length rows) (numpy.columns m rows).
Proof.
  unfold numpy.columns. apply List.Forall_forall.
  intros col (j & <- & _)%in_map_iff. apply length_map.
Qed.

Lemma transpose_flat_vector (c : nat) (d : list Q) :
  length d = c -> numpy.transpose_flat [c] d = d.
Proof.
  intros Hlen. simpl. rewrite app_nil_r, map_id.
  revert d Hlen. induction c as [|c IH]; intros [|x d] Hlen; try discriminate;
    simpl; [reflexivity|].
  f_equal. rewrite drop_0. apply IH. simpl in Hlen. lia.
Qed.

Lemma transpose_flat_matrix (r c : nat) (d : list Q) :
  length d = (r * c)%nat ->
  numpy.transpose_flat [r; c] d = concat (numpy.columns c (numpy.chunks r c d)).
Proof.
  intros Hlen.
  change (numpy.transpose_flat [r; c] d)
    with (concat (numpy.columns (numpy.size [c])
                    (map (numpy.transpose_flat [c]) (numpy.chunks r (numpy.size [c]) d)))).
  replace (numpy.size [c]) with c by (simpl; lia).
  f_equal. f_equal.
  rewrite <- (map_id (numpy.chunks r c d)) at 2.
  apply map_ext_in. intros row Hrow.
  apply transpose_flat_vector.
  pose proof (chunks_each r c d Hlen) as Hall.
  rewrite List.Forall_forall in Hall. now apply Hall.
Qed.

Lemma transpose_flat_involutive (r c : nat) (d : list Q) :
  length d = (r * c)%nat ->
  numpy.transpose_flat [c; r] (numpy.transpose_flat [r; c] d) = d.
Proof.
  intros Hlen.
  rewrite (transpose_flat_matrix r c d Hlen).
  set (rows := numpy.chunks r c d).
  assert (Hrows : length rows = r) by apply chunks_length.
  assert (Hcols : List.Forall (fun col => length col = r) (numpy.columns c rows)).
  { rewrite <- Hrows. apply columns_each. }
  rewrite transpose_flat_matrix.
  2:{ rewrite (concat_length_uniform r) by exact Hcols. now rewrite columns_length. }
  rewrite <- (columns_length c rows) at 1.
  rewrite chunks_of_concat by exact Hcols.
  rewrite columns_columns; [apply chunks_concat, Hlen|exact Hrows|apply chunks_each, Hlen].
Qed.

Lemma reshape_same_size (a : ndarray) (newshape : list Z) :
  List.Forall (fun d => 0 <= d) newshape ->
  fold_right Z.mul 1 newshape = Z.of_nat (length (flat a)) ->
  numpy.reshape a newshape = Ok {| shape := map Z.to_nat newshape; flat := flat a |}.
Proof.
  intros Hpos Hsize. unfold numpy.reshape.
  assert (Hlow : existsb (fun d => d <? -1) newshape = false).
  { clear Hsize. induction Hpos as [|d l Hd Hl IH]; [reflexivity|]. simpl.
    rewrite IH. destruct (Z.ltb_spec d (-1)); [lia|reflexivity]. }
  assert (Hnone : List.filter (fun d => d =? -1) newshape = []).
  { clear Hsize Hlow. induction Hpos as [|d l Hd Hl IH]; [reflexivity|]. simpl.
    destruct (Z.eqb_spec d (-1)); [lia|exact IH]. }
  assert (Hall : List.filter (fun d => negb (d =? -1)) newshape = newshape).
  { clear Hsize Hlow Hnone. induction Hpos as [|d l Hd Hl IH]; [reflexivity|]. simpl.
    destruct (Z.eqb_spec d (-1)); [lia|]. simpl. now rewrite IH. }
  rewrite Hlow, Hnone, Hall. simpl. now rewrite Hsize, Z.eqb_refl.
Qed.

Lemma reduce_mul_product (l : list Z) (p : Z) :
  Py.reduce_mul l = Ok p -> p = fold_right Z.mul 1 l.
Proof.
  destruct l as [|x xs]; [discriminate|]. simpl. intros [= <-].
  revert x. induction xs as [|y ys IH]; intros x; simpl; [lia|].
  rewrite IH. lia.
Qed.

Lemma product_nonneg (l : list Z) :
  List.Forall (fun d => 0 <= d) l -> 0 <= fold_right Z.mul 1 l.
Proof. induction 1 as [|d l Hd Hl IH]; simpl; lia. Qed.

Lemma product_app (l k : list Z) :
  fold_right Z.mul 1 (l ++ k) = fold_right Z.mul 1 l * fold_right Z.mul 1 k.
Proof. induction l as [|d l IH]; simpl; [lia|]. rewrite IH. lia. Qed.

Lemma size_of_nat (s : list nat) :
  fold_right Z.mul 1 (map Z.of_nat s) = Z.of_nat (numpy.size s).
Proof. induction s as [|n s IH]; simpl; [reflexivity|]. rewrite IH. lia. Qed.

Lemma transpose_flat_matrix_length (r c : nat) (d : list Q) :
  length d = (r * c)%nat -> length (numpy.transpose_flat [r; c] d) = (r * c)%nat.
Proof.
  intros Hlen. rewrite transpose_flat_matrix by exact Hlen.
  rewrite (concat_length_uniform r).
  - rewrite columns_length. lia.
  - pose proof (columns_each c (numpy.chunks r c d)) as Hcols.
    now rewrite chunks_length in Hcols.
Qed.

Local Arguments numpy.transpose_flat : simpl never.

(** C6.  A dense weight with [flattened_channel * output_channel] entries
    goes through the orientation (reshape to [(output_channel,
    flattened_channel)], transpose, reshape to the input shape followed by
    [output_channel]) and comes back unchanged through the inverse reshape,
    the inverse transpose and the inverse reshape. *)
Theorem dense_weight_round_trip :
  forall (weight : ndarray) (input_channel : list Z)
         (output_channel flattened_channel : Z),
    numpy.wf weight ->
    List.Forall (fun d => 0 <= d) input_channel ->
    0 <= output_channel ->
    Py.reduce_mul input_channel = Ok flattened_channel ->
    Z.of_nat (length (flat weight)) = flattened_channel * output_channel ->
    exists scale_init,
      ApiSetup.dense_scale_init true output_channel flattened_channel
        (input_channel ++ [output_channel]) weight = Ok scale_init /\
      shape scale_init = map Z.to_nat (input_channel ++ [output_channel]) /\
      dense_scale_restore output_channel flattened_channel (shape weight) scale_init
      = Ok weight.
Proof.
  intros weight input_channel output_channel flattened_channel
         Hwf Hinput Houtput Hflattened Hcount.
  apply reduce_mul_product in Hflattened.
  pose proof (product_nonneg _ Hinput) as Hnonneg. rewrite <- Hflattened in Hnonneg.
  set (o := Z.to_nat output_channel). set (f := Z.to_nat flattened_channel).
  assert (Hlen : length (flat weight) = (o * f)%nat) by (subst o f; nia).
  unfold ApiSetup.dense_scale_init, dense_scale_restore, numpy.copy.
  rewrite (reshape_same_size weight [output_channel; flattened_channel])
    by (repeat constructor; simpl; lia).
  simpl. unfold numpy.transpose. cbn [shape flat map rev app].
  fold o f.
  rewrite reshape_same_size; cbn [shape flat].
  2:{ apply Forall_app. split; [exact Hinput|]. repeat constructor. exact Houtput. }
  2:{ rewrite product_app, <- Hflattened.
      rewrite (transpose_flat_matrix_length o f) by exact Hlen.
      simpl. lia. }
  eexists. split; [reflexivity|]. split; [reflexivity|]. simpl.
  rewrite reshape_same_size; cbn [shape flat].
  2:{ repeat constructor; lia. }
  2:{ rewrite (transpose_flat_matrix_length o f) by exact Hlen. simpl. lia. }
  simpl. unfold numpy.transpose. cbn [shape flat map rev app]. fold o f.
  rewrite transpose_flat_involutive by exact Hlen.
  rewrite reshape_same_size; cbn [shape flat].
  - f_equal. destruct weight as [s d]. simpl. f_equal.
    rewrite map_map. rewrite <- (map_id s) at 2.
    apply map_ext. intros n. apply Nat2Z.id.
  - apply List.Forall_forall. intros d (n & <- & _)%in_map_iff. lia.
  - rewrite size_of_nat. f_equal. symmetry. exact Hwf.
Qed.

Lemma dense_weight_round_trip_witness :
  exists scale_init,
    ApiSetup.dense_scale_init true 2 3 [3; 1; 1; 2] Examples.dense_weight = Ok scale_init /\
    dense_scale_restore 2 3 (shape Examples.dense_weight) scale_init
    = Ok Examples.dense_weight.
Proof.
  destruct (dense_weight_round_trip Examples.dense_weight [3; 1; 1] 2 3)
    as (scale_init & Hthere & _ & Hback).
  - reflexivity.
  - repeat constructor; lia.
  - lia.
  - reflexivity.
  - reflexivity.
  - exists scale_init. auto.
Defined.

End dense_weights.

(** ** Dilated kernels: the indices of the inserted planes *)

Section insert_lines.

Lemma set_ascending (l : list Z) : StronglySorted Z.lt l -> Py.set l = l.
Proof.
  induction 1 as [|x l Hl IH Hx]; [reflexivity|].
  unfold Py.set in *. simpl. rewrite IH. destruct l as [|y l']; [reflexivity|].
  simpl. apply List.Forall_inv in Hx. destruct (Z.ltb_spec x y); [reflexivity|lia].
Qed.

Lemma range_ascending (a n : nat) : StronglySorted Z.lt (map Z.of_nat (seq a n)).
Proof.
  revert a. induction n as [|n IH]; intros a; simpl; constructor; [apply IH|].
  apply List.Forall_forall. intros y (j & <- & Hj%in_seq)%in_map_iff. lia.
Qed.

Lemma filter_ascending (keep : Z -> bool) (l : list Z) :
  StronglySorted Z.lt l -> StronglySorted Z.lt (List.filter keep l).
Proof.
  induction 1 as [|x l Hl IH Hx]; simpl; [constructor|].
  destruct (keep x); [|exact IH]. constructor; [exact IH|].
  apply List.Forall_forall. intros y [Hy _]%filter_In.
  rewrite List.Forall_forall in Hx. auto.
Qed.

Lemma mem_In (x : Z) (l : list Z) : Py.mem x l = true <-> In x l.
Proof.
  unfold Py.mem. rewrite existsb_exists. split.
  - intros (y & Hy & ->%Z.eqb_eq). exact Hy.
  - intros Hx. exists x. split; [exact Hx|apply Z.eqb_refl].
Qed.

Lemma filter_none {X} (keep : X -> bool) (l : list X) :
  (forall x, In x l -> keep x = false) -> List.filter keep l = [].
Proof.
  induction l as [|x l IH]; intros Hall; simpl; [reflexivity|].
  rewrite (Hall x) by now left. apply IH. intros y Hy. apply Hall. now right.
Qed.

Lemma set_xor_range (n : Z) (ks : list Z) :
  (forall x, In x ks -> In x (Py.range n)) ->
  Py.set_xor (Py.range n) ks
  = List.filter (fun x => negb (Py.mem x ks)) (Py.range n).
Proof.
  intros Hsub. unfold Py.set_xor.
  rewrite (filter_none _ ks), app_nil_r.
  - apply set_ascending, filter_ascending, range_ascending.
  - intros x Hx. apply negb_false_iff, mem_In, Hsub, Hx.
Qed.

Lemma In_range (x n : Z) : In x (Py.range n) <-> 0 <= x < n.
Proof.
  unfold Py.range. rewrite in_map_iff. split.
  - intros (j & <- & Hj%in_seq). lia.
  - intros Hx. exists (Z.to_nat x). rewrite in_seq. lia.
Qed.

Lemma mem_kernel_sequence (k d x : Z) :
  1 <= k -> 1 <= d -> 0 <= x < (k - 1) * d + 1 ->
  Py.mem x (map (fun j => j * d) (Py.range k)) = (x mod d =? 0).
Proof.
  intros Hk Hd Hx. apply eq_true_iff_eq. rewrite mem_In, in_map_iff, Z.eqb_eq. split.
  - intros (j & <- & _). apply Z.mod_mul. lia.
  - intros Hmod. exists (x / d). split.
    + rewrite Z.mul_comm. symmetry. apply Z.div_exact; [lia|exact Hmod].
    + apply In_range. split; [apply Z.div_pos; lia|].
      apply Z.div_lt_upper_bound; nia.
Qed.

Lemma length_adjusted_lines (p d : nat) :
  length (adjusted_lines p d) = (p * (d - 1))%nat.
Proof.
  induction p as [|p IH]; simpl; [reflexivity|].
  rewrite length_app, repeat_length, IH. lia.
Qed.

Lemma not_multiple_between (p d j : nat) :
  (p * d < j < S p * d)%nat -> (j mod d <> 0)%nat.
Proof.
  intros [Hlow Hhigh] Hmod.
  pose proof (Nat.div_mod_eq j d) as Hdiv. rewrite Hmod, Nat.add_0_r in Hdiv.
  set (q := (j / d)%nat) in *. rewrite Hdiv, (Nat.mul_comm d q) in Hlow, Hhigh.
  assert (p < q)%nat by (apply (Nat.mul_lt_mono_pos_r d); [lia|lia]).
  assert (q < S p)%nat by (apply (Nat.mul_lt_mono_pos_r d); [lia|lia]).
  lia.
Qed.

Lemma filter_block_kept (p d a n : nat) :
  (p * d < a)%nat -> (a + n <= S p * d)%nat ->
  List.filter (fun x => negb (x mod Z.of_nat d =? 0)) (map Z.of_nat (seq a n))
  = map Z.of_nat (seq a n).
Proof.
  intros Ha Hn. apply forallb_filter_id, forallb_forall.
  intros x (j & <- & Hj%in_seq)%in_map_iff.
  apply negb_true_iff, Z.eqb_neq.
  rewrite <- Nat2Z.inj_mod. intros H0. apply (inj_eq_rev _ 0%nat) in H0.
  apply (not_multiple_between p d j); [lia|exact H0].
Qed.

Lemma imap_block (c b n : nat) :
  imap (fun index line => line - Z.of_nat (c + index)) (map Z.of_nat (seq (c + b) n))
  = map Z.of_nat (repeat b n).
Proof.
  revert c. induction n as [|n IH]; intros c; [reflexivity|].
  simpl seq. simpl map. rewrite imap_cons. simpl repeat. simpl map. f_equal; [lia|].
  rewrite <- (IH (S c)). replace (S (c + b)) with (S c + b)%nat by lia.
  apply imap_ext. intros i x _. simpl. lia.
Qed.

(** The indices for an axis of [S p] taps and dilation [d]. *)
Lemma insert_lines_spec (p d : nat) :
  (1 <= d)%nat ->
  BlockApiSetup.insert_lines (Z.of_nat (S p)) (Z.of_nat d) (Z.of_nat (p * d + 1))
  = map Z.of_nat (adjusted_lines p d).
Proof.
  intros Hd. unfold BlockApiSetup.insert_lines.
  rewrite set_xor_range.
  2:{ intros x (j & <- & [Hj0 Hj]%In_range)%in_map_iff. apply In_range. nia. }
  rewrite (filter_ext_in _ (fun x => negb (x mod Z.of_nat d =? 0))).
  2:{ intros x Hx%In_range. f_equal. apply mem_kernel_sequence; nia. }
  unfold Py.range. rewrite Nat2Z.id.
  induction p as [|p IH].
  - simpl. destruct (Z.eqb_spec (0 mod Z.of_nat d) 0) as [|Hne]; [reflexivity|].
    now rewrite Z.mod_0_l in Hne by lia.
  - replace (S p * d + 1)%nat with ((p * d + 1) + ((d - 1) + 1))%nat by lia.
    rewrite seq_app, (seq_app (d - 1) 1), !map_app, !List.filter_app.
    rewrite (filter_block_kept p d (0 + (p * d + 1)) (d - 1)) by lia.
    assert (Hlast : List.filter (fun x => negb (x mod Z.of_nat d =? 0))
                      (map Z.of_nat (seq (0 + (p * d + 1) + (d - 1)) 1)) = []).
    { simpl. replace (Z.of_nat (p * d + 1 + (d - 1))) with (Z.of_nat (S p) * Z.of_nat d)
        by lia.
      now rewrite Z.mod_mul, Z.eqb_refl by lia. }
    rewrite Hlast, app_nil_r, imap_app, IH. simpl adjusted_lines. rewrite map_app.
    f_equal.
    assert (Hlen : length (List.filter (fun x => negb (x mod Z.of_nat d =? 0))
                             (map Z.of_nat (seq 0 (p * d + 1)))) = (p * (d - 1))%nat).
    { rewrite <- (length_imap (fun index line => line - Z.of_nat index)), IH.
      now rewrite length_map, length_adjusted_lines. }
    rewrite Hlen.
    replace (0 + (p * d + 1))%nat with (p * (d - 1) + S p)%nat by nia.
    apply imap_block.
Qed.

End insert_lines.

(** ** Dilated kernels: the rows after the insertion *)

Section dilate_rows.
Context {A : Type}.
Implicit Types (new : A) (rows : list A).

Lemma count_adjusted_lines (p d pos : nat) :
  count_occ Nat.eq_dec (adjusted_lines p d) pos
  = if bool_decide (1 <= pos <= p)%nat then (d - 1)%nat else 0%nat.
Proof.
  induction p as [|p IH]; simpl.
  - case_bool_decide; [lia|reflexivity].
  - rewrite count_occ_app, IH.
    destruct (decide (pos = S p)) as [->|Hne].
    + rewrite count_occ_repeat_eq by reflexivity.
      repeat case_bool_decide; lia.
    + rewrite count_occ_repeat_neq by congruence.
      repeat case_bool_decide; lia.
Qed.

Lemma insert_rows_tail new (p d : nat) rows :
  forall pos,
    (1 <= pos)%nat -> (pos + length rows = S p)%nat ->
    numpy.insert_rows new (adjusted_lines p d) pos rows
    = flat_map (fun r => repeat new (d - 1) ++ [r]) rows.
Proof.
  induction rows as [|r rows IH]; intros pos Hpos Hlen; simpl in *.
  - rewrite count_adjusted_lines, bool_decide_false by lia. reflexivity.
  - rewrite count_adjusted_lines, bool_decide_true by lia.
    rewrite <- app_assoc. simpl. f_equal. f_equal. apply IH; lia.
Qed.

Lemma insert_rows_adjusted new (p d : nat) rows :
  length rows = S p ->
  numpy.insert_rows new (adjusted_lines p d) 0 rows = dilate_rows d new rows.
Proof.
  destruct rows as [|r rows]; [discriminate|]. simpl. intros [= Hlen].
  rewrite count_adjusted_lines, bool_decide_false by lia. simpl. f_equal.
  apply insert_rows_tail; lia.
Qed.

Lemma length_dilate_rows new (d : nat) r rows :
  (1 <= d)%nat ->
  length (dilate_rows d new (r :: rows)) = (length rows * d + 1)%nat.
Proof.
  intros Hd. simpl. induction rows as [|r' rows IH]; simpl; [reflexivity|].
  rewrite length_app, length_app, repeat_length. simpl in *. lia.
Qed.

Lemma nth_dilate_rows new (d : nat) (dft : A) rows :
  (1 <= d)%nat ->
  forall r j,
    (j < length rows * d + 1)%nat ->
    nth j (dilate_rows d new (r :: rows)) dft
    = if (j mod d =? 0)%nat then nth (j / d) (r :: rows) dft else new.
Proof.
  intros Hd. induction rows as [|r' rows IH]; intros r j Hj.
  - simpl in Hj. assert (j = 0)%nat as -> by lia.
    rewrite Nat.Div0.mod_0_l, Nat.Div0.div_0_l. reflexivity.
  - destruct (Nat.lt_ge_cases j d) as [Hlt|Hge].
    + rewrite Nat.mod_small, Nat.div_small by exact Hlt.
      destruct j as [|j]; [reflexivity|]. simpl.
      rewrite <- app_assoc, app_nth1 by (rewrite repeat_length; lia).
      apply nth_repeat_lt. lia.
    + replace (dilate_rows d new (r :: r' :: rows))
        with ((r :: repeat new (d - 1)) ++ dilate_rows d new (r' :: rows))
        by (simpl; now rewrite <- app_assoc).
      rewrite app_nth2 by (simpl; rewrite repeat_length; lia).
      simpl length. rewrite repeat_length.
      replace (S (d - 1)) with d by lia.
      rewrite IH by (simpl in Hj; lia).
      assert (Hmod : (j mod d = (j - d) mod d)%nat).
      { rewrite <- (Nat.Div0.mod_add (j - d) 1 d). f_equal. lia. }
      assert (Hdiv : (j / d = S ((j - d) / d))%nat).
      { rewrite <- Nat.add_1_r, <- (Nat.div_add (j - d) 1 d) by lia. f_equal. lia. }
      rewrite Hmod, Hdiv. reflexivity.
Qed.

End dilate_rows.

(** ** Dilated kernels: one axis *)

Section insert_axis.

Lemma block_of_concat {A} (sz : nat) (rows : list (list A)) :
  List.Forall (fun b => length b = sz) rows ->
  forall i, (i < length rows)%nat ->
            firstn sz (skipn (i * sz) (concat rows)) = nth i rows [].
Proof.
  induction 1 as [|b rows Hb Hrows IH]; intros i Hi; simpl in *; [lia|].
  destruct i as [|i]; simpl.
  - now apply take_app_length'.
  - rewrite (drop_app_add' b _ sz) by (symmetry; exact Hb). apply IH. lia.
Qed.

Lemma nth_chunks {A} (n sz : nat) (l : list A) :
  forall i, (i < n)%nat -> nth i (numpy.chunks n sz l) [] = firstn sz (skipn (i * sz) l).
Proof.
  revert l. induction n as [|n IH]; intros l i Hi; [lia|]. simpl.
  destruct i as [|i]; [reflexivity|].
  rewrite IH by lia. simpl. now rewrite drop_drop.
Qed.

Lemma firstn_repeat {A} (x : A) (a b : nat) :
  (a <= b)%nat -> firstn a (repeat x b) = repeat x a.
Proof.
  revert b. induction a as [|a IH]; intros [|b] Hab; simpl; try reflexivity; try lia.
  f_equal. apply IH. lia.
Qed.

Lemma skipn_repeat {A} (x : A) (a b : nat) : skipn a (repeat x b) = repeat x (b - a).
Proof.
  revert b. induction a as [|a IH]; intros [|b]; simpl; try reflexivity. apply IH.
Qed.

Lemma get_flat_zeros (s idx : list nat) :
  numpy.in_bounds s idx ->
  numpy.get_flat s (repeat 0%Q (numpy.size s)) idx = Some 0%Q.
Proof.
  unfold numpy.in_bounds. intros Hidx.
  induction Hidx as [|i n idx s Hi Hidx IH]; [reflexivity|].
  cbn [numpy.get_flat]. apply Nat.ltb_lt in Hi as Hi'. rewrite Hi'.
  change (numpy.size (n :: s)) with (n * numpy.size s)%nat.
  rewrite skipn_repeat, firstn_repeat by nia. exact IH.
Qed.

Lemma dilate_rows_each {A} (P : A -> Prop) (d : nat) (new : A) (rows : list A) :
  P new -> List.Forall P rows -> List.Forall P (dilate_rows d new rows).
Proof.
  intros Hnew Hrows. destruct Hrows as [|r rows Hr Hrows]; simpl; constructor; [exact Hr|].
  induction Hrows as [|r' rows Hr' Hrows IH]; simpl; [constructor|].
  apply Forall_app. split; [|exact IH].
  apply Forall_app. split; [|now repeat constructor].
  apply List.Forall_forall. now intros y ->%repeat_spec.
Qed.

(** Inserting the planes of one axis of [S p] taps with dilation [d]: the
    axis grows to [p * d + 1], the old entries sit at the multiples of [d]
    and all other entries are zero. *)
Lemma insert_flat_get (p d : nat) :
  (1 <= d)%nat ->
  forall (ax : nat) (s : list nat) (buffer : list Q),
    length buffer = numpy.size s ->
    s !! ax = Some (S p) ->
    length (numpy.insert_flat 0 s ax (adjusted_lines p d) buffer)
    = numpy.size (<[ax := (p * d + 1)%nat]> s) /\
    forall idx i,
      numpy.in_bounds (<[ax := (p * d + 1)%nat]> s) idx ->
      idx !! ax = Some i ->
      numpy.get_flat (<[ax := (p * d + 1)%nat]> s)
        (numpy.insert_flat 0 s ax (adjusted_lines p d) buffer) idx
      = if (i mod d =? 0)%nat
        then numpy.get_flat s buffer (<[ax := (i / d)%nat]> idx)
        else Some 0%Q.
Proof.
  intros Hd. induction ax as [|ax IH]; intros [|n s] buffer Hlen Hax; try discriminate.
  - injection Hax as ->. cbn [numpy.insert_flat].
    change (numpy.size (S p :: s)) with (S p * numpy.size s)%nat in Hlen.
    set (sz := numpy.size s) in *.
    pose proof (chunks_each (S p) sz buffer Hlen) as Hrows.
    pose proof (chunks_length (S p) sz buffer) as Hcount.
    rewrite insert_rows_adjusted by exact Hcount.
    assert (Hall : List.Forall (fun b => length b = sz)
                     (dilate_rows d (repeat 0%Q sz) (numpy.chunks (S p) sz buffer))).
    { apply dilate_rows_each; [apply repeat_length|exact Hrows]. }
    assert (Hnew : length (dilate_rows d (repeat 0%Q sz) (numpy.chunks (S p) sz buffer))
                   = (p * d + 1)%nat).
    { destruct (numpy.chunks (S p) sz buffer) as [|r rows] eqn:E; [discriminate|].
      rewrite length_dilate_rows by exact Hd. simpl in Hcount. lia. }
    split.
    + rewrite (concat_length_uniform sz) by exact Hall. rewrite Hnew. reflexivity.
    + intros [|j idx] i Hidx Hi; [discriminate|]. injection Hi as ->.
      apply Forall2_cons in Hidx as [Hi Hidx].
      cbn [numpy.get_flat insert list_insert]. fold sz.
      apply Nat.ltb_lt in Hi as Hi'. rewrite Hi'.
      rewrite block_of_concat by (try exact Hall; rewrite Hnew; exact Hi).
      destruct (numpy.chunks (S p) sz buffer) as [|r rows] eqn:E; [discriminate|].
      rewrite nth_dilate_rows by (try exact Hd; simpl in Hcount; lia).
      destruct (i mod d =? 0)%nat eqn:Hmod.
      * assert (Hq : (i / d < S p)%nat) by (apply Nat.Div0.div_lt_upper_bound; nia).
        apply Nat.ltb_lt in Hq as Hq'. rewrite Hq'.
        rewrite <- E, nth_chunks by exact Hq. reflexivity.
      * now apply get_flat_zeros.
  - cbn [numpy.insert_flat]. simpl in Hax.
    change (numpy.size (n :: s)) with (n * numpy.size s)%nat in Hlen.
    set (sz := numpy.size s) in *.
    set (s' := <[ax := (p * d + 1)%nat]> s).
    change (<[S ax := (p * d + 1)%nat]> (n :: s)) with (n :: s').
    pose proof (chunks_each n sz buffer Hlen) as Hrows.
    pose proof (chunks_length n sz buffer) as Hcount.
    assert (Hall : List.Forall (fun b => length b = numpy.size s')
                     (map (numpy.insert_flat 0 s ax (adjusted_lines p d))
                          (numpy.chunks n sz buffer))).
    { apply List.Forall_forall. intros b' (b & <- & Hb)%in_map_iff.
      rewrite List.Forall_forall in Hrows. now apply IH; [apply Hrows|]. }
    split.
    + rewrite (concat_length_uniform (numpy.size s')) by exact Hall.
      now rewrite length_map, Hcount.
    + intros [|j idx] i Hidx Hi; [discriminate|]. simpl in Hi.
      apply Forall2_cons in Hidx as [Hj Hidx].
      cbn [numpy.get_flat insert list_insert]. fold sz.
      apply Nat.ltb_lt in Hj as Hj'. rewrite Hj'.
      rewrite block_of_concat by (try exact Hall; rewrite length_map, Hcount; exact Hj).
      rewrite (nth_indep _ [] (numpy.insert_flat 0 s ax (adjusted_lines p d) []))
        by (rewrite length_map, Hcount; exact Hj).
      rewrite map_nth, nth_chunks by exact Hj.
      apply IH; [|exact Hax|exact Hidx|exact Hi].
      rewrite <- (nth_chunks n sz buffer j) by exact Hj.
      rewrite List.Forall_forall in Hrows. apply Hrows, nth_In. now rewrite Hcount.
Qed.

End insert_axis.

(** ** Dilated kernels: the loop over the axes *)

Section expand_kernel.

Lemma adjusted_lines_range (p d x : nat) :
  In x (adjusted_lines p d) -> (1 <= x <= p)%nat.
Proof.
  induction p as [|p IH]; simpl; [tauto|].
  rewrite in_app_iff. intros [Hx|Hx%repeat_spec]; [apply IH in Hx|]; lia.
Qed.

(** One turn of the loop of [weights_parameter], on an axis of [S p] taps. *)
Lemma insert_dilates_axis (a : ndarray) (p d i : nat) :
  numpy.wf a ->
  (1 <= d)%nat ->
  (i < length (shape a))%nat ->
  shape a !! (length (shape a) - 1 - i)%nat = Some (S p) ->
  exists a',
    numpy.insert a
      (BlockApiSetup.insert_lines (Z.of_nat (S p)) (Z.of_nat d) (Z.of_nat (p * d + 1)))
      0 (Z.of_nat (length (shape a)) - Z.of_nat i - 1) = Ok a' /\
    numpy.wf a' /\
    shape a' = <[(length (shape a) - 1 - i)%nat := (p * d + 1)%nat]> (shape a) /\
    forall idx x,
      numpy.in_bounds (shape a') idx ->
      idx !! (length (shape a) - 1 - i)%nat = Some x ->
      numpy.get a' idx
      = if (x mod d =? 0)%nat
        then numpy.get a (<[(length (shape a) - 1 - i)%nat := (x / d)%nat]> idx)
        else Some 0%Q.
Proof.
  intros Hwf Hd Hi Hax.
  set (n := length (shape a)) in *. set (ax := (n - 1 - i)%nat) in *.
  rewrite insert_lines_spec by exact Hd.
  unfold numpy.insert, numpy.normalize_axis. fold n.
  replace ((Z.of_nat n - Z.of_nat i - 1 <? - Z.of_nat n)
           || (Z.of_nat n <=? Z.of_nat n - Z.of_nat i - 1)) with false
    by (symmetry; apply orb_false_iff; split; [apply Z.ltb_ge|apply Z.leb_gt]; lia).
  replace (Z.of_nat n - Z.of_nat i - 1 <? 0) with false by (symmetry; apply Z.ltb_ge; lia).
  simpl mbind. replace (Z.to_nat (Z.of_nat n - Z.of_nat i - 1)) with ax by lia.
  rewrite (nth_lookup_Some _ _ _ _ Hax).
  assert (Hsame : map (fun j => if j <? 0 then j + Z.of_nat (S p) else j)
                      (map Z.of_nat (adjusted_lines p d))
                  = map Z.of_nat (adjusted_lines p d)).
  { rewrite map_map. apply map_ext. intros j.
    destruct (Z.ltb_spec (Z.of_nat j) 0); [lia|reflexivity]. }
  rewrite Hsame.
  replace (existsb _ (map Z.of_nat (adjusted_lines p d))) with false.
  2:{ symmetry. apply not_true_is_false. rewrite existsb_exists.
      intros (z & (x & <- & Hx%adjusted_lines_range)%in_map_iff & Hz).
      apply orb_true_iff in Hz as [Hz%Z.ltb_lt|Hz%Z.ltb_lt]; lia. }
  rewrite map_map, (map_ext _ id), map_id by (intros j; apply Nat2Z.id).
  rewrite length_map, length_adjusted_lines.
  replace (S p + p * (d - 1))%nat with (p * d + 1)%nat by nia.
  destruct (insert_flat_get p d Hd ax (shape a) (flat a) Hwf Hax) as [Hlen Hget].
  eexists. split; [reflexivity|]. split; [exact Hlen|]. split; [reflexivity|].
  intros idx x Hidx Hx. apply Hget; assumption.
Qed.

Lemma dilated_in_bounds (s src factors : list nat) :
  numpy.in_bounds s src ->
  length factors = length s ->
  numpy.in_bounds (zip_with dilated_length s factors) (zip_with Nat.mul src factors).
Proof.
  unfold numpy.in_bounds. intros Hsrc. revert factors.
  induction Hsrc as [|x n src s Hx Hsrc IH]; intros [|f factors] Hlen;
    try discriminate; simpl; constructor.
  - unfold dilated_length. nia.
  - apply IH. simpl in Hlen. lia.
Qed.

Lemma dilated_step (init a : ndarray) (factors : list nat) (p d i : nat) :
  dilated init factors a ->
  length factors = length (shape init) ->
  (1 <= d)%nat ->
  (i < length (shape init))%nat ->
  shape init !! (length (shape init) - 1 - i)%nat = Some (S p) ->
  factors !! (length (shape init) - 1 - i)%nat = Some 1%nat ->
  exists a',
    numpy.insert a
      (BlockApiSetup.insert_lines (Z.of_nat (S p)) (Z.of_nat d) (Z.of_nat (p * d + 1)))
      0 (Z.of_nat (length (shape init)) - Z.of_nat i - 1) = Ok a' /\
    dilated init (<[(length (shape init) - 1 - i)%nat := d]> factors) a'.
Proof.
  intros [Hwf Hshape Htaps Hzeros] Hlen Hd Hi Hax Hone.
  set (n := length (shape init)) in *. set (ax := (n - 1 - i)%nat) in *.
  assert (Hrank : length (shape a) = n).
  { rewrite Hshape, length_zip_with. lia. }
  assert (Haxis : shape a !! ax = Some (S p)).
  { rewrite Hshape, lookup_zip_with, Hax, Hone. simpl. f_equal.
    unfold dilated_length. lia. }
  destruct (insert_dilates_axis a p d i Hwf Hd) as (a' & Hinsert & Hwf' & Hshape' & Hget).
  { rewrite Hrank. exact Hi. }
  { rewrite Hrank. exact Haxis. }
  rewrite Hrank in Hinsert, Hshape', Hget. fold ax in Hshape', Hget.
  exists a'. split; [exact Hinsert|].
  assert (Hnew : shape a' = zip_with dilated_length (shape init) (<[ax := d]> factors)).
  { rewrite Hshape', Hshape.
    replace (p * d + 1)%nat with (dilated_length (S p) d)
      by (unfold dilated_length; nia).
    rewrite insert_zip_with. f_equal. now apply list_insert_id. }
  split.
  - exact Hwf'.
  - exact Hnew.
  - intros src Hsrc.
    destruct (Forall2_lookup_r _ _ _ _ _ Hsrc Hax) as (x & Hx & Hlt).
    rewrite (Hget _ (x * d)%nat).
    + rewrite Nat.Div0.mod_mul, Nat.div_mul by lia. simpl.
      replace x with (x * 1)%nat at 1 by lia.
      rewrite insert_zip_with, list_insert_insert_eq.
      rewrite (list_insert_id src) by exact Hx.
      rewrite (list_insert_id factors) by exact Hone.
      now apply Htaps.
    + rewrite Hnew. apply dilated_in_bounds; [exact Hsrc|].
      now rewrite length_insert.
    + rewrite lookup_zip_with, Hx. simpl.
      rewrite list_lookup_insert_eq by (rewrite Hlen; unfold ax; lia). reflexivity.
  - intros idx j x f Hidx Hj Hf Hmod.
    assert (Hxa : exists xa, idx !! ax = Some xa /\ (xa < p * d + 1)%nat).
    { rewrite Hshape' in Hidx.
      apply (Forall2_lookup_r _ _ _ ax (p * d + 1)%nat) in Hidx; [exact Hidx|].
      apply list_lookup_insert_eq. rewrite Hrank. unfold ax. lia. }
    destruct Hxa as (xa & Hxa & Hbound).
    rewrite (Hget idx xa Hidx Hxa).
    destruct (xa mod d =? 0)%nat eqn:Hxmod; [|reflexivity].
    apply Nat.eqb_eq in Hxmod.
    assert (Hne : j <> ax).
    { intros ->. rewrite Hxa in Hj. injection Hj as ->.
      rewrite list_lookup_insert_eq in Hf by (rewrite Hlen; unfold ax; lia).
      injection Hf as <-. contradiction. }
    apply (Hzeros _ j x f).
    + rewrite Hshape' in Hidx.
      apply (Forall2_insert _ _ _ (xa / d)%nat (S p) ax) in Hidx.
      * rewrite list_insert_insert_eq, (list_insert_id (shape a)) in Hidx; assumption.
      * apply Nat.Div0.div_lt_upper_bound. nia.
    + rewrite list_lookup_insert_ne by congruence. exact Hj.
    + rewrite list_lookup_insert_ne in Hf by congruence. exact Hf.
    + exact Hmod.
Qed.

Lemma lookup_rev {A} (l : list A) (i : nat) :
  (i < length l)%nat -> rev l !! i = l !! (length l - S i)%nat.
Proof. intros Hi. rewrite rev_alt. now apply reverse_lookup. Qed.

Lemma lookup_repeat {A} (x : A) (n i : nat) : (i < n)%nat -> repeat x n !! i = Some x.
Proof.
  revert i. induction n as [|n IH]; intros [|i] Hi; simpl; try lia; [reflexivity|].
  apply IH. lia.
Qed.

Lemma lookup_dilation_kernel (kernel dilation : list Z) (i : nat) (k d : Z) :
  kernel !! i = Some k -> dilation !! i = Some d ->
  BlockApiSetup.dilation_kernel kernel dilation !! i = Some ((k - 1) * d + 1).
Proof.
  unfold BlockApiSetup.dilation_kernel.
  revert dilation i. induction kernel as [|k' kernel IH]; intros [|d' dilation] [|i];
    simpl; try discriminate.
  - now intros [= ->] [= ->].
  - apply IH.
Qed.

Lemma insert_flat_nothing (value : Q) (s : list nat) :
  forall (ax : nat) (buffer : list Q),
    length buffer = numpy.size s -> numpy.insert_flat value s ax [] buffer = buffer.
Proof.
  induction s as [|n s IH]; intros ax buffer Hlen; [reflexivity|].
  change (numpy.size (n :: s)) with (n * numpy.size s)%nat in Hlen.
  destruct ax as [|ax]; cbn [numpy.insert_flat].
  - rewrite <- (chunks_concat n (numpy.size s) buffer Hlen) at 2. f_equal.
    generalize 0%nat. generalize (numpy.chunks n (numpy.size s) buffer).
    induction l as [|r l IHl]; intros pos; simpl; [reflexivity|]. now rewrite IHl.
  - rewrite <- (chunks_concat n (numpy.size s) buffer Hlen) at 2. f_equal.
    rewrite <- (map_id (numpy.chunks n (numpy.size s) buffer)) at 2.
    apply map_ext_in. intros b Hb. apply IH.
    pose proof (chunks_each n (numpy.size s) buffer Hlen) as Hall.
    rewrite List.Forall_forall in Hall. now apply Hall.
Qed.

Lemma insert_nothing (a : ndarray) (i : nat) :
  numpy.wf a ->
  (i < length (shape a))%nat ->
  numpy.insert a [] 0 (Z.of_nat (length (shape a)) - Z.of_nat i - 1) = Ok a.
Proof.
  intros Hwf Hi. unfold numpy.insert, numpy.normalize_axis.
  set (n := length (shape a)) in *.
  replace ((Z.of_nat n - Z.of_nat i - 1 <? - Z.of_nat n)
           || (Z.of_nat n <=? Z.of_nat n - Z.of_nat i - 1)) with false
    by (symmetry; apply orb_false_iff; split; [apply Z.ltb_ge|apply Z.leb_gt]; lia).
  simpl. rewrite insert_flat_nothing by exact Hwf.
  rewrite Nat.add_0_r, list_insert_id'.
  - now destruct a.
  - intros Hlt. destruct (lookup_lt_is_Some_2 _ _ Hlt) as [x Hx].
    now rewrite (nth_lookup_Some _ _ 0%nat _ Hx).
Qed.

End expand_kernel.

Lemma zip_dilated_ones (s : list nat) :
  zip_with dilated_length s (repeat 1%nat (length s)) = s.
Proof.
  induction s as [|n s IH]; simpl; [reflexivity|].
  rewrite IH. f_equal. unfold dilated_length. lia.
Qed.

Lemma zip_mul_ones (src : list nat) (n : nat) :
  length src = n -> zip_with Nat.mul src (repeat 1%nat n) = src.
Proof.
  intros <-. induction src as [|x src IH]; simpl; [reflexivity|].
  rewrite IH. f_equal. lia.
Qed.

Section weight_loop.

Variables (init : ndarray) (leading taps : list nat) (dilation : list Z).
Hypothesis init_wf : numpy.wf init.
Hypothesis init_shape : shape init = leading ++ taps.
Hypothesis one_factor_per_tap : length dilation = length taps.
Hypothesis taps_positive : List.Forall (fun t => (1 <= t)%nat) taps.
Hypothesis dilation_positive : List.Forall (fun d => 1 <= d) dilation.

Local Abbreviation kernel := (map Z.of_nat (rev taps)).
Local Abbreviation ndim := (length (shape init)).
Local Abbreviation loop_body := (BlockApiSetup.expand_axis kernel dilation init).

(** What the body of the loop reads on its turn [i]. *)
Lemma loop_reads (i : nat) :
  (i < length taps)%nat ->
  exists p d,
    (1 <= d)%nat /\
    kernel !! i = Some (Z.of_nat (S p)) /\
    dilation !! i = Some (Z.of_nat d) /\
    BlockApiSetup.dilation_kernel kernel dilation !! i = Some (Z.of_nat (p * d + 1)) /\
    shape init !! (ndim - 1 - i)%nat = Some (S p).
Proof.
  intros Hi.
  destruct (lookup_lt_is_Some_2 taps (length taps - S i)) as [t Ht]; [lia|].
  destruct (lookup_lt_is_Some_2 dilation i) as [dz Hdz]; [lia|].
  assert (Htpos : (1 <= t)%nat).
  { rewrite List.Forall_forall in taps_positive.
    apply taps_positive, list_elem_of_In, list_elem_of_lookup. eauto. }
  assert (Hdpos : 1 <= dz).
  { rewrite List.Forall_forall in dilation_positive.
    apply dilation_positive, list_elem_of_In, list_elem_of_lookup. eauto. }
  destruct t as [|p]; [lia|].
  assert (Hk : kernel !! i = Some (Z.of_nat (S p))).
  { change (map Z.of_nat (rev taps)) with (Z.of_nat <$> rev taps).
    rewrite list_lookup_fmap, lookup_rev by exact Hi. now rewrite Ht. }
  exists p, (Z.to_nat dz). rewrite Z2Nat.id by lia.
  split; [lia|]. split; [exact Hk|]. split; [exact Hdz|]. split.
  - rewrite (lookup_dilation_kernel _ _ _ _ _ Hk Hdz). f_equal. nia.
  - rewrite init_shape, length_app.
    rewrite lookup_app_r by lia. rewrite <- Ht. f_equal. lia.
Qed.

Lemma factors_length (i : nat) :
  (i <= length taps)%nat -> length (axis_factors ndim (take i dilation)) = ndim.
Proof.
  intros Hi. unfold axis_factors.
  rewrite length_app, repeat_length, length_rev, length_map, length_take.
  rewrite init_shape, length_app. lia.
Qed.

Lemma factors_one (i : nat) :
  (i < length taps)%nat ->
  axis_factors ndim (take i dilation) !! (ndim - 1 - i)%nat = Some 1%nat.
Proof.
  intros Hi. unfold axis_factors. rewrite length_take.
  assert (Hn : (length taps <= ndim)%nat).
  { rewrite init_shape, length_app. lia. }
  rewrite lookup_app_l by (rewrite repeat_length; lia).
  apply lookup_repeat. lia.
Qed.

Lemma factors_step (i d : nat) :
  (i < length taps)%nat ->
  dilation !! i = Some (Z.of_nat d) ->
  <[(ndim - 1 - i)%nat := d]> (axis_factors ndim (take i dilation))
  = axis_factors ndim (take (S i) dilation).
Proof.
  intros Hi Hd. unfold axis_factors.
  assert (Hn : (length taps <= ndim)%nat).
  { rewrite init_shape, length_app. lia. }
  rewrite (take_S_r _ _ _ Hd), map_app, rev_app_distr, !length_app, !length_take.
  simpl. rewrite Nat2Z.id.
  replace (ndim - i `min` length dilation)%nat with (S (ndim - 1 - i)) by lia.
  replace (ndim - (i `min` length dilation + 1))%nat with (ndim - 1 - i)%nat by lia.
  simpl repeat. rewrite repeat_cons, <- app_assoc.
  rewrite insert_app_r_alt by (rewrite repeat_length; lia).
  rewrite repeat_length, Nat.sub_diag. reflexivity.
Qed.

Lemma dilated_start : dilated init (axis_factors ndim []) init.
Proof.
  unfold axis_factors. simpl. rewrite Nat.sub_0_r, app_nil_r.
  split.
  - exact init_wf.
  - symmetry. apply zip_dilated_ones.
  - intros src Hsrc. f_equal. apply zip_mul_ones.
    exact (Forall2_length _ _ _ Hsrc).
  - intros idx j x f Hidx Hj Hf Hmod. exfalso. apply Hmod.
    destruct (decide (j < length (shape init))%nat) as [Hlt|Hge].
    + rewrite lookup_repeat in Hf by exact Hlt. injection Hf as <-.
      apply Nat.mod_1_r.
    + apply lookup_lt_Some in Hf. rewrite repeat_length in Hf. lia.
Qed.

Lemma loop_dilates (i : nat) :
  (i <= length taps)%nat ->
  exists a,
    foldM loop_body init (seq 0 i) = Ok a /\
    dilated init (axis_factors ndim (take i dilation)) a.
Proof.
  induction i as [|i IH]; intros Hi.
  - exists init. split; [reflexivity|]. rewrite take_0. apply dilated_start.
  - destruct IH as (a & Hloop & Ha); [lia|].
    destruct (loop_reads i) as (p & d & Hd & Hk & Hdz & Hdk & Hax); [lia|].
    destruct (dilated_step init a _ p d i Ha) as (a' & Hinsert & Ha').
    + apply factors_length. lia.
    + exact Hd.
    + rewrite init_shape, length_app. lia.
    + exact Hax.
    + apply factors_one. lia.
    + exists a'. split.
      * rewrite seq_S, foldM_app, Hloop. simpl.
        unfold BlockApiSetup.expand_axis, Py.getitem. rewrite Hk, Hdz, Hdk. simpl.
        rewrite Hinsert. reflexivity.
      * rewrite factors_step in Ha' by (try exact Hdz; lia).
        exact Ha'.
Qed.

Lemma loop_identity :
  BlockApiSetup.dilation_kernel kernel dilation = kernel ->
  forall i, (i <= length taps)%nat -> foldM loop_body init (seq 0 i) = Ok init.
Proof.
  intros Hsame. induction i as [|i IH]; intros Hi; [reflexivity|].
  rewrite seq_S, foldM_app, IH by lia. simpl.
  destruct (loop_reads i) as (p & d & Hd & Hk & Hdz & Hdk & Hax); [lia|].
  unfold BlockApiSetup.expand_axis, Py.getitem. rewrite Hk, Hdz, Hdk. simpl.
  rewrite insert_lines_spec by exact Hd.
  assert (Hnone : adjusted_lines p d = []).
  { apply length_zero_iff_nil. rewrite length_adjusted_lines.
    rewrite Hsame, Hk in Hdk. injection Hdk as Hdk. nia. }
  rewrite Hnone. simpl map. rewrite insert_nothing; [reflexivity|exact init_wf|].
  rewrite init_shape, length_app. lia.
Qed.

End weight_loop.

Lemma dilation_kernel_ones (kernel dilation : list Z) :
  (length kernel <= length dilation)%nat ->
  List.Forall (fun d => d = 1) dilation ->
  BlockApiSetup.dilation_kernel kernel dilation = kernel.
Proof.
  unfold BlockApiSetup.dilation_kernel. intros Hlen Hones. revert kernel Hlen.
  induction Hones as [|d dilation -> Hones IH]; intros [|k kernel] Hlen; simpl in *;
    try reflexivity; try lia.
  f_equal; [lia|]. apply IH. lia.
Qed.

Lemma dilation_kernel_lengths (taps : list nat) (dilation : list Z) :
  length dilation = length taps ->
  List.Forall (fun t => (1 <= t)%nat) taps ->
  List.Forall (fun d => 1 <= d) dilation ->
  map Z.to_nat (BlockApiSetup.dilation_kernel (map Z.of_nat taps) dilation)
  = zip_with dilated_length taps (map Z.to_nat dilation).
Proof.
  unfold BlockApiSetup.dilation_kernel. intros Hlen Htaps. revert dilation Hlen.
  induction Htaps as [|t taps Ht Htaps IH]; intros [|d dilation] Hlen Hd;
    try discriminate; [reflexivity|].
  apply List.Forall_cons_iff in Hd as [Hd Hds]. simpl. f_equal.
  - unfold dilated_length. nia.
  - apply IH; [simpl in Hlen; lia|exact Hds].
Qed.

Lemma rev_zip_with {A B C} (f : A -> B -> C) (l : list A) (k : list B) :
  length l = length k -> rev (zip_with f l k) = zip_with f (rev l) (rev k).
Proof.
  revert k. induction l as [|x l IH]; intros [|y k] Hlen; try discriminate;
    [reflexivity|].
  simpl. rewrite IH by (simpl in Hlen; lia).
  rewrite zip_with_app by (rewrite !length_rev; simpl in Hlen; lia). reflexivity.
Qed.

(** What the loop of [weights_parameter] does when the kernel is listed
    last axis first.  With the dilation 1 on every axis of the kernel, the
    weight is handed to the parameter unchanged.  With dilations of at least
    1, for a weight whose trailing axes are the taps of the kernel (entry
    [i] of the kernel and of the dilation belonging to the axis [i] counted
    from the last), the array handed to the parameter keeps the leading
    axes, has [(k - 1) * d + 1] entries along each axis of the kernel, holds
    the entry of the weight at [src] at the index [src * d], and is zero at
    every index that is not a multiple of the dilation along some axis. *)
Lemma expansion_of_reversed_kernel :
  (forall (kernel dilation : list Z) (init : ndarray) (output_channels : Z)
          (group_name : string),
      (length kernel <= length dilation)%nat ->
      List.Forall (fun d => d = 1) dilation ->
      BlockApiSetup.weights_parameter kernel dilation output_channels (Some init) group_name
      = Ok (ops.parameter (output_channels :: InferredDimension :: kernel)
              (InitArray init) group_name)) /\
  (forall (init : ndarray) (leading taps : list nat) (dilation : list Z)
          (output_channels : Z) (group_name : string),
      numpy.wf init ->
      shape init = leading ++ taps ->
      length dilation = length taps ->
      List.Forall (fun t => (1 <= t)%nat) taps ->
      List.Forall (fun d => 1 <= d) dilation ->
      exists used_init,
        BlockApiSetup.weights_parameter (map Z.of_nat (rev taps)) dilation
          output_channels (Some init) group_name
        = Ok (ops.parameter
                (output_channels :: InferredDimension
                   :: BlockApiSetup.dilation_kernel (map Z.of_nat (rev taps)) dilation)
                (InitArray used_init) group_name) /\
        shape used_init
        = leading ++ rev (map Z.to_nat
                            (BlockApiSetup.dilation_kernel (map Z.of_nat (rev taps))
                               dilation)) /\
        (forall src,
            numpy.in_bounds (shape init) src ->
            numpy.get used_init
              (zip_with Nat.mul src (axis_factors (length (shape init)) dilation))
            = numpy.get init src) /\
        (forall idx j x f,
            numpy.in_bounds (shape used_init) idx ->
            idx !! j = Some x ->
            axis_factors (length (shape init)) dilation !! j = Some f ->
            (x mod f <> 0)%nat ->
            numpy.get used_init idx = Some 0%Q)).
Proof.
  split.
  - intros kernel dilation init output_channels group_name Hlen Hones.
    unfold BlockApiSetup.weights_parameter, BlockApiSetup.expand_kernel.
    rewrite (dilation_kernel_ones _ _ Hlen Hones).
    rewrite bool_decide_false by (intros H; now apply H). reflexivity.
  - intros init leading taps dilation output_channels group_name
           Hwf Hshape Hlen Htaps Hdil.
    destruct (loop_dilates init leading taps dilation Hwf Hshape Hlen Htaps Hdil
                (length taps)) as (a & Hloop & Ha); [lia|].
    rewrite take_ge in Ha by lia.
    assert (Hexpand : BlockApiSetup.expand_kernel (map Z.of_nat (rev taps)) dilation init
                      = Ok a).
    { unfold BlockApiSetup.expand_kernel, numpy.copy. rewrite Hlen.
      case_bool_decide as Hsame; [exact Hloop|].
      rewrite (loop_identity init leading taps dilation Hwf Hshape Hlen Htaps Hdil
                 Hsame (length taps)) in Hloop by lia.
      exact Hloop. }
    exists a. unfold BlockApiSetup.weights_parameter. rewrite Hexpand.
    split; [reflexivity|].
    destruct Ha as [_ Hdims Htap Hzero].
    split; [|split; [exact Htap|exact Hzero]].
    rewrite Hdims, Hshape. unfold axis_factors.
    rewrite length_app, Hlen, Nat.add_sub.
    rewrite zip_with_app by now rewrite repeat_length.
    rewrite zip_dilated_ones. f_equal.
    rewrite dilation_kernel_lengths.
    + rewrite rev_zip_with by (rewrite length_rev, length_map; lia).
      now rewrite rev_involutive.
    + rewrite length_rev. exact Hlen.
    + apply List.Forall_forall. intros t Ht%in_rev.
      rewrite List.Forall_forall in Htaps. auto.
    + exact Hdil.
Qed.

Example expansion_of_reversed_kernel_example :
  exists used_init,
    BlockApiSetup.weights_parameter [2; 1] [2; 1] 2 (Some (UniModel.data Examples.conv_kernel))
      "conv.W"
    = Ok (ops.parameter [2; InferredDimension; 3; 1] (InitArray used_init) "conv.W") /\
    shape used_init = [2; 1; 1; 3]%nat /\
    numpy.get used_init [1; 0; 0; 2]%nat
    = numpy.get (UniModel.data Examples.conv_kernel) [1; 0; 0; 1]%nat /\
    numpy.get used_init [1; 0; 0; 1]%nat = Some 0%Q.
Proof.
  destruct (proj2 expansion_of_reversed_kernel (UniModel.data Examples.conv_kernel)
              [2; 1]%nat [1; 2]%nat [2; 1] 2 "conv.W")
    as (used_init & Hbuilt & Hshape & Htaps & Hzeros).
  - reflexivity.
  - reflexivity.
  - reflexivity.
  - repeat constructor.
  - repeat constructor; lia.
  - exists used_init. split; [exact Hbuilt|]. split; [exact Hshape|]. split.
    + apply (Htaps [1; 0; 0; 1]%nat). repeat constructor.
    + apply (Hzeros [1; 0; 0; 1]%nat 3%nat 1%nat 2%nat); try reflexivity.
      * rewrite Hshape. repeat constructor.
      * simpl. lia.
Qed.

(** C5.  The expansion does not dilate every kernel.  The loop applies
    entry [i] of the kernel and of the dilation to the axis [i] counted from
    the last, while the shape declared for the parameter on the next line
    lists the dilated kernel first axis first.  On a weight of 2 by 3 taps
    with the kernel [(2, 3)] and the dilation 2 on both axes, the parameter
    is declared with 3 by 5 taps and initialised with an array of 4 by 4:
    the zeros computed for the axis of 2 taps are inserted along the axis
    of 3 taps and the other way round, so the taps are not at the stride-2
    positions of an array of 3 by 5.  A square kernel with the dilations
    [(2, 1)] has its second axis dilated instead of the first. *)
Theorem dilated_kernel_expansion_pairs_axes_in_reverse :
  let weight := {| shape := [1; 1; 2; 3]%nat; flat := [1; 2; 3; 4; 5; 6]%Q |} in
  let square := {| shape := [1; 1; 2; 2]%nat; flat := [1; 2; 3; 4]%Q |} in
  BlockApiSetup.dilation_kernel [2; 3] [2; 2] = [3; 5] /\
  BlockApiSetup.weights_parameter [2; 3] [2; 2] 1 (Some weight) "conv.W"
  = Ok (ops.parameter [1; InferredDimension; 3; 5]
          (InitArray {| shape := [1; 1; 4; 4]%nat;
                        flat := [1; 0; 2; 3;
                                 0; 0; 0; 0;
                                 4; 0; 5; 6;
                                 0; 0; 0; 0]%Q |}) "conv.W") /\
  (forall used_init,
      BlockApiSetup.expand_kernel [2; 3] [2; 2] weight = Ok used_init ->
      ~ dilated weight [1; 1; 2; 2]%nat used_init) /\
  BlockApiSetup.weights_parameter [2; 2] [2; 1] 1 (Some square) "conv.W"
  = Ok (ops.parameter [1; InferredDimension; 3; 2]
          (InitArray {| shape := [1; 1; 2; 3]%nat;
                        flat := [1; 0; 2;
                                 3; 0; 4]%Q |}) "conv.W").
Proof.
  cbv zeta. split; [reflexivity|]. split; [reflexivity|]. split; [|reflexivity].
  intros used_init Hexpand [_ Hshape _ _].
  vm_compute in Hexpand. injection Hexpand as <-. discriminate Hshape.
Qed.

(** * Further properties of the builders *)

Section builders.
Import UniModel.

(** X1.  The builders of one input ([relu], [dropout], [softmax],
    [pooling], [lrn]) raise [IndexError] on an empty list of inputs and
    otherwise build their operation on the first input, whatever follows
    it. *)
Theorem single_input_builders_read_first_input :
  forall (cntk_layer : cntk_layer) (inputs : list Function),
    (inputs = [] ->
     ApiSetup.relu cntk_layer inputs = Raise IndexError /\
     ApiSetup.dropout cntk_layer inputs = Raise IndexError /\
     ApiSetup.softmax cntk_layer inputs = Raise IndexError /\
     ApiSetup.pooling cntk_layer inputs = Raise IndexError /\
     ApiSetup.lrn cntk_layer inputs = Raise IndexError) /\
    (forall x rest,
        inputs = x :: rest ->
        ApiSetup.relu cntk_layer inputs
        = Ok (ops.relu (ops.Output x) (op_name cntk_layer)) /\
        ApiSetup.dropout cntk_layer inputs
        = Ok (ops.dropout (ops.Output x) (op_name cntk_layer)) /\
        ApiSetup.softmax cntk_layer inputs
        = Ok (ops.softmax (ops.Output x) (op_name cntk_layer)) /\
        ApiSetup.pooling cntk_layer inputs
        = Ok (ops.pooling (ops.Output x) (pooling_type (params cntk_layer))
                (kernel (params cntk_layer)) (stride (params cntk_layer))
                [auto_pad (params cntk_layer)] true (op_name cntk_layer)) /\
        ApiSetup.lrn cntk_layer inputs
        = Ok (BlockApiSetup.lrn (k (params cntk_layer)) (kernel_size (params cntk_layer))
                (alpha (params cntk_layer)) (beta (params cntk_layer))
                (op_name cntk_layer) (ops.Output x))).
Proof.
  intros cntk_layer inputs. split.
  - intros ->. repeat split.
  - intros x rest ->. repeat split.
Qed.

Lemma single_input_builders_read_first_input_witness :
  ApiSetup.relu (Examples.layer "act" "relu" [] None) [] = Raise IndexError /\
  ApiSetup.relu (Examples.layer "act" "relu" ["a"; "b"] None)
    [Examples.feature_map; Examples.other_map]
  = Ok (ops.relu (ops.Output Examples.feature_map) "act").
Proof.
  split.
  - exact (proj1 (proj1 (single_input_builders_read_first_input
                           (Examples.layer "act" "relu" [] None) []) eq_refl)).
  - exact (proj1 (proj2 (single_input_builders_read_first_input
                           (Examples.layer "act" "relu" ["a"; "b"] None)
                           [Examples.feature_map; Examples.other_map])
                    Examples.feature_map [Examples.other_map] eq_refl)).
Defined.

(** X2.  [psroi_pooling] reads the feature map and the regions from the
    first two inputs: with fewer than two it raises [IndexError], and
    inputs after the second are not looked at. *)
Theorem psroi_pooling_reads_two_inputs :
  forall (cntk_layer : cntk_layer) (inputs : list Function),
    ((length inputs < 2)%nat ->
     ApiSetup.psroi_pooling cntk_layer inputs = Raise IndexError) /\
    (forall conv_map rois rest,
        inputs = conv_map :: rois :: rest ->
        ApiSetup.psroi_pooling cntk_layer inputs
        = Ok (ops.psroipooling (ops.Output conv_map) (ops.Output rois)
                (group_size (params cntk_layer)) (out_channel (params cntk_layer))
                (op_name cntk_layer))).
Proof.
  intros cntk_layer inputs. split.
  - intros Hlen. destruct inputs as [|x [|y rest]]; simpl in Hlen; try lia; reflexivity.
  - intros conv_map rois rest ->. reflexivity.
Qed.

Lemma psroi_pooling_reads_two_inputs_witness :
  ApiSetup.psroi_pooling (Examples.layer "roi" "psroi_pooling" ["conv"] None)
    [Examples.feature_map]
  = Raise IndexError.
Proof.
  exact (proj1 (psroi_pooling_reads_two_inputs
                  (Examples.layer "roi" "psroi_pooling" ["conv"] None)
                  [Examples.feature_map]) ltac:(simpl; lia)).
Defined.

(** X3.  The first input is read before the pretrained tensors are looked
    at: with no input, [convolution], [batch_normalization] and [dense]
    raise [IndexError] whatever the layer holds; [batch_normalization] does
    so too when the first input has no axis, from which [dense] raises
    [TypeError] (the product of an empty shape). *)
Theorem input_errors_come_first :
  forall (cntk_layer : cntk_layer),
    ApiSetup.convolution cntk_layer [] = Raise IndexError /\
    ApiSetup.batch_normalization cntk_layer [] = Raise IndexError /\
    ApiSetup.dense cntk_layer [] = Raise IndexError /\
    (forall x rest,
        output_shape x = [] ->
        ApiSetup.batch_normalization cntk_layer (x :: rest) = Raise IndexError /\
        ApiSetup.dense cntk_layer (x :: rest) = Raise TypeError).
Proof.
  intros cntk_layer. repeat split.
  - unfold ApiSetup.batch_normalization. simpl. unfold ops.sanitize_input.
    now rewrite H.
  - unfold ApiSetup.dense. simpl. unfold ops.sanitize_input. now rewrite H.
Qed.

Lemma input_errors_come_first_witness :
  ApiSetup.dense (Examples.layer "fc" "dense" ["x"] (Some [Examples.gamma; Examples.shift]))
    [{| uid := 0; output_shape := [] |}]
  = Raise TypeError.
Proof.
  exact (proj2 (proj2 (proj2 (proj2 (input_errors_come_first
           (Examples.layer "fc" "dense" ["x"] (Some [Examples.gamma; Examples.shift])))))
           {| uid := 0; output_shape := [] |} [] eq_refl)).
Defined.

(** X4.  A convolution layer without pretrained tensors is never built:
    the kernel is [None] when the weight parameter is made.  With an
    input, the exception is [ZeroDivisionError] for [group = 0] and
    [AttributeError] otherwise. *)
Theorem convolution_needs_pretrained_kernel :
  forall (cntk_layer : cntk_layer) (inputs : list Function),
    has_tensors cntk_layer = false ->
    (forall expr, ApiSetup.convolution cntk_layer inputs <> Ok expr) /\
    (forall x rest,
        inputs = x :: rest ->
        ApiSetup.convolution cntk_layer inputs
        = Raise (if group (params cntk_layer) =? 0
                 then ZeroDivisionError else AttributeError)).
Proof.
  intros cntk_layer inputs Hnone. unfold ApiSetup.convolution. rewrite Hnone.
  assert (Hbias : (if need_bias (params cntk_layer) then Ok None else Ok None)
                  = (Ok None : result (option ndarray)))
    by now destruct (need_bias (params cntk_layer)).
  rewrite Hbias. split.
  - intros expr. destruct (Py.getitem inputs 0) as [x|e]; simpl; [|discriminate].
    destruct (BlockApiSetup.convolution _ _ _ _ None None _ _ _) as [block|e] eqn:Hblock;
      simpl; [|discriminate].
    now apply block_convolution_needs_kernel in Hblock.
  - intros x rest ->. simpl. unfold BlockApiSetup.convolution.
    destruct (Z.eqb_spec (group (params cntk_layer)) 1) as [Hone|Hother].
    + rewrite Hone. reflexivity.
    + destruct (group (params cntk_layer) =? 0); reflexivity.
Qed.

Lemma convolution_needs_pretrained_kernel_witness :
  ApiSetup.convolution (Examples.layer "conv" "convolution" ["image"] None)
    [Examples.image]
  = Raise AttributeError.
Proof.
  exact (proj2 (convolution_needs_pretrained_kernel
                  (Examples.layer "conv" "convolution" ["image"] None)
                  [Examples.image] eq_refl) Examples.image [] eq_refl).
Defined.

Lemma reshape_wrong_size (a : ndarray) (newshape : list Z) :
  List.Forall (fun d => 0 <= d) newshape ->
  fold_right Z.mul 1 newshape <> Z.of_nat (length (flat a)) ->
  numpy.reshape a newshape = Raise ValueError.
Proof.
  intros Hpos Hsize. unfold numpy.reshape.
  assert (Hlow : existsb (fun d => d <? -1) newshape = false).
  { clear Hsize. induction Hpos as [|d l Hd Hl IH]; [reflexivity|]. simpl.
    rewrite IH. destruct (Z.ltb_spec d (-1)); [lia|reflexivity]. }
  assert (Hnone : List.filter (fun d => d =? -1) newshape = []).
  { clear Hsize Hlow. induction Hpos as [|d l Hd Hl IH]; [reflexivity|]. simpl.
    destruct (Z.eqb_spec d (-1)); [lia|exact IH]. }
  assert (Hall : List.filter (fun d => negb (d =? -1)) newshape = newshape).
  { clear Hsize Hlow Hnone. induction Hpos as [|d l Hd Hl IH]; [reflexivity|]. simpl.
    destruct (Z.eqb_spec d (-1)); [lia|]. simpl. now rewrite IH. }
  rewrite Hlow, Hnone, Hall. simpl.
  destruct (Z.eqb_spec (fold_right Z.mul 1 newshape) (Z.of_nat (length (flat a))));
    [contradiction|reflexivity].
Qed.

(** X5.  A convolution that needs a bias takes it from the second
    pretrained tensor: with one tensor only it raises [IndexError], and with
    a second tensor that does not hold [output] entries it raises
    [ValueError]; in both cases before any parameter is made. *)
Theorem convolution_bias_tensor_errors :
  forall (cntk_layer : cntk_layer) (x : Function) (rest : list Function),
    need_bias (params cntk_layer) = true ->
    (forall kernel_tensor,
        parameter_tensor cntk_layer = Some [kernel_tensor] ->
        ApiSetup.convolution cntk_layer (x :: rest) = Raise IndexError) /\
    (forall kernel_tensor bias_tensor others,
        parameter_tensor cntk_layer = Some (kernel_tensor :: bias_tensor :: others) ->
        0 <= output (params cntk_layer) ->
        Z.of_nat (length (flat (data bias_tensor))) <> output (params cntk_layer) ->
        ApiSetup.convolution cntk_layer (x :: rest) = Raise ValueError).
Proof.
  intros cntk_layer x rest Hbias. unfold ApiSetup.convolution, has_tensors, tensors.
  rewrite Hbias. split.
  - intros kernel_tensor ->. reflexivity.
  - intros kernel_tensor bias_tensor others -> Hpos Hsize. simpl.
    unfold numpy.asarray. rewrite reshape_wrong_size; [reflexivity| |].
    + repeat constructor; lia.
    + simpl. lia.
Qed.

Lemma convolution_bias_tensor_errors_witness :
  ApiSetup.convolution
    (Examples.layer "conv" "convolution" ["image"] (Some [Examples.conv_kernel]))
    [Examples.image]
  = Raise IndexError.
Proof.
  exact (proj1 (convolution_bias_tensor_errors
                  (Examples.layer "conv" "convolution" ["image"]
                     (Some [Examples.conv_kernel]))
                  Examples.image [] eq_refl) Examples.conv_kernel eq_refl).
Defined.

End builders.

(** ** Further properties of batch normalization and dense layers *)

Section trained_layers.
Import UniModel.

(** X6.  Every batch normalization that is built has four parameters of
    shape [(channels,)], where [channels] is the first dimension of the
    first input, named after the layer with the suffixes [scale], [bias],
    [mean] and [var]; it is spatial, without the cuDNN engine, with the
    layer's epsilon and a running count of 0.  A layer without pretrained
    tensors ([None] or an empty list) is built with the initial values 1, 0,
    1 and 0. *)
Theorem batch_normalization_parameters :
  forall (cntk_layer : cntk_layer) (inputs : list Function),
    let name := op_name cntk_layer in
    let built x channels scale_init bias_init mean_init var_init :=
      ops.batch_normalization (ops.Output x)
        (ops.parameter [channels] scale_init (join_dot [name; "scale"]))
        (ops.parameter [channels] bias_init (join_dot [name; "bias"]))
        (ops.parameter [channels] mean_init (join_dot [name; "mean"]))
        (ops.parameter [channels] var_init (join_dot [name; "var"]))
        true false (epsilon (params cntk_layer)) (ops.constant 0 [] "") name in
    (forall expr,
        ApiSetup.batch_normalization cntk_layer inputs = Ok expr ->
        exists x rest channels dims scale_init bias_init mean_init var_init,
          inputs = x :: rest /\
          output_shape x = channels :: dims /\
          ApiSetup.batch_normalization_init cntk_layer
          = Ok (scale_init, bias_init, mean_init, var_init) /\
          expr = built x channels scale_init bias_init mean_init var_init) /\
    (forall x rest channels dims,
        inputs = x :: rest ->
        output_shape x = channels :: dims ->
        has_tensors cntk_layer = false ->
        ApiSetup.batch_normalization cntk_layer inputs
        = Ok (built x channels (InitScalar 1) (InitScalar 0) (InitScalar 1) (InitScalar 0))).
Proof.
  intros cntk_layer inputs name built. split.
  - intros expr. unfold ApiSetup.batch_normalization.
    destruct inputs as [|x rest]; [discriminate|]. simpl.
    unfold ops.sanitize_input.
    destruct (output_shape x) as [|channels dims] eqn:Hshape; [discriminate|]. simpl.
    destruct (ApiSetup.batch_normalization_init cntk_layer)
      as [[[[scale_init bias_init] mean_init] var_init]|e]; [|discriminate].
    simpl. intros [= <-].
    exists x, rest, channels, dims, scale_init, bias_init, mean_init, var_init.
    repeat split. exact Hshape.
  - intros x rest channels dims -> Hshape Hnone.
    unfold ApiSetup.batch_normalization. simpl.
    unfold ops.sanitize_input. rewrite Hshape. simpl.
    unfold ApiSetup.batch_normalization_init. rewrite Hnone. reflexivity.
Qed.

Lemma batch_normalization_parameters_witness :
  ApiSetup.batch_normalization
    (Examples.layer "bn" "batch_normalization" ["conv"] (Some []))
    [Examples.feature_map]
  = Ok (ops.batch_normalization (ops.Output Examples.feature_map)
          (ops.parameter [2] (InitScalar 1) "bn.scale")
          (ops.parameter [2] (InitScalar 0) "bn.bias")
          (ops.parameter [2] (InitScalar 1) "bn.mean")
          (ops.parameter [2] (InitScalar 0) "bn.var")
          true false (1 # 100000)%Q (ops.constant 0 [] "") "bn").
Proof.
  exact (proj2 (batch_normalization_parameters
                  (Examples.layer "bn" "batch_normalization" ["conv"] (Some []))
                  [Examples.feature_map])
           Examples.feature_map [] 2 [4; 4] eq_refl eq_refl eq_refl).
Defined.

Local Arguments numpy.transpose_flat : simpl never.

Lemma dense_scale_init_fits (transpose : bool) (input_channel : list Z)
    (output_channel flattened_channel : Z) (weight : ndarray) :
  List.Forall (fun d => 0 <= d) input_channel ->
  0 <= output_channel ->
  Py.reduce_mul input_channel = Ok flattened_channel ->
  Z.of_nat (length (flat weight)) = flattened_channel * output_channel ->
  ApiSetup.dense_scale_init transpose output_channel flattened_channel
    (input_channel ++ [output_channel]) weight
  = Ok {| shape := map Z.to_nat (input_channel ++ [output_channel]);
          flat := if transpose
                  then numpy.transpose_flat
                         [Z.to_nat output_channel; Z.to_nat flattened_channel]
                         (flat weight)
                  else flat weight |}.
Proof.
  intros Hinput Houtput Hflattened Hcount.
  apply reduce_mul_product in Hflattened.
  pose proof (product_nonneg _ Hinput) as Hnonneg. rewrite <- Hflattened in Hnonneg.
  assert (Hshape : List.Forall (fun d => 0 <= d) (input_channel ++ [output_channel])).
  { apply Forall_app. split; [exact Hinput|]. repeat constructor. exact Houtput. }
  assert (Hlen : length (flat weight)
                 = (Z.to_nat output_channel * Z.to_nat flattened_channel)%nat) by nia.
  unfold ApiSetup.dense_scale_init, numpy.copy. destruct transpose.
  - rewrite (reshape_same_size weight [output_channel; flattened_channel])
      by (repeat constructor; simpl; lia).
    simpl. unfold numpy.transpose. cbn [shape flat map rev app].
    rewrite reshape_same_size; cbn [shape flat]; [reflexivity|exact Hshape|].
    rewrite product_app, <- Hflattened.
    rewrite (transpose_flat_matrix_length _ _ _ Hlen). simpl. lia.
  - rewrite reshape_same_size; [reflexivity|exact Hshape|].
    rewrite product_app, <- Hflattened. simpl. lia.
Qed.

Lemma dense_scale_init_misfits (transpose : bool) (input_channel : list Z)
    (output_channel flattened_channel : Z) (weight : ndarray) :
  List.Forall (fun d => 0 <= d) input_channel ->
  0 <= output_channel ->
  Py.reduce_mul input_channel = Ok flattened_channel ->
  Z.of_nat (length (flat weight)) <> flattened_channel * output_channel ->
  ApiSetup.dense_scale_init transpose output_channel flattened_channel
    (input_channel ++ [output_channel]) weight
  = Raise ValueError.
Proof.
  intros Hinput Houtput Hflattened Hcount.
  apply reduce_mul_product in Hflattened.
  pose proof (product_nonneg _ Hinput) as Hnonneg. rewrite <- Hflattened in Hnonneg.
  unfold ApiSetup.dense_scale_init. destruct transpose.
  - rewrite reshape_wrong_size; [reflexivity| |].
    + repeat constructor; lia.
    + simpl. lia.
  - apply reshape_wrong_size.
    + apply Forall_app. split; [exact Hinput|]. repeat constructor. exact Houtput.
    + rewrite product_app, <- Hflattened. simpl. lia.
Qed.

(** X7.  A dense layer with two pretrained tensors, on an input of known
    shape, is built exactly when the weight holds as many entries as the
    flattened input times the number of outputs; otherwise the reshape
    raises [ValueError].  When it is built the weight parameter has the
    shape of the input followed by the number of outputs, its buffer is
    that of the tensor (or of its transpose as a matrix of [num_output]
    rows), and the bias tensor is handed on as it is, whatever its size. *)
Theorem dense_built_iff_weight_fits :
  forall (cntk_layer : cntk_layer) (x : Function) (rest : list Function)
         (scale_tensor bias_tensor : tensor) (flattened_channel : Z),
    parameter_tensor cntk_layer = Some [scale_tensor; bias_tensor] ->
    List.Forall (fun d => 0 <= d) (output_shape x) ->
    0 <= num_output (params cntk_layer) ->
    Py.reduce_mul (output_shape x) = Ok flattened_channel ->
    let output_channel := num_output (params cntk_layer) in
    let count := Z.of_nat (length (flat (data scale_tensor))) in
    let scale_shape := output_shape x ++ [output_channel] in
    (count <> flattened_channel * output_channel ->
     ApiSetup.dense cntk_layer (x :: rest) = Raise ValueError) /\
    (count = flattened_channel * output_channel ->
     ApiSetup.dense cntk_layer (x :: rest)
     = Ok (BlockApiSetup.linear [output_channel] scale_shape
             {| shape := map Z.to_nat scale_shape;
                flat := if transpose (params cntk_layer)
                        then numpy.transpose_flat
                               [Z.to_nat output_channel; Z.to_nat flattened_channel]
                               (flat (data scale_tensor))
                        else flat (data scale_tensor) |}
             (data bias_tensor) (op_name cntk_layer) (ops.Output x))).
Proof.
  intros cntk_layer x rest scale_tensor bias_tensor flattened_channel
         Htensors Hinput Houtput Hflattened. cbv zeta.
  unfold ApiSetup.dense, has_tensors, tensors. rewrite Htensors. simpl.
  unfold ops.sanitize_input. rewrite Hflattened. simpl. unfold numpy.asarray. split.
  - intros Hcount.
    now rewrite (dense_scale_init_misfits _ _ _ _ _ Hinput Houtput Hflattened Hcount).
  - intros Hcount.
    now rewrite (dense_scale_init_fits _ _ _ _ _ Hinput Houtput Hflattened Hcount).
Qed.

Lemma dense_built_iff_weight_fits_witness :
  ApiSetup.dense
    (Examples.layer "fc" "dense" ["pool"]
       (Some [ {| data := Examples.dense_weight |}; Examples.gamma ]))
    [Examples.feature_map]
  = Raise ValueError.
Proof.
  refine (proj1 (dense_built_iff_weight_fits
                   (Examples.layer "fc" "dense" ["pool"]
                      (Some [ {| data := Examples.dense_weight |}; Examples.gamma ]))
                   Examples.feature_map [] {| data := Examples.dense_weight |}
                   Examples.gamma 32 eq_refl _ _ eq_refl) _).
  - repeat constructor; lia.
  - simpl. lia.
  - simpl. lia.
Defined.

Lemma nth_concat_uniform (sz : nat) (rows : list (list Q)) :
  List.Forall (fun b => length b = sz) rows ->
  forall k i, (k < length rows)%nat -> (i < sz)%nat ->
              nth (k * sz + i) (concat rows) 0%Q = nth i (nth k rows []) 0%Q.
Proof.
  induction 1 as [|b rows Hb Hrows IH]; intros k i Hk Hi; simpl in *; [lia|].
  destruct k as [|k]; simpl.
  - apply app_nth1. lia.
  - rewrite app_nth2 by lia.
    replace (sz + k * sz + i - length b)%nat with (k * sz + i)%nat by lia.
    apply IH; lia.
Qed.

Lemma nth_transpose_flat_matrix (r c : nat) (d : list Q) (i j : nat) :
  length d = (r * c)%nat -> (i < r)%nat -> (j < c)%nat ->
  nth (j * r + i) (numpy.transpose_flat [r; c] d) 0%Q = nth (i * c + j) d 0%Q.
Proof.
  intros Hlen Hi Hj. rewrite transpose_flat_matrix by exact Hlen.
  set (rows := numpy.chunks r c d).
  assert (Hrows : length rows = r) by apply chunks_length.
  rewrite (nth_concat_uniform r).
  2:{ rewrite <- Hrows. apply columns_each. }
  2:{ now rewrite columns_length. }
  2:{ exact Hi. }
  unfold numpy.columns.
  rewrite (nth_indep _ [] (map (fun row => nth 0 row 0%Q) rows))
    by (now rewrite length_map, length_seq).
  rewrite (map_nth (fun j => map (fun row => nth j row 0%Q) rows)).
  rewrite seq_nth by exact Hj. simpl.
  rewrite (nth_indep _ 0%Q (nth j [] 0%Q)) by (rewrite length_map; lia).
  rewrite (map_nth (fun row => nth j row 0%Q)).
  subst rows. rewrite nth_chunks by exact Hi.
  rewrite nth_firstn. apply Nat.ltb_lt in Hj as ->.
  now rewrite nth_skipn.
Qed.

(** X8.  The orientation of a transposed dense weight: once the builder
    has reshaped it to [(num_output, flattened)], transposed it and
    reshaped it to the input shape followed by [num_output], the entry for
    the input feature [j] and the output [i] is the entry of the pretrained
    tensor for the output [i] and the input feature [j]. *)
Theorem dense_transposed_weight_entries :
  forall (weight scale_init : ndarray) (input_channel : list Z)
         (output_channel flattened_channel : Z),
    List.Forall (fun d => 0 <= d) input_channel ->
    0 <= output_channel ->
    Py.reduce_mul input_channel = Ok flattened_channel ->
    ApiSetup.dense_scale_init true output_channel flattened_channel
      (input_channel ++ [output_channel]) weight = Ok scale_init ->
    forall i j : nat,
      (i < Z.to_nat output_channel)%nat ->
      (j < Z.to_nat flattened_channel)%nat ->
      exists entry,
        flat weight !! (i * Z.to_nat flattened_channel + j)%nat = Some entry /\
        flat scale_init !! (j * Z.to_nat output_channel + i)%nat = Some entry.
Proof.
  intros weight scale_init input_channel output_channel flattened_channel
         Hinput Houtput Hflattened Hbuilt i j Hi Hj.
  assert (Hcount : Z.of_nat (length (flat weight)) = flattened_channel * output_channel).
  { destruct (Z.eq_dec (Z.of_nat (length (flat weight)))
                (flattened_channel * output_channel)) as [E|E]; [exact E|].
    rewrite (dense_scale_init_misfits _ _ _ _ _ Hinput Houtput Hflattened E) in Hbuilt.
    discriminate. }
  rewrite (dense_scale_init_fits _ _ _ _ _ Hinput Houtput Hflattened Hcount) in Hbuilt.
  injection Hbuilt as <-. cbn [flat].
  set (o := Z.to_nat output_channel) in *. set (f := Z.to_nat flattened_channel) in *.
  apply reduce_mul_product in Hflattened.
  pose proof (product_nonneg _ Hinput) as Hnonneg. rewrite <- Hflattened in Hnonneg.
  assert (Hlen : length (flat weight) = (o * f)%nat) by (subst o f; nia).
  destruct (lookup_lt_is_Some_2 (flat weight) (i * f + j)) as [entry Hentry]; [nia|].
  exists entry. split; [exact Hentry|].
  destruct (lookup_lt_is_Some_2 (numpy.transpose_flat [o; f] (flat weight)) (j * o + i))
    as [entry' Hentry'].
  { rewrite (transpose_flat_matrix_length _ _ _ Hlen). nia. }
  rewrite Hentry'. f_equal.
  rewrite <- (nth_lookup_Some _ _ 0%Q _ Hentry'), <- (nth_lookup_Some _ _ 0%Q _ Hentry).
  now apply nth_transpose_flat_matrix.
Qed.

Lemma dense_transposed_weight_entries_witness :
  exists scale_init entry,
    ApiSetup.dense_scale_init true 2 3 [3; 1; 1; 2] Examples.dense_weight = Ok scale_init /\
    flat Examples.dense_weight !! 5%nat = Some entry /\
    flat scale_init !! 5%nat = Some entry.
Proof.
  destruct (ApiSetup.dense_scale_init true 2 3 ([3; 1; 1] ++ [2]) Examples.dense_weight)
    as [scale_init|e] eqn:Hbuilt; [|vm_compute in Hbuilt; discriminate].
  destruct (dense_transposed_weight_entries Examples.dense_weight scale_init
              [3; 1; 1] 2 3 ltac:(repeat constructor; lia) ltac:(lia) eq_refl Hbuilt
              1%nat 2%nat ltac:(simpl; lia) ltac:(simpl; lia))
    as (entry & Hweight & Hscale).
  exists scale_init, entry. split; [exact Hbuilt|]. split; [exact Hweight|exact Hscale].
Defined.

End trained_layers.

(** ** Further properties of the assembler *)

Section assembly.
Import UniModel CntkApiInstance.

Variable infer_shape : ops.node -> list Z.

Lemma getattr_unknown (name : string) :
  name ∉ fst <$> ApiSetup.methods -> ApiSetup.getattr name = Raise AttributeError.
Proof.
  intros Hunknown. unfold ApiSetup.getattr.
  destruct (List.find _ ApiSetup.methods) as [m|] eqn:Hfind; [|reflexivity].
  apply find_some in Hfind as [Hin Heq]. apply String.eqb_eq in Heq.
  exfalso. apply Hunknown. rewrite <- Heq.
  apply list_elem_of_fmap_2, list_elem_of_In, Hin.
Qed.

Lemma resolve_inputs_bound (st : self) (names : list string) :
  forall local_inputs usused_func,
    (forall y, y ∈ names -> is_Some (_functions st !! y)) ->
    exists remaining,
      foldM (resolve_input st) (local_inputs, usused_func) names
      = Ok (local_inputs ++ omap (fun y => _functions st !! y) names, remaining).
Proof.
  induction names as [|name names IH]; intros local_inputs usused_func Hbound.
  - exists usused_func. simpl. now rewrite app_nil_r.
  - destruct (Hbound name) as [f Hf]; [left|].
    simpl. unfold lookup_function. rewrite Hf. simpl.
    destruct (IH (local_inputs ++ [f])
                 (if bool_decide (f ∈ usused_func) then usused_func ∖ {[f]} else usused_func))
      as [remaining Hrest]; [intros y Hy; apply Hbound; now right|].
    exists remaining. rewrite Hrest. now rewrite <- app_assoc.
Qed.

Lemma resolve_inputs_unbound (st : self) (pre post : list string) (x : string)
    (acc : list Function * gset Function) :
  (forall y, y ∈ pre -> is_Some (_functions st !! y)) ->
  _functions st !! x = None ->
  foldM (resolve_input st) acc (pre ++ x :: post) = Raise (KeyError x).
Proof.
  intros Hbound Hx. destruct acc as [local_inputs usused_func].
  rewrite foldM_app.
  destruct (resolve_inputs_bound st pre local_inputs usused_func Hbound) as [remaining ->].
  simpl. unfold lookup_function. now rewrite Hx.
Qed.

(** X9.  The exceptions of one turn of the loop of [instance_functions],
    in the order in which the code meets them: a sorted layer without
    descriptor is a [KeyError] on its key; then the first input that is not
    in the symbol table is a [KeyError] on that input, whatever the type of
    the layer; then a type that [ApiSetup] has no method for is an
    [AttributeError]; and then the builder is called on the handles of the
    inputs, in the order of the inputs, and its exception is not caught. *)
Theorem instance_layer_error_order :
  forall (cntk_layers : gmap string cntk_layer) (st : self)
         (usused_func : gset Function) (cntk_sorted_layer : string),
    let turn := instance_layer infer_shape cntk_layers (st, usused_func)
                  cntk_sorted_layer in
    (cntk_layers !! cntk_sorted_layer = None ->
     turn = Raise (KeyError cntk_sorted_layer)) /\
    (forall cntk_layer,
        cntk_layers !! cntk_sorted_layer = Some cntk_layer ->
        (forall pre x post,
            inputs cntk_layer = pre ++ x :: post ->
            (forall y, y ∈ pre -> is_Some (_functions st !! y)) ->
            _functions st !! x = None ->
            turn = Raise (KeyError x)) /\
        ((forall y, y ∈ inputs cntk_layer -> is_Some (_functions st !! y)) ->
         (op_type cntk_layer ∉ fst <$> ApiSetup.methods ->
          turn = Raise AttributeError) /\
         (forall build e,
             ApiSetup.getattr (op_type cntk_layer) = Ok build ->
             build cntk_layer (omap (fun y => _functions st !! y) (inputs cntk_layer))
             = Raise e ->
             turn = Raise e))).
Proof.
  intros cntk_layers st usused_func cntk_sorted_layer turn. subst turn.
  unfold instance_layer. split.
  - intros ->. reflexivity.
  - intros cntk_layer ->. simpl. split.
    + intros pre x post -> Hbound Hx.
      now rewrite (resolve_inputs_unbound st pre post x _ Hbound Hx).
    + intros Hbound.
      destruct (resolve_inputs_bound st (inputs cntk_layer) [] usused_func Hbound)
        as [remaining ->].
      simpl. split.
      * intros Hunknown. now rewrite (getattr_unknown _ Hunknown).
      * intros build e -> Hraise. simpl. now rewrite Hraise.
Qed.

Lemma instance_layer_inv (cntk_layers : gmap string cntk_layer) (st st' : self)
    (usused_func usused_func' : gset Function) (key : string) :
  instance_layer infer_shape cntk_layers (st, usused_func) key = Ok (st', usused_func') ->
  exists l local_inputs remaining expr,
    cntk_layers !! key = Some l /\
    foldM (resolve_input st) ([], usused_func) (inputs l) = Ok (local_inputs, remaining) /\
    _functions st'
    = <[op_name l := {| uid := next_uid st; output_shape := infer_shape expr |}]>
        (_functions st) /\
    _output st' = _output st /\
    next_uid st' = S (next_uid st) /\
    usused_func'
    = remaining ∪ {[ {| uid := next_uid st; output_shape := infer_shape expr |} ]}.
Proof.
  unfold instance_layer.
  destruct (cntk_layers !! key) as [l|]; simpl; [|discriminate].
  destruct (foldM (resolve_input st) ([], usused_func) (inputs l))
    as [[local_inputs remaining]|] eqn:Hresolve; simpl; [|discriminate].
  destruct (ApiSetup.getattr (op_type l)) as [build|]; simpl; [|discriminate].
  destruct (build l local_inputs) as [expr|]; simpl; [|discriminate].
  intros [= <- <-]. exists l, local_inputs, remaining, expr. simpl. auto 10.
Qed.

Lemma instance_layers_trace (cntk_layers : gmap string cntk_layer) (keys : list string) :
  forall st usused_func st' usused_func',
    foldM (instance_layer infer_shape cntk_layers) (st, usused_func) keys
    = Ok (st', usused_func') ->
    exists ls,
      Forall2 (fun key l => cntk_layers !! key = Some l) keys ls /\
      (forall name, is_Some (_functions st' !! name)
                    <-> is_Some (_functions st !! name) \/ name ∈ op_name <$> ls) /\
      (forall pre l post,
          ls = pre ++ l :: post ->
          forall x, x ∈ inputs l ->
                    is_Some (_functions st !! x) \/ x ∈ op_name <$> pre) /\
      next_uid st' = (next_uid st + length keys)%nat /\
      _output st' = _output st.
Proof.
  induction keys as [|key keys IH]; intros st usused_func st' usused_func'.
  - intros [= <- <-]. exists []. split; [constructor|]. split.
    + intros name. split; [auto|]. intros [H|H]; [exact H|inversion H].
    + split; [|split; [simpl; lia|reflexivity]].
      intros [|l0 pre] l1 post Hsplit; discriminate Hsplit.
  - change (foldM (instance_layer infer_shape cntk_layers) (st, usused_func) (key :: keys))
      with (instance_layer infer_shape cntk_layers (st, usused_func) key
            ≫= fun acc' => foldM (instance_layer infer_shape cntk_layers) acc' keys).
    intros ([st1 usused_func1] & Hstep & Hrest)%bind_inv.
    apply instance_layer_inv in Hstep
      as (l & local_inputs & remaining & expr & Hl & Hresolve & Htable & Hout & Huid & _).
    apply resolve_input_spec in Hresolve as [Hinputs _].
    apply IH in Hrest as (ls & Hls & Hnames & Hsorted & Hnext & Hout').
    assert (Hone : forall name,
               is_Some (_functions st1 !! name)
               <-> is_Some (_functions st !! name) \/ name = op_name l).
    { intros name. rewrite Htable, lookup_insert. case_decide.
      - subst name. split; [auto|eauto].
      - split; [auto|]. intros [H'|H']; [exact H'|congruence]. }
    exists (l :: ls). split; [now constructor|]. split; [|split; [|split]].
    + intros name. rewrite Hnames, Hone, fmap_cons, elem_of_cons. tauto.
    + intros [|l0 pre] l1 post Hsplit x Hx.
      * injection Hsplit as <- _. left. now apply Hinputs.
      * injection Hsplit as <- Hsplit.
        destruct (Hsorted _ _ _ Hsplit x Hx) as [Hold|Hpre].
        -- apply Hone in Hold as [Hold| ->]; [now left|]. right. left.
        -- right. rewrite fmap_cons. now right.
    + rewrite Hnext, Huid. simpl. lia.
    + now rewrite Hout', Hout.
Qed.

Lemma descriptors_of_trace (cntk_layers : gmap string cntk_layer) (keys : list string)
    (ls : list cntk_layer) :
  Forall2 (fun key l => cntk_layers !! key = Some l) keys ls ->
  omap (fun key => cntk_layers !! key) keys = ls.
Proof.
  induction 1 as [|key l keys ls Hl Hrest IH]; [reflexivity|].
  cbn [omap list_omap]. rewrite Hl. now rewrite IH.
Qed.

Lemma instance_input_names (cntk_uni_model : cntk_uni_model)
    (cntk_tensor : option (list (string * list Z))) :
  let st0 := instance_input cntk_tensor (data_providers cntk_uni_model) init in
  (forall name f, _functions st0 !! name = Some f -> (uid f < next_uid st0)%nat) /\
  (forall name, is_Some (_functions st0 !! name)
                <-> name ∈ input_names cntk_uni_model cntk_tensor).
Proof.
  cbv zeta. unfold instance_input, input_names.
  destruct cntk_tensor as [items|].
  - destruct (bind_inputs_spec fst snd items init) as [Hfresh Hnames].
    + intros name f. simpl. rewrite lookup_empty. discriminate.
    + split; [exact Hfresh|]. intros name. rewrite Hnames. simpl.
      rewrite lookup_empty. split; [intros [[? [=]]|]; auto|auto].
  - destruct (bind_inputs_spec dp_op_name dp_tensor
                (data_providers cntk_uni_model) init) as [Hfresh Hnames].
    + intros name f. simpl. rewrite lookup_empty. discriminate.
    + split; [exact Hfresh|]. intros name. rewrite Hnames. simpl.
      rewrite lookup_empty. split; [intros [[? [=]]|]; auto|auto].
Qed.

Lemma new_trace (cntk_uni_model : cntk_uni_model)
    (cntk_tensor : option (list (string * list Z))) (st : self) :
  new infer_shape cntk_uni_model cntk_tensor = Ok st ->
  Forall2 (fun key l => cntk_layers cntk_uni_model !! key = Some l)
    (cntk_sorted_layers cntk_uni_model) (descriptors cntk_uni_model) /\
  (forall name, is_Some (_functions st !! name)
                <-> name ∈ input_names cntk_uni_model cntk_tensor
                    \/ name ∈ op_name <$> descriptors cntk_uni_model) /\
  (forall pre l post,
      descriptors cntk_uni_model = pre ++ l :: post ->
      forall x, x ∈ inputs l ->
                x ∈ input_names cntk_uni_model cntk_tensor \/ x ∈ op_name <$> pre).
Proof.
  unfold new, instance_functions.
  intros ([st1 usused_func] & Hloop & [= <-])%bind_inv. simpl.
  apply instance_layers_trace in Hloop as (ls & Hls & Hnames & Hsorted & _).
  pose proof (descriptors_of_trace _ _ _ Hls) as Hdescriptors.
  fold (descriptors cntk_uni_model) in Hdescriptors. rewrite Hdescriptors.
  destruct (instance_input_names cntk_uni_model cntk_tensor) as [_ Hinputs].
  split; [exact Hls|]. split.
  - intros name. now rewrite Hnames, Hinputs.
  - intros pre l post Hsplit x Hx. rewrite <- Hinputs. eapply Hsorted; eauto.
Qed.

(** X10.  The assembler needs its layers sorted.  When the conversion
    succeeds, every sorted layer has a descriptor, and every input of a
    layer is a model input or the identifier of a layer that comes earlier
    in the sorted list: a layer never reads its own output or that of a
    later layer. *)
Theorem assembly_needs_sorted_layers :
  forall (cntk_uni_model : cntk_uni_model)
         (cntk_tensor : option (list (string * list Z))) (st : self),
    new infer_shape cntk_uni_model cntk_tensor = Ok st ->
    (forall key, key ∈ cntk_sorted_layers cntk_uni_model ->
                 is_Some (cntk_layers cntk_uni_model !! key)) /\
    length (descriptors cntk_uni_model) = length (cntk_sorted_layers cntk_uni_model) /\
    (forall pre l post,
        descriptors cntk_uni_model = pre ++ l :: post ->
        forall x, x ∈ inputs l ->
                  x ∈ input_names cntk_uni_model cntk_tensor \/ x ∈ op_name <$> pre).
Proof.
  intros cntk_uni_model cntk_tensor st Hnew.
  apply new_trace in Hnew as (Hls & _ & Hsorted).
  split; [|split; [symmetry; eapply Forall2_length; eauto|exact Hsorted]].
  intros key [i Hi]%list_elem_of_lookup.
  destruct (Forall2_lookup_l _ _ _ _ _ Hls Hi) as (l & _ & Hl). eauto.
Qed.

(** X11.  The symbol table that [get_functions] returns after a successful
    conversion has an entry for the model inputs and for the identifiers of
    the layers ([op_name], whatever the key of the layer in the sorted
    list), and for nothing else. *)
Theorem symbol_table_names :
  forall (cntk_uni_model : cntk_uni_model)
         (cntk_tensor : option (list (string * list Z))) (st : self),
    new infer_shape cntk_uni_model cntk_tensor = Ok st ->
    forall name,
      is_Some (get_functions st !! name)
      <-> name ∈ input_names cntk_uni_model cntk_tensor
          \/ exists key l, key ∈ cntk_sorted_layers cntk_uni_model /\
                           cntk_layers cntk_uni_model !! key = Some l /\
                           name = op_name l.
Proof.
  intros cntk_uni_model cntk_tensor st Hnew name.
  apply new_trace in Hnew as (Hls & Hnames & _).
  unfold get_functions. rewrite Hnames.
  enough (name ∈ op_name <$> descriptors cntk_uni_model
          <-> exists key l, key ∈ cntk_sorted_layers cntk_uni_model /\
                            cntk_layers cntk_uni_model !! key = Some l /\
                            name = op_name l) as -> by reflexivity.
  revert Hls. generalize (cntk_sorted_layers cntk_uni_model) (descriptors cntk_uni_model).
  intros keys ls Hls. induction Hls as [|key l keys ls Hl Hrest IH].
  - split; [intros H; inversion H|]. intros (key & l & Hkey & _). inversion Hkey.
  - rewrite fmap_cons, elem_of_cons, IH. split.
    + intros [->|(key' & l' & Hkey' & Hl' & ->)].
      * exists key, l. split; [left|auto].
      * exists key', l'. split; [now right|auto].
    + intros (key' & l' & [->|Hkey']%elem_of_cons & Hl' & ->).
      * left. congruence.
      * right. eauto.
Qed.

Lemma instance_layers_fresh (cntk_layers : gmap string cntk_layer) (keys : list string)
    (n0 : nat) :
  forall st usused_func st' usused_func',
    foldM (instance_layer infer_shape cntk_layers) (st, usused_func) keys
    = Ok (st', usused_func') ->
    (n0 <= next_uid st)%nat ->
    (forall f, f ∈ usused_func -> (n0 <= uid f)%nat) ->
    forall f, f ∈ usused_func' -> (n0 <= uid f)%nat.
Proof.
  induction keys as [|key keys IH]; intros st usused_func st' usused_func'.
  - intros [= <- <-] _ Hfresh. exact Hfresh.
  - change (foldM (instance_layer infer_shape cntk_layers) (st, usused_func) (key :: keys))
      with (instance_layer infer_shape cntk_layers (st, usused_func) key
            ≫= fun acc' => foldM (instance_layer infer_shape cntk_layers) acc' keys).
    intros ([st1 usused_func1] & Hstep & Hrest)%bind_inv Hnext Hfresh.
    apply instance_layer_inv in Hstep
      as (l & local_inputs & remaining & expr & _ & Hresolve & _ & _ & Huid & ->).
    apply resolve_input_spec in Hresolve as [_ Hremaining].
    eapply IH; [exact Hrest|lia|].
    intros f [Hf| ->%elem_of_singleton]%elem_of_union; [|simpl; lia].
    apply Hfresh. now apply Hremaining in Hf as [Hf _].
Qed.

(** X12.  What [get_model] returns after a successful conversion is the
    [combine] of a list of handles without repetition in which no model
    input is, consumed or not: only outputs of layers are collected.
    Without layers the list is empty. *)
Theorem model_inputs_are_never_outputs :
  forall (cntk_uni_model : cntk_uni_model)
         (cntk_tensor : option (list (string * list Z))) (st : self),
    new infer_shape cntk_uni_model cntk_tensor = Ok st ->
    exists terminal : list Function,
      get_model st = Some (ops.combine (ops.Output <$> terminal) "outputs") /\
      NoDup terminal /\
      (cntk_sorted_layers cntk_uni_model = [] -> terminal = []) /\
      (forall f name,
          f ∈ terminal ->
          _functions (instance_input cntk_tensor (data_providers cntk_uni_model) init)
            !! name <> Some f).
Proof.
  intros cntk_uni_model cntk_tensor st.
  unfold new, instance_functions, get_model, get_functions.
  set (st0 := instance_input cntk_tensor (data_providers cntk_uni_model) init).
  intros ([st1 usused_func] & Hloop & [= <-])%bind_inv. simpl.
  exists (elements usused_func). split; [reflexivity|].
  split; [apply NoDup_elements|]. split.
  - intros Hnone. rewrite Hnone in Hloop. injection Hloop as _ <-.
    apply elements_empty.
  - intros f name Hf Hinput.
    destruct (instance_input_names cntk_uni_model cntk_tensor) as [Hfresh _].
    cbv zeta in Hfresh. fold st0 in Hfresh. apply Hfresh in Hinput.
    apply elem_of_elements in Hf.
    pose proof (instance_layers_fresh _ _ (next_uid st0) _ _ _ _ Hloop
                  ltac:(lia) ltac:(set_solver) f Hf).
    lia.
Qed.

End assembly.

Lemma instance_layer_error_order_witness :
  CntkApiInstance.instance_layer Examples.same_shape
    {[ "D" := Examples.layer "D" "unknown" ["data"; "B"; "C"] None ]}
    (CntkApiInstance.bind_input CntkApiInstance.init "data" [2; 4; 4], ∅) "D"
  = Raise (KeyError "B").
Proof.
  refine (proj1 (proj2 (instance_layer_error_order Examples.same_shape
                          {[ "D" := Examples.layer "D" "unknown" ["data"; "B"; "C"] None ]}
                          (CntkApiInstance.bind_input CntkApiInstance.init "data" [2; 4; 4])
                          ∅ "D")
                   (Examples.layer "D" "unknown" ["data"; "B"; "C"] None) eq_refl)
            ["data"] "B" ["C"] eq_refl _ eq_refl).
  intros y ->%list_elem_of_singleton. vm_compute. eauto.
Defined.

Lemma assembly_needs_sorted_layers_witness :
  exists st,
    CntkApiInstance.new Examples.same_shape Examples.diamond None = Ok st /\
    forall x,
      x ∈ UniModel.inputs (Examples.layer "D" "plus" ["B"; "C"] None) ->
      x ∈ CntkApiInstance.input_names Examples.diamond None \/ x ∈ ["A"; "B"; "C"].
Proof.
  destruct (CntkApiInstance.new Examples.same_shape Examples.diamond None)
    as [st|e] eqn:Hnew; [|vm_compute in Hnew; discriminate].
  exists st. split; [reflexivity|].
  destruct (assembly_needs_sorted_layers Examples.same_shape Examples.diamond None st Hnew)
    as (_ & _ & Hsorted).
  exact (Hsorted [Examples.layer "A" "relu" ["data"] None;
                  Examples.layer "B" "relu" ["A"] None;
                  Examples.layer "C" "dropout" ["A"] None]
                 (Examples.layer "D" "plus" ["B"; "C"] None) [] eq_refl).
Defined.

Lemma symbol_table_names_witness :
  exists st,
    CntkApiInstance.new Examples.same_shape Examples.diamond None = Ok st /\
    forall name,
      is_Some (CntkApiInstance.get_functions st !! name)
      <-> name ∈ CntkApiInstance.input_names Examples.diamond None
          \/ exists key l, key ∈ UniModel.cntk_sorted_layers Examples.diamond /\
                           UniModel.cntk_layers Examples.diamond !! key = Some l /\
                           name = UniModel.op_name l.
Proof.
  destruct (CntkApiInstance.new Examples.same_shape Examples.diamond None)
    as [st|e] eqn:Hnew; [|vm_compute in Hnew; discriminate].
  exists st. split; [reflexivity|].
  exact (symbol_table_names Examples.same_shape Examples.diamond None st Hnew).
Defined.

Lemma model_inputs_are_never_outputs_witness :
  exists st terminal,
    CntkApiInstance.new Examples.same_shape Examples.diamond None = Ok st /\
    CntkApiInstance.get_model st
    = Some (ops.combine (ops.Output <$> terminal) "outputs") /\
    forall f, f ∈ terminal -> f <> {| uid := 0; output_shape := [2; 4; 4] |}.
Proof.
  destruct (CntkApiInstance.new Examples.same_shape Examples.diamond None)
    as [st|e] eqn:Hnew; [|vm_compute in Hnew; discriminate].
  destruct (model_inputs_are_never_outputs Examples.same_shape Examples.diamond None st Hnew)
    as (terminal & Hmodel & _ & _ & Hinputs).
  exists st, terminal. split; [reflexivity|]. split; [exact Hmodel|].
  intros f Hf ->. exact (Hinputs _ "data" Hf eq_refl).
Defined.

(** ** The model inputs *)

Section model_inputs.
Import UniModel CntkApiInstance.

Lemma bind_inputs_pairs (items : list (string * list Z)) :
  forall st,
    let st' := fold_left (fun st item => bind_input st (fst item) (snd item)) items st in
    (forall name, name ∉ fst <$> items -> _functions st' !! name = _functions st !! name) /\
    (forall pre name tensor post,
        items = pre ++ (name, tensor) :: post ->
        name ∉ fst <$> post ->
        _functions st' !! name
        = Some {| uid := next_uid st + length pre; output_shape := tensor |}) /\
    _output st' = _output st.
Proof.
  induction items as [|item items IH]; intros st; cbv zeta.
  - split; [reflexivity|]. split; [|reflexivity].
    intros [|p pre] name tensor post Hsplit; discriminate Hsplit.
  - cbn [fold_left].
    destruct (IH (bind_input st (fst item) (snd item))) as (Hother & Hlast & Hout).
    split; [|split].
    + intros name Hname. rewrite fmap_cons, not_elem_of_cons in Hname.
      destruct Hname as [Hne Hname]. rewrite (Hother name Hname).
      unfold bind_input. simpl. now apply lookup_insert_ne.
    + intros [|p pre] name tensor post Hsplit Hname.
      * injection Hsplit as -> <-. rewrite (Hother name Hname).
        unfold bind_input. simpl. rewrite lookup_insert_eq. do 2 f_equal. lia.
      * injection Hsplit as <- Hsplit. rewrite (Hlast _ _ _ _ Hsplit Hname).
        unfold bind_input. simpl. do 2 f_equal. lia.
    + rewrite Hout. reflexivity.
Qed.

Lemma bind_data_providers (data_providers : list data_provider) :
  forall st,
    fold_left (fun st data_provider =>
                 bind_input st (dp_op_name data_provider) (dp_tensor data_provider))
              data_providers st
    = fold_left (fun st item => bind_input st (fst item) (snd item))
                ((fun data_provider => (dp_op_name data_provider, dp_tensor data_provider))
                   <$> data_providers) st.
Proof.
  induction data_providers as [|data_provider data_providers IH]; intros st;
    [reflexivity|].
  simpl. apply IH.
Qed.

(** X13.  [instance_input] declares one input for every entry of the
    tensors configured in the model solver when there are any, and of the
    data providers otherwise, which are then not looked at.  Every other
    entry of the symbol table is left as it was, and when an identifier is
    declared more than once the table keeps the input made for its last
    declaration, with the shape given there. *)
Theorem instance_input_binds_declared_shapes :
  forall (cntk_tensor : option (list (string * list Z)))
         (data_providers : list data_provider) (st : self),
    let declared :=
      match cntk_tensor with
      | Some items => items
      | None => (fun data_provider => (dp_op_name data_provider, dp_tensor data_provider))
                  <$> data_providers
      end in
    let st' := instance_input cntk_tensor data_providers st in
    (forall name, name ∉ fst <$> declared ->
                  _functions st' !! name = _functions st !! name) /\
    (forall pre name tensor post,
        declared = pre ++ (name, tensor) :: post ->
        name ∉ fst <$> post ->
        _functions st' !! name
        = Some {| uid := next_uid st + length pre; output_shape := tensor |}) /\
    _output st' = _output st.
Proof.
  intros cntk_tensor data_providers st. cbv zeta. unfold instance_input.
  destruct cntk_tensor as [items|].
  - apply bind_inputs_pairs.
  - rewrite bind_data_providers. apply bind_inputs_pairs.
Qed.

Lemma instance_input_binds_declared_shapes_witness :
  _functions
    (instance_input None
       [ {| dp_op_name := "data"; dp_tensor := [3; 4; 4] |};
         {| dp_op_name := "label"; dp_tensor := [10] |};
         {| dp_op_name := "data"; dp_tensor := [1; 2; 2] |} ] init) !! "data"
  = Some {| uid := 2; output_shape := [1; 2; 2] |}.
Proof.
  refine (proj1 (proj2 (instance_input_binds_declared_shapes None
                          [ {| dp_op_name := "data"; dp_tensor := [3; 4; 4] |};
                            {| dp_op_name := "label"; dp_tensor := [10] |};
                            {| dp_op_name := "data"; dp_tensor := [1; 2; 2] |} ] init))
            [("data", [3; 4; 4]); ("label", [10])] "data" [1; 2; 2] [] eq_refl _).
  apply not_elem_of_nil.
Defined.

End model_inputs.

(** ** Further properties of the convolution block *)

Section convolution_block.

Lemma foldM_raises {S X} (body : S -> X -> result S) (s : S) (pre post : list X) (x : X) :
  (forall s', exists e, body s' x = Raise e) ->
  exists e, foldM body s (pre ++ x :: post) = Raise e.
Proof.
  intros Hraise. rewrite foldM_app.
  destruct (foldM body s pre) as [s'|e]; simpl; [|eauto].
  destruct (Hraise s') as [e ->]. simpl. eauto.
Qed.

(** X14.  A dilation with more entries than the kernel makes the expansion
    of the weight fail whenever the expansion is entered: the loop runs
    over the entries of the dilation and reads the kernel at an index that
    the kernel does not have.  No weight parameter is made then. *)
Theorem surplus_dilation_is_rejected :
  forall (kernel dilation : list Z) (init : ndarray) (output_channels : Z)
         (group_name : string),
    (length kernel < length dilation)%nat ->
    BlockApiSetup.dilation_kernel kernel dilation <> kernel ->
    (exists e, BlockApiSetup.expand_kernel kernel dilation init = Raise e) /\
    (forall a,
        foldM (BlockApiSetup.expand_axis kernel dilation init) (numpy.copy init)
          (seq 0 (length kernel)) = Ok a ->
        BlockApiSetup.expand_kernel kernel dilation init = Raise IndexError) /\
    (forall w,
        BlockApiSetup.weights_parameter kernel dilation output_channels (Some init)
          group_name <> Ok w).
Proof.
  intros kernel dilation init output_channels group_name Hlen Hdiff.
  assert (Hseq : seq 0 (length dilation)
                 = seq 0 (length kernel) ++ length kernel
                     :: seq (S (length kernel)) (length dilation - S (length kernel))).
  { replace (length dilation)
      with (length kernel + S (length dilation - S (length kernel)))%nat at 1 by lia.
    now rewrite seq_app. }
  assert (Hread : forall used_init,
             BlockApiSetup.expand_axis kernel dilation init used_init (length kernel)
             = Raise IndexError).
  { intros used_init. unfold BlockApiSetup.expand_axis, Py.getitem.
    rewrite (lookup_ge_None_2 kernel (length kernel)) by lia. reflexivity. }
  assert (Hfails : exists e, BlockApiSetup.expand_kernel kernel dilation init = Raise e).
  { unfold BlockApiSetup.expand_kernel. rewrite bool_decide_true by exact Hdiff.
    rewrite Hseq. apply foldM_raises. intros used_init. rewrite Hread. eauto. }
  split; [exact Hfails|]. split.
  - intros a Hloop. unfold BlockApiSetup.expand_kernel.
    rewrite bool_decide_true by exact Hdiff.
    rewrite Hseq, foldM_app, Hloop. simpl. now rewrite Hread.
  - intros w. unfold BlockApiSetup.weights_parameter.
    destruct Hfails as [e ->]. discriminate.
Qed.

Lemma surplus_dilation_is_rejected_witness :
  BlockApiSetup.expand_kernel [2] [2; 1] (UniModel.data Examples.conv_kernel)
  = Raise IndexError.
Proof.
  refine (proj1 (proj2 (surplus_dilation_is_rejected [2] [2; 1]
                          (UniModel.data Examples.conv_kernel) 2 "conv.W" _ _))
            _ (eq_refl : _ = Ok {| shape := [2; 1; 1; 3]%nat;
                                   flat := [1; 0; 2; 3; 0; 4]%Q |})).
  - simpl. lia.
  - discriminate.
Defined.

Lemma weights_parameter_ones (kernel dilation : list Z) (init : ndarray)
    (output_channels : Z) (group_name : string) :
  (length kernel <= length dilation)%nat ->
  List.Forall (fun d => d = 1) dilation ->
  BlockApiSetup.weights_parameter kernel dilation output_channels (Some init) group_name
  = Ok (ops.parameter (output_channels :: InferredDimension :: kernel)
          (InitArray init) group_name).
Proof.
  intros Hlen Hones.
  unfold BlockApiSetup.weights_parameter, BlockApiSetup.expand_kernel.
  rewrite (dilation_kernel_ones _ _ Hlen Hones).
  rewrite bool_decide_false by (intros H; now apply H). reflexivity.
Qed.

Lemma groups_kernel_loop (kernel dilation : list Z) (output_channels : Z) (name : string)
    (parts : list ndarray) (blank : ndarray) :
  (length kernel <= length dilation)%nat ->
  List.Forall (fun d => d = 1) dilation ->
  forall (m : nat) (acc : list ops.node),
    (m <= length parts)%nat ->
    foldM (fun acc i =>
             init_i ← Py.getitem parts (Z.to_nat i);
             w_i ← BlockApiSetup.weights_parameter kernel dilation output_channels
                     (Some init_i) (join_dot [name; pretty i; "W"]);
             Ok (acc ++ [w_i]))
          acc (map Z.of_nat (seq 0 m))
    = Ok (acc ++ map (fun i => ops.parameter (output_channels :: InferredDimension :: kernel)
                                 (InitArray (nth (Z.to_nat i) parts blank))
                                 (join_dot [name; pretty i; "W"]))
                     (map Z.of_nat (seq 0 m))).
Proof.
  intros Hlen Hones. induction m as [|m IH]; intros acc Hm.
  - simpl. now rewrite app_nil_r.
  - rewrite seq_S, !map_app, foldM_app, IH by lia. rewrite bind_Ok.
    cbn [map foldM Nat.add]. rewrite Nat2Z.id.
    destruct (lookup_lt_is_Some_2 parts m) as [part Hpart]; [lia|].
    unfold Py.getitem. rewrite Hpart, bind_Ok.
    rewrite (weights_parameter_ones _ _ _ _ _ Hlen Hones), !bind_Ok.
    rewrite (nth_lookup_Some _ _ blank _ Hpart). now rewrite <- app_assoc.
Qed.

Lemma combine_map_map {X Y Z' : Type} (f : X -> Y) (g : X -> Z') (l : list X) :
  List.combine (map f l) (map g l) = map (fun x => (f x, g x)) l.
Proof. induction l as [|x l IH]; simpl; [reflexivity|]. now rewrite IH. Qed.

(** X15.  A convolution of [group] groups, [group] at least 2, without
    dilation: the weight is cut along its first axis into [group] equal
    parts, one parameter named [name.i.W] is made from each with
    [int(output / group)] output channels, and the block is the splice
    along the channel axis of the convolutions of the parameter [i] with the
    channels [i * c] to [(i + 1) * c] of the input, where [c] is the
    second extent of a part; the bias, if any, is added to the splice. *)
Theorem grouped_convolution_splits_channels :
  forall (output : Z) (kernel stride : list Z) (pad : bool) (kernel_init : ndarray)
         (bias_init : option ndarray) (group : Z) (dilation : list Z) (name : string)
         (n c : nat) (rest : list nat),
    2 <= group ->
    shape kernel_init = n :: c :: rest ->
    Z.of_nat n mod group = 0 ->
    (length kernel <= length dilation)%nat ->
    List.Forall (fun d => d = 1) dilation ->
    let rows := (n / Z.to_nat group)%nat in
    let part_size := (rows * numpy.size (c :: rest))%nat in
    let part i := {| shape := rows :: c :: rest;
                     flat := take part_size (drop (Z.to_nat i * part_size)
                                               (flat kernel_init)) |} in
    let weight i := ops.parameter (Z.quot output group :: InferredDimension :: kernel)
                      (InitArray (part i)) (join_dot [name; pretty i; "W"]) in
    exists block,
      BlockApiSetup.convolution output kernel stride pad (Some kernel_init) bias_init
        group dilation name = Ok block /\
      forall x,
        block x
        = let apply_x :=
            ops.splice
              (map (fun i => BlockApiSetup.conv_ops stride pad (weight i)
                               (ops.slice x 0 (i * Z.of_nat c) ((i + 1) * Z.of_nat c)))
                   (Py.range group)) 0 "" in
          ops.BlockFunction "Convolution" name
            match bias_init with
            | Some bias_init =>
                ops.plus apply_x
                  (ops.parameter [output] (InitArray bias_init) (join_dot [name; "b"])) ""
            | None => apply_x
            end.
Proof.
  intros output kernel stride pad kernel_init bias_init group dilation name n c rest
         Hgroup Hshape Hdivides Hlen Hones rows part_size part weight.
  set (blank := {| shape := []; flat := [] |}).
  set (parts := map (fun blk => {| shape := rows :: c :: rest; flat := blk |})
                    (numpy.chunks (Z.to_nat group) part_size (flat kernel_init))).
  assert (Hparts : length parts = Z.to_nat group).
  { subst parts. now rewrite length_map, chunks_length. }
  assert (Hsplit : numpy.split (Some kernel_init) group = Ok parts).
  { unfold numpy.split. rewrite Hshape.
    destruct (Z.eqb_spec group 0); [lia|].
    destruct (Z.ltb_spec group 0); [lia|]. simpl.
    rewrite Hdivides. reflexivity. }
  assert (Hpart : forall i, In i (Py.range group) ->
                            nth (Z.to_nat i) parts blank = part i).
  { intros i [Hlo Hhi]%In_range. subst parts.
    rewrite (nth_indep _ blank ((fun blk => {| shape := rows :: c :: rest; flat := blk |}) []))
      by (rewrite length_map, chunks_length; lia).
    rewrite (map_nth (fun blk => {| shape := rows :: c :: rest; flat := blk |})).
    rewrite nth_chunks by lia. reflexivity. }
  assert (Hkernels :
            foldM (fun acc i =>
                     init_i ← Py.getitem parts (Z.to_nat i);
                     w_i ← BlockApiSetup.weights_parameter kernel dilation
                             (Z.quot output group) (Some init_i)
                             (join_dot [name; pretty i; "W"]);
                     Ok (acc ++ [w_i]))
                  [] (Py.range group)
            = Ok (map weight (Py.range group))).
  { unfold Py.range.
    rewrite (groups_kernel_loop kernel dilation (Z.quot output group) name parts blank
               Hlen Hones (Z.to_nat group) []) by lia.
    simpl. f_equal. apply map_ext_in. intros i Hi.
    subst weight. cbv beta. now rewrite (Hpart i Hi). }
  assert (Hrange : Py.range group = 0 :: map Z.of_nat (seq 1 (Z.to_nat group - 1))).
  { unfold Py.range. replace (Z.to_nat group) with (S (Z.to_nat group - 1)) at 1 by lia.
    reflexivity. }
  assert (Hfirst : Py.getitem (map weight (Py.range group)) 0 = Ok (weight 0)).
  { rewrite Hrange. reflexivity. }
  assert (Hchannels : Py.getitem (ops.shape_of (weight 0)) 1 = Ok (Z.of_nat c)).
  { reflexivity. }
  unfold BlockApiSetup.convolution.
  destruct (Z.eqb_spec group 1); [lia|]. destruct (Z.eqb_spec group 0); [lia|].
  cbv zeta. rewrite bind_Ok, Hsplit, bind_Ok, Hkernels, bind_Ok, Hfirst, bind_Ok.
  rewrite Hchannels, bind_Ok.
  eexists. split; [reflexivity|]. intros x. cbv beta.
  rewrite combine_map_map, map_map. cbn [fst snd].
  destruct bias_init; reflexivity.
Qed.

Lemma grouped_convolution_splits_channels_witness :
  exists block,
    BlockApiSetup.convolution 2 [1; 2] [1; 1] true (Some (UniModel.data Examples.conv_kernel))
      None 2 [1; 1] "conv" = Ok block /\
    forall x,
      block x
      = ops.BlockFunction "Convolution" "conv"
          (ops.splice
             [ BlockApiSetup.conv_ops [1; 1] true
                 (ops.parameter [1; InferredDimension; 1; 2]
                    (InitArray {| shape := [1; 1; 1; 2]%nat; flat := [1; 2]%Q |}) "conv.0.W")
                 (ops.slice x 0 0 1);
               BlockApiSetup.conv_ops [1; 1] true
                 (ops.parameter [1; InferredDimension; 1; 2]
                    (InitArray {| shape := [1; 1; 1; 2]%nat; flat := [3; 4]%Q |}) "conv.1.W")
                 (ops.slice x 0 1 2) ] 0 "").
Proof.
  destruct (grouped_convolution_splits_channels 2 [1; 2] [1; 1] true
              (UniModel.data Examples.conv_kernel) None 2 [1; 1] "conv"
              2%nat 1%nat [1; 2]%nat ltac:(lia) eq_refl eq_refl ltac:(simpl; lia)
              ltac:(repeat constructor)) as (block & Hbuilt & Hblock).
  exists block. split; [exact Hbuilt|]. intros x. rewrite Hblock. reflexivity.
Defined.

(** X16.  The exceptions of a convolution with groups, before any
    parameter is made: 0 groups is a division by zero, whatever the weight;
    a weight that is missing has no shape to split; a weight without axes
    has no first axis; and a number of groups that is negative or does not
    divide the first extent of the weight is refused by [numpy.split]. *)
Theorem grouped_convolution_split_errors :
  forall (output : Z) (kernel stride : list Z) (pad : bool)
         (kernel_init bias_init : option ndarray) (group : Z) (dilation : list Z)
         (name : string),
    let built := BlockApiSetup.convolution output kernel stride pad kernel_init bias_init
                   group dilation name in
    (group = 0 -> built = Raise ZeroDivisionError) /\
    (group <> 0 -> group <> 1 ->
     (kernel_init = None -> built = Raise AttributeError) /\
     (forall a, kernel_init = Some a -> shape a = [] -> built = Raise IndexError) /\
     (forall a n s,
         kernel_init = Some a -> shape a = n :: s ->
         group < 0 \/ Z.of_nat n mod group <> 0 ->
         built = Raise ValueError)).
Proof.
  intros output kernel stride pad kernel_init bias_init group dilation name built.
  subst built. unfold BlockApiSetup.convolution. split.
  - intros ->. reflexivity.
  - intros Hzero Hone.
    destruct (Z.eqb_spec group 1); [contradiction|].
    destruct (Z.eqb_spec group 0); [contradiction|]. simpl.
    split; [|split].
    + intros ->. reflexivity.
    + intros a -> Hshape. simpl. now rewrite Hshape.
    + intros a m s -> Hshape Hbad. simpl. rewrite Hshape.
      destruct (Z.eqb_spec group 0); [contradiction|].
      destruct Hbad as [Hneg|Hrem].
      * destruct (Z.ltb_spec group 0); [reflexivity|lia].
      * destruct (Z.eqb_spec (Z.of_nat m mod group) 0); [contradiction|].
        now rewrite orb_true_r.
Qed.

Lemma grouped_convolution_split_errors_witness :
  BlockApiSetup.convolution 2 [1; 2] [1; 1] true (Some (UniModel.data Examples.conv_kernel))
    None 3 [1; 1] "conv"
  = Raise ValueError.
Proof.
  refine (proj2 (proj2 (proj2 (grouped_convolution_split_errors 2 [1; 2] [1; 1] true
                                 (Some (UniModel.data Examples.conv_kernel)) None 3 [1; 1]
                                 "conv") _ _))
            (UniModel.data Examples.conv_kernel) 2%nat [1; 1; 2]%nat eq_refl eq_refl _).
  - lia.
  - lia.
  - right. intros Hdivides. vm_compute in Hdivides. discriminate Hdivides.
Defined.

End convolution_block.

(** ** Further properties of the evaluator *)

Section evaluation.
Import Evaluator.

Variable test_minibatch : Z -> Q.

Lemma inject_Z_nonzero (z : Z) : z <> 0 -> Qeq_bool (inject_Z z) 0 = false.
Proof. intros Hz. destruct z; [contradiction|reflexivity|reflexivity]. Qed.

Lemma running_total_succ (m : nat) :
  running_total test_minibatch (Z.of_nat m + 1)
  = (running_total test_minibatch (Z.of_nat m) + test_minibatch (Z.of_nat m))%Q.
Proof.
  unfold running_total, Py.range.
  replace (Z.to_nat (Z.of_nat m + 1)) with (S m) by lia.
  rewrite Nat2Z.id, seq_S, map_app, fold_left_app. reflexivity.
Qed.

(** The state of the loop after [m] turns. *)
Lemma eval_turns (test_minibatch_size : Z) (m : nat) :
  foldM (eval_turn test_minibatch test_minibatch_size) (0%Q, [])
        (map Z.of_nat (seq 0 m))
  = Ok (running_total test_minibatch (Z.of_nat m),
        map (fun i => progress (running_total test_minibatch (i + 1) / inject_Z (i + 1))
                               (i * test_minibatch_size))
            (List.filter (fun i => i mod 100 =? 0) (map Z.of_nat (seq 0 m)))).
Proof.
  induction m as [|m IH]; [reflexivity|].
  rewrite seq_S, map_app, foldM_app, IH, bind_Ok.
  rewrite List.filter_app, map_app. cbn [map foldM Nat.add List.filter].
  unfold eval_turn at 1.
  replace (Z.of_nat (S m)) with (Z.of_nat m + 1) by lia.
  rewrite running_total_succ.
  destruct (Z.of_nat m mod 100 =? 0).
  - unfold Py.truediv. rewrite inject_Z_nonzero by lia.
    rewrite !bind_Ok. cbn [map]. rewrite running_total_succ. reflexivity.
  - rewrite bind_Ok, app_nil_r. reflexivity.
Qed.

(** X17.  The evaluation needs one full minibatch.  With a minibatch size
    of 0 the number of minibatches cannot be computed, and with fewer
    samples than one minibatch the loop does not run and the final error is
    a division of the total by 0: in both cases [ZeroDivisionError] is
    raised and no error is reported. *)
Theorem evaluation_needs_one_full_batch :
  forall num_samples test_minibatch_size : Z,
    (test_minibatch_size = 0 ->
     eval_loop test_minibatch num_samples test_minibatch_size = Raise ZeroDivisionError) /\
    (0 <= num_samples < test_minibatch_size ->
     eval_loop test_minibatch num_samples test_minibatch_size = Raise ZeroDivisionError).
Proof.
  intros num_samples test_minibatch_size. unfold eval_loop, int_truediv. split.
  - intros ->. reflexivity.
  - intros Hfew. destruct (Z.eqb_spec test_minibatch_size 0); [lia|].
    rewrite Z.quot_small by exact Hfew. reflexivity.
Qed.

(** X18.  With at least one full minibatch the evaluation runs
    [int(num_samples / test_minibatch_size)] minibatches, so the samples
    beyond the last full minibatch are not evaluated.  It reports the mean
    of the errors so far on the turns whose number is a multiple of 100,
    the first turn included, with the number of samples before the turn,
    and ends with the mean of the errors of all minibatches. *)
Theorem evaluation_reports_running_mean :
  forall num_samples test_minibatch_size : Z,
    0 < test_minibatch_size ->
    test_minibatch_size <= num_samples ->
    let batches := Z.quot num_samples test_minibatch_size in
    let mean_of n := (running_total test_minibatch n / inject_Z n)%Q in
    1 <= batches /\
    eval_loop test_minibatch num_samples test_minibatch_size
    = Ok (map (fun i => progress (mean_of (i + 1)) (i * test_minibatch_size))
              (List.filter (fun i => i mod 100 =? 0) (Py.range batches))
          ++ [final (mean_of batches)]) /\
    exists stdout,
      eval_loop test_minibatch num_samples test_minibatch_size
      = Ok (progress ((0 + test_minibatch 0) / inject_Z 1) 0 :: stdout).
Proof.
  intros num_samples test_minibatch_size Hsize Hsamples batches mean_of.
  assert (Hbatches : 1 <= batches).
  { subst batches. rewrite Z.quot_div_nonneg by lia.
    apply Z.div_le_lower_bound; lia. }
  assert (Hloop : eval_loop test_minibatch num_samples test_minibatch_size
                  = Ok (map (fun i => progress (mean_of (i + 1)) (i * test_minibatch_size))
                            (List.filter (fun i => i mod 100 =? 0) (Py.range batches))
                        ++ [final (mean_of batches)])).
  { unfold eval_loop, int_truediv.
    destruct (Z.eqb_spec test_minibatch_size 0); [lia|].
    cbv zeta. rewrite !bind_Ok. fold batches. unfold Py.range at 1.
    rewrite eval_turns, !bind_Ok. rewrite Z2Nat.id by lia.
    unfold Py.truediv. rewrite inject_Z_nonzero by lia. rewrite bind_Ok.
    reflexivity. }
  split; [exact Hbatches|]. split; [exact Hloop|].
  rewrite Hloop. unfold Py.range.
  replace (Z.to_nat batches) with (S (Z.to_nat batches - 1)) by lia.
  cbn [seq map List.filter]. change (Z.of_nat 0 mod 100 =? 0) with true.
  cbn [map app]. eexists. reflexivity.
Qed.

End evaluation.

Lemma evaluation_needs_one_full_batch_witness :
  Evaluator.eval_loop (fun _ => 1 # 2)%Q 3 4 = Raise ZeroDivisionError.
Proof.
  exact (proj2 (evaluation_needs_one_full_batch (fun _ => 1 # 2)%Q 3 4) ltac:(lia)).
Defined.

Lemma evaluation_reports_running_mean_witness :
  Evaluator.eval_loop (fun _ => 1 # 2)%Q 10 4
  = Ok (map (fun i => Evaluator.progress
                        (Evaluator.running_total (fun _ => 1 # 2)%Q (i + 1) / inject_Z (i + 1))
                        (i * 4))
            (List.filter (fun i => i mod 100 =? 0) (Py.range 2))
        ++ [Evaluator.final (Evaluator.running_total (fun _ => 1 # 2)%Q 2 / inject_Z 2)]).
Proof.
  exact (proj1 (proj2 (evaluation_reports_running_mean (fun _ => 1 # 2)%Q 10 4
                         ltac:(lia) ltac:(lia)))).
Defined.

Section reader.
Import Evaluator.

(** X19.  [create_reader] reads the first four extents of the tensor it
    is given and raises [IndexError] when there are fewer.  The image is
    scaled to the width [input_tensor[1]], the height [input_tensor[2]] and
    [input_tensor[0]] channels, and the labels have [input_tensor[3]]
    entries, so on the shape of the data followed by the shape of the
    labels, as [eval_model] calls it, the labels get the first extent of
    the label tensor only when the data has three axes.  A crop comes
    first exactly when a crop type is configured, and the mean comes
    last. *)
Theorem create_reader_reads_four_extents :
  forall (crop_type : option string) (crop_ratio : Q) (map_file : string)
         (mean_file : option string) (input_tensor : list Z),
    let built := create_reader crop_type crop_ratio map_file mean_file input_tensor in
    ((length input_tensor < 4)%nat -> built = Raise IndexError) /\
    (forall channels width height label_shape rest,
        input_tensor = channels :: width :: height :: label_shape :: rest ->
        exists cropped,
          built = Ok {| image_map := map_file;
                        features := cropped ++ [scale width height channels "linear";
                                                mean mean_file];
                        labels := label_shape |} /\
          (crop_type = None \/ crop_type = Some EmptyString -> cropped = []) /\
          (forall a s, crop_type = Some (String a s) ->
                       cropped = [crop (String a s) crop_ratio])) /\
    (forall data_shape label_tensor reader,
        input_tensor = data_shape ++ label_tensor ->
        length data_shape = 3%nat ->
        built = Ok reader ->
        label_tensor !! 0%nat = Some (labels reader)).
Proof.
  intros crop_type crop_ratio map_file mean_file input_tensor built. subst built.
  unfold create_reader. split; [|split].
  - intros Hshort.
    destruct input_tensor as [|c [|w [|h [|l rest]]]]; simpl in Hshort; try lia;
      reflexivity.
  - intros channels width height label_shape rest ->.
    destruct crop_type as [[|a s]|].
    + exists []. split; [reflexivity|]. split; [reflexivity|].
      intros a s H. discriminate H.
    + exists [crop (String a s) crop_ratio]. split; [reflexivity|]. split.
      * intros [H|H]; discriminate H.
      * intros a' s' [= -> ->]. reflexivity.
    + exists []. split; [reflexivity|]. split; [reflexivity|].
      intros a s H. discriminate H.
  - intros [|c [|w [|h [|x data_shape]]]] label_tensor reader -> Hlen; try discriminate.
    destruct label_tensor as [|l label_tensor]; [discriminate|]. cbn.
    intros [= <-]. reflexivity.
Qed.

Lemma create_reader_reads_four_extents_witness :
  create_reader (Some "center") (7 # 8)%Q "val_map.txt" (Some "mean.xml") [3; 224; 224]
  = Raise IndexError.
Proof.
  exact (proj1 (create_reader_reads_four_extents (Some "center") (7 # 8)%Q "val_map.txt"
                  (Some "mean.xml") [3; 224; 224]) ltac:(simpl; lia)).
Defined.

End reader.

(** ** Outputs that stay terminal *)

Section terminal_outputs.
Import UniModel CntkApiInstance.

Variable infer_shape : ops.node -> list Z.

Lemma instance_layers_table_fresh (cntk_layers : gmap string cntk_layer)
    (keys : list string) :
  forall st usused_func st' usused_func',
    foldM (instance_layer infer_shape cntk_layers) (st, usused_func) keys
    = Ok (st', usused_func') ->
    (forall name g, _functions st !! name = Some g -> (uid g < next_uid st)%nat) ->
    forall name g, _functions st' !! name = Some g -> (uid g < next_uid st')%nat.
Proof.
  induction keys as [|key keys IH]; intros st usused_func st' usused_func'.
  - intros [= <- <-] Hfresh. exact Hfresh.
  - change (foldM (instance_layer infer_shape cntk_layers) (st, usused_func) (key :: keys))
      with (instance_layer infer_shape cntk_layers (st, usused_func) key
            ≫= fun acc' => foldM (instance_layer infer_shape cntk_layers) acc' keys).
    intros ([st1 usused_func1] & Hstep & Hrest)%bind_inv Hfresh.
    apply instance_layer_inv in Hstep
      as (l & local_inputs & remaining & expr & _ & _ & Htable & _ & Huid & _).
    eapply IH; [exact Hrest|].
    intros name g. rewrite Htable, Huid, lookup_insert. case_decide.
    + intros [= <-]. simpl. lia.
    + intros Hg. apply Hfresh in Hg. lia.
Qed.

(** A handle that only [name] is bound to stays unused, and bound to
    [name], as long as the layers neither consume nor redefine [name]. *)
Lemma instance_layers_keep (cntk_layers : gmap string cntk_layer) (f : Function)
    (name : string) (keys : list string) :
  forall st usused_func st' usused_func',
    foldM (instance_layer infer_shape cntk_layers) (st, usused_func) keys
    = Ok (st', usused_func') ->
    f ∈ usused_func ->
    (uid f < next_uid st)%nat ->
    _functions st !! name = Some f ->
    (forall x, _functions st !! x = Some f -> x = name) ->
    (forall key l, key ∈ keys -> cntk_layers !! key = Some l ->
                   op_name l <> name /\ name ∉ inputs l) ->
    f ∈ usused_func' /\ _functions st' !! name = Some f.
Proof.
  induction keys as [|key keys IH]; intros st usused_func st' usused_func'.
  - intros [= <- <-] Hf _ Hname _ _. auto.
  - change (foldM (instance_layer infer_shape cntk_layers) (st, usused_func) (key :: keys))
      with (instance_layer infer_shape cntk_layers (st, usused_func) key
            ≫= fun acc' => foldM (instance_layer infer_shape cntk_layers) acc' keys).
    intros ([st1 usused_func1] & Hstep & Hrest)%bind_inv Hf Huid Hname Honly Hlater.
    apply instance_layer_inv in Hstep
      as (l & local_inputs & remaining & expr & Hl & Hresolve & Htable & _ & Hnext & ->).
    apply resolve_input_spec in Hresolve as [_ Hremaining].
    destruct (Hlater key l ltac:(left) Hl) as [Hredefined Hconsumed].
    eapply IH; [exact Hrest| | | | |].
    + apply elem_of_union. left. apply Hremaining. split; [exact Hf|].
      intros (x & Hx & Hfx). apply Honly in Hfx as ->. contradiction.
    + lia.
    + rewrite Htable, lookup_insert_ne by exact Hredefined. exact Hname.
    + intros x. rewrite Htable, lookup_insert. case_decide.
      * intros [= <-]. simpl in Huid. lia.
      * apply Honly.
    + intros key' l' Hkey'. apply Hlater. now right.
Qed.

(** X20.  The output of a layer whose identifier no later layer consumes
    or takes for itself is among the outputs of the model, under the
    identifier of the layer in the symbol table.  Nothing is asked of the
    layers that come before it, nor of the identifiers of the model
    inputs. *)
Theorem unconsumed_layers_stay_terminal :
  forall (cntk_uni_model : cntk_uni_model)
         (cntk_tensor : option (list (string * list Z))) (st : self),
    new infer_shape cntk_uni_model cntk_tensor = Ok st ->
    exists terminal : list Function,
      get_model st = Some (ops.combine (ops.Output <$> terminal) "outputs") /\
      forall pre l post,
        descriptors cntk_uni_model = pre ++ l :: post ->
        (forall l', l' ∈ post -> op_name l' <> op_name l /\ op_name l ∉ inputs l') ->
        exists f, get_functions st !! op_name l = Some f /\ f ∈ terminal.
Proof.
  intros cntk_uni_model cntk_tensor st.
  unfold new, instance_functions, get_model, get_functions.
  set (st0 := instance_input cntk_tensor (data_providers cntk_uni_model) init).
  intros ([st' usused_func'] & Hloop & [= <-])%bind_inv. simpl.
  exists (elements usused_func'). split; [reflexivity|].
  intros pre l post Hsplit Hlater.
  destruct (instance_layers_trace _ _ _ _ _ _ _ Hloop) as (ls & Hls & _).
  pose proof (descriptors_of_trace _ _ _ Hls) as Hdescriptors.
  fold (descriptors cntk_uni_model) in Hdescriptors.
  rewrite Hdescriptors in Hsplit. subst ls.
  apply Forall2_app_inv_r in Hls as (kpre & kpost' & Hpre & Hpost & Hkeys).
  apply Forall2_cons_inv_r in Hpost as (key & kpost & Hl & Hpost & ->).
  rewrite Hkeys, foldM_app in Hloop.
  apply bind_inv in Hloop as ([st1 usused_func1] & Hbefore & Hloop).
  change (foldM (instance_layer infer_shape (cntk_layers cntk_uni_model))
            (st1, usused_func1) (key :: kpost))
    with (instance_layer infer_shape (cntk_layers cntk_uni_model) (st1, usused_func1) key
          ≫= fun acc' => foldM (instance_layer infer_shape (cntk_layers cntk_uni_model))
                           acc' kpost) in Hloop.
  apply bind_inv in Hloop as ([st2 usused_func2] & Hstep & Hafter).
  assert (Hfresh : forall name g, _functions st1 !! name = Some g
                                  -> (uid g < next_uid st1)%nat).
  { eapply instance_layers_table_fresh; [exact Hbefore|].
    destruct (instance_input_names cntk_uni_model cntk_tensor) as [Hfresh _].
    exact Hfresh. }
  apply instance_layer_inv in Hstep
    as (l0 & local_inputs & remaining & expr & Hl0 & _ & Htable & _ & Hnext & ->).
  assert (l0 = l) as -> by congruence.
  set (f := {| uid := next_uid st1; output_shape := infer_shape expr |}) in *.
  assert (Hkept : f ∈ usused_func' /\ _functions st' !! op_name l = Some f);
    [|exists f; split; [apply Hkept|apply elem_of_elements, Hkept]].
  eapply instance_layers_keep; [exact Hafter| | | | |].
  - apply elem_of_union. right. now apply elem_of_singleton.
  - rewrite Hnext. simpl. lia.
  - rewrite Htable. apply lookup_insert_eq.
  - intros x. rewrite Htable, lookup_insert. case_decide; [auto|].
    intros Hx. apply Hfresh in Hx. simpl in Hx. lia.
  - intros key' l' [i Hi]%list_elem_of_lookup Hl'.
    destruct (Forall2_lookup_l _ _ _ _ _ Hpost Hi) as (l'' & Hpost_i & Hl'').
    assert (l'' = l') as -> by congruence.
    apply Hlater, list_elem_of_lookup. eauto.
Qed.

End terminal_outputs.

Lemma unconsumed_layers_stay_terminal_witness :
  exists st terminal f,
    CntkApiInstance.new Examples.same_shape Examples.diamond None = Ok st /\
    CntkApiInstance.get_model st
    = Some (ops.combine (ops.Output <$> terminal) "outputs") /\
    CntkApiInstance.get_functions st !! "D" = Some f /\
    f ∈ terminal.
Proof.
  destruct (CntkApiInstance.new Examples.same_shape Examples.diamond None)
    as [st|e] eqn:Hnew; [|vm_compute in Hnew; discriminate].
  destruct (unconsumed_layers_stay_terminal Examples.same_shape Examples.diamond None
              st Hnew) as (terminal & Hmodel & Hstay).
  destruct (Hstay [Examples.layer "A" "relu" ["data"] None;
                   Examples.layer "B" "relu" ["A"] None;
                   Examples.layer "C" "dropout" ["A"] None]
                  (Examples.layer "D" "plus" ["B"; "C"] None) [] eq_refl)
    as (f & Hf & Hterminal).
  - intros l' Hl'. inversion Hl'.
  - exists st, terminal, f. auto.
Defined.

(** ** The terminal outputs *)

Section terminal_set.
Import UniModel CntkApiInstance.

Variable infer_shape : ops.node -> list Z.

(** One successful turn of the loop, in full. *)
Lemma instance_layer_built (cntk_layers : gmap string cntk_layer) (st st' : self)
    (usused_func usused_func' : gset Function) (key : string) :
  instance_layer infer_shape cntk_layers (st, usused_func) key = Ok (st', usused_func') ->
  exists l build expr,
    cntk_layers !! key = Some l /\
    (forall x, x ∈ inputs l -> is_Some (_functions st !! x)) /\
    ApiSetup.getattr (op_type l) = Ok build /\
    build l (omap (fun x => _functions st !! x) (inputs l)) = Ok expr /\
    _functions st'
    = <[op_name l := {| uid := next_uid st; output_shape := infer_shape expr |}]>
        (_functions st) /\
    definitions st' = <[next_uid st := expr]> (definitions st) /\
    next_uid st' = S (next_uid st).
Proof.
  unfold instance_layer.
  destruct (cntk_layers !! key) as [l|]; simpl; [|discriminate].
  destruct (foldM (resolve_input st) ([], usused_func) (inputs l))
    as [[local_inputs remaining]|] eqn:Hresolve; simpl; [|discriminate].
  destruct (ApiSetup.getattr (op_type l)) as [build|] eqn:Hget; simpl; [|discriminate].
  destruct (build l local_inputs) as [expr|] eqn:Hbuild; simpl; [|discriminate].
  intros [= <- <-]. exists l, build, expr. simpl.
  pose proof (resolve_input_spec _ _ _ _ _ _ Hresolve) as [Hbound _].
  destruct (resolve_inputs_bound st (inputs l) [] usused_func Hbound) as [remaining' Hall].
  rewrite Hall in Hresolve. injection Hresolve as <- _.
  split; [reflexivity|]. split; [exact Hbound|]. split; [exact Hget|].
  split; [exact Hbuild|]. auto.
Qed.

Lemma omap_lookup_weaken (m m' : gmap string Function) (names : list string) :
  m ⊆ m' ->
  (forall x, x ∈ names -> is_Some (m !! x)) ->
  omap (fun x => m' !! x) names = omap (fun x => m !! x) names.
Proof.
  intros Hsub. induction names as [|name names IH]; intros Hbound; [reflexivity|].
  destruct (Hbound name) as [f Hf]; [left|].
  cbn [omap list_omap]. rewrite Hf, (lookup_weaken _ _ _ _ Hf Hsub).
  rewrite IH; [reflexivity|]. intros x Hx. apply Hbound. now right.
Qed.

(** With identifiers that are new to the symbol table and differ from one
    another, no entry is overwritten, and every layer ends bound to the
    handle of what its builder returned on the handles of its inputs. *)
Lemma instance_layers_built (cntk_layers : gmap string cntk_layer) (keys : list string) :
  forall st usused_func st' usused_func',
    foldM (instance_layer infer_shape cntk_layers) (st, usused_func) keys
    = Ok (st', usused_func') ->
    (forall name g, _functions st !! name = Some g -> (uid g < next_uid st)%nat) ->
    (forall u expr, definitions st !! u = Some expr -> (u < next_uid st)%nat) ->
    NoDup (op_name <$> omap (fun key => cntk_layers !! key) keys) ->
    (forall l, l ∈ omap (fun key => cntk_layers !! key) keys ->
               _functions st !! op_name l = None) ->
    _functions st ⊆ _functions st' /\
    definitions st ⊆ definitions st' /\
    forall l, l ∈ omap (fun key => cntk_layers !! key) keys ->
      exists build expr f,
        ApiSetup.getattr (op_type l) = Ok build /\
        build l (omap (fun x => _functions st' !! x) (inputs l)) = Ok expr /\
        _functions st' !! op_name l = Some f /\
        definitions st' !! uid f = Some expr /\
        output_shape f = infer_shape expr.
Proof.
  induction keys as [|key keys IH]; intros st usused_func st' usused_func'.
  - intros [= <- <-] _ _ _ _. split; [reflexivity|]. split; [reflexivity|].
    intros l Hl. inversion Hl.
  - change (foldM (instance_layer infer_shape cntk_layers) (st, usused_func) (key :: keys))
      with (instance_layer infer_shape cntk_layers (st, usused_func) key
            ≫= fun acc' => foldM (instance_layer infer_shape cntk_layers) acc' keys).
    intros ([st1 usused_func1] & Hstep & Hrest)%bind_inv.
    apply instance_layer_built in Hstep
      as (l & build & expr & Hl & Hbound & Hget & Hbuild & Htable & Hdefs & Hnext).
    cbn [omap list_omap]. rewrite Hl. rewrite fmap_cons.
    intros Hfresh Hstored [Hnew Hnodup]%NoDup_cons Hfree.
    set (f := {| uid := next_uid st; output_shape := infer_shape expr |}) in *.
    assert (Hl_free : _functions st !! op_name l = None) by (apply Hfree; left).
    assert (Huid_free : definitions st !! next_uid st = None).
    { destruct (definitions st !! next_uid st) as [e|] eqn:E; [|reflexivity].
      apply Hstored in E. lia. }
    assert (Htable1 : _functions st ⊆ _functions st1).
    { rewrite Htable. now apply insert_subseteq. }
    assert (Hdefs1 : definitions st ⊆ definitions st1).
    { rewrite Hdefs. now apply insert_subseteq. }
    destruct (IH _ _ _ _ Hrest) as (Htable' & Hdefs' & Hbuilt).
    + intros name g. rewrite Htable, Hnext, lookup_insert. case_decide.
      * intros [= <-]. simpl. lia.
      * intros Hg. apply Hfresh in Hg. lia.
    + intros u e. rewrite Hdefs, Hnext, lookup_insert. case_decide.
      * intros _. lia.
      * intros He. apply Hstored in He. lia.
    + exact Hnodup.
    + intros l' Hl'. rewrite Htable, lookup_insert_ne.
      * apply Hfree. now right.
      * intros E. apply Hnew. rewrite E. now apply list_elem_of_fmap_2.
    + split; [now transitivity (_functions st1)|].
      split; [now transitivity (definitions st1)|].
      intros l' [->|Hl']%elem_of_cons; [|now apply Hbuilt].
      exists build, expr, f. split; [exact Hget|]. split; [|split; [|split]].
      * rewrite (omap_lookup_weaken (_functions st) (_functions st')); [exact Hbuild| |exact Hbound].
        now transitivity (_functions st1).
      * apply (lookup_weaken (_functions st1)); [|exact Htable'].
        rewrite Htable. apply lookup_insert_eq.
      * apply (lookup_weaken (definitions st1)); [|exact Hdefs'].
        rewrite Hdefs. apply lookup_insert_eq.
      * reflexivity.
Qed.

Lemma instance_input_definitions (cntk_tensor : option (list (string * list Z)))
    (data_providers : list data_provider) (st : self) :
  definitions (instance_input cntk_tensor data_providers st) = definitions st.
Proof.
  unfold instance_input. destruct cntk_tensor as [items|].
  - revert st. induction items as [|item items IH]; intros st; [reflexivity|].
    simpl. now rewrite IH.
  - revert st. induction data_providers as [|item items IH]; intros st; [reflexivity|].
    simpl. now rewrite IH.
Qed.

(** C1.  When the conversion of a uni-model succeeds (so every input of a
    layer was bound when the layer was processed), with layer identifiers
    that differ from one another and from the identifiers of the model
    inputs: every layer has an output, the handle that the symbol table
    binds to its identifier, which stands for what the builder of the layer
    returned on the handles of its inputs; different layers have different
    outputs; and the handles given to the final [combine], each once, are
    exactly the outputs of the layers whose identifier is in the [inputs]
    of no other layer. *)
Theorem terminal_outputs_are_unconsumed_layers :
  forall (cntk_uni_model : cntk_uni_model)
         (cntk_tensor : option (list (string * list Z))) (st : self),
    NoDup (op_name <$> descriptors cntk_uni_model) ->
    (forall l, l ∈ descriptors cntk_uni_model ->
               op_name l ∉ input_names cntk_uni_model cntk_tensor) ->
    new infer_shape cntk_uni_model cntk_tensor = Ok st ->
    let unconsumed l :=
      forall l', l' ∈ descriptors cntk_uni_model ->
                 op_name l' <> op_name l ->
                 op_name l ∉ inputs l' in
    exists terminal : list Function,
      _output st = Some (ops.combine (ops.Output <$> terminal) "outputs") /\
      NoDup terminal /\
      (forall l,
          l ∈ descriptors cntk_uni_model ->
          exists build expr f,
            ApiSetup.getattr (op_type l) = Ok build /\
            build l (omap (fun x => _functions st !! x) (inputs l)) = Ok expr /\
            _functions st !! op_name l = Some f /\
            definitions st !! uid f = Some expr /\
            (f ∈ terminal <-> unconsumed l)) /\
      (forall l l' f,
          l ∈ descriptors cntk_uni_model ->
          l' ∈ descriptors cntk_uni_model ->
          _functions st !! op_name l = Some f ->
          _functions st !! op_name l' = Some f ->
          l = l') /\
      (forall f,
          f ∈ terminal
          <-> exists l,
                l ∈ descriptors cntk_uni_model /\
                _functions st !! op_name l = Some f /\
                unconsumed l).
Proof.
  intros cntk_uni_model cntk_tensor st Hnodup Hdistinct.
  unfold new, instance_functions.
  set (st0 := instance_input cntk_tensor (data_providers cntk_uni_model) init).
  intros ([st1 usused_func] & Hloop & [= <-])%bind_inv. simpl.
  pose (unconsumed := fun l : cntk_layer =>
                        forall l', l' ∈ descriptors cntk_uni_model ->
                                   op_name l' <> op_name l ->
                                   op_name l ∉ inputs l').
  destruct (instance_input_names cntk_uni_model cntk_tensor) as [Hfresh0 Hnames0].
  cbv zeta in Hfresh0, Hnames0. fold st0 in Hfresh0, Hnames0.
  assert (Hfree0 : forall l, l ∈ descriptors cntk_uni_model ->
                             _functions st0 !! op_name l = None).
  { intros l Hl. apply eq_None_not_Some. rewrite Hnames0. now apply Hdistinct. }
  assert (Hstart : assembled (_functions st0) [] st0 ∅).
  { split.
    - exact Hfresh0.
    - intros name. split; [auto|]. intros [H|H]; [auto|inversion H].
    - intros l x Hl. inversion Hl.
    - intros l Hl. inversion Hl.
    - intros l f name Hl. inversion Hl.
    - intros f. split; [intros H; now apply not_elem_of_empty in H|].
      intros (l & Hl & _). inversion Hl. }
  pose proof (instance_layers_assembled infer_shape (cntk_layers cntk_uni_model)
                _ _ _ _ _ _ Hstart Hloop) as Hend.
  simpl in Hend. fold (descriptors cntk_uni_model) in Hend.
  destruct Hend as [_ _ _ Hacyclic Hown Hunused]; [exact Hnodup|exact Hfree0|].
  destruct (instance_layers_built (cntk_layers cntk_uni_model) _ _ _ _ _ Hloop)
    as (_ & _ & Hbuilt).
  { exact Hfresh0. }
  { intros u expr. subst st0. rewrite instance_input_definitions. simpl.
    rewrite lookup_empty. discriminate. }
  { exact Hnodup. }
  { exact Hfree0. }
  fold (descriptors cntk_uni_model) in Hbuilt.
  assert (Hsame : forall l l', l ∈ descriptors cntk_uni_model ->
                               l' ∈ descriptors cntk_uni_model ->
                               op_name l' = op_name l -> l' = l).
  { clear -Hnodup. intros l l' Hl Hl' E.
    induction (descriptors cntk_uni_model) as [|d ds IHds]; [inversion Hl|].
    rewrite fmap_cons in Hnodup. apply NoDup_cons in Hnodup as [Hd Hds].
    apply elem_of_cons in Hl as [->|Hl]; apply elem_of_cons in Hl' as [->|Hl']; auto.
    - exfalso. apply Hd. rewrite <- E. now apply list_elem_of_fmap_2.
    - exfalso. apply Hd. rewrite E. now apply list_elem_of_fmap_2. }
  assert (Hinjective : forall l l' f,
             l ∈ descriptors cntk_uni_model ->
             l' ∈ descriptors cntk_uni_model ->
             _functions st1 !! op_name l = Some f ->
             _functions st1 !! op_name l' = Some f ->
             l = l').
  { intros l l' f Hl Hl' Hf Hf'. symmetry. apply Hsame; [exact Hl|exact Hl'|].
    exact (Hown l f (op_name l') Hl Hf Hf'). }
  assert (Hterminal : forall f,
             f ∈ elements usused_func
             <-> exists l, l ∈ descriptors cntk_uni_model /\
                           _functions st1 !! op_name l = Some f /\
                           unconsumed l).
  { intros f. rewrite elem_of_elements, Hunused. split.
    - intros (l & Hl & Hf & Hleft). exists l. subst unconsumed. cbv beta. auto.
    - intros (l & Hl & Hf & Hleft). exists l. split; [auto|]. split; [auto|].
      intros l' Hl'. destruct (decide (op_name l' = op_name l)) as [E|]; [|auto].
      assert (l' = l) as -> by (apply Hsame; auto).
      now apply Hacyclic. }
  exists (elements usused_func). split; [reflexivity|]. split; [apply NoDup_elements|].
  split; [|split; [exact Hinjective|exact Hterminal]].
  intros l Hl. destruct (Hbuilt l Hl) as (build & expr & f & Hget & Hbuild & Hf & Hexpr & _).
  exists build, expr, f. repeat (split; [assumption|]).
  rewrite Hterminal. split.
  - intros (l0 & Hl0 & Hf0 & Hleft).
    now rewrite (Hinjective l l0 f Hl Hl0 Hf Hf0).
  - intros Hleft. eauto.
Qed.

End terminal_set.

Lemma terminal_outputs_are_unconsumed_layers_witness :
  exists st d,
    CntkApiInstance.new Examples.same_shape Examples.diamond None = Ok st /\
    CntkApiInstance._functions st !! "D" = Some d /\
    CntkApiInstance._output st = Some (ops.combine [ops.Output d] "outputs").
Proof.
  assert (Hlist : CntkApiInstance.descriptors Examples.diamond
                  = [Examples.layer "A" "relu" ["data"] None;
                     Examples.layer "B" "relu" ["A"] None;
                     Examples.layer "C" "dropout" ["A"] None;
                     Examples.layer "D" "plus" ["B"; "C"] None]) by reflexivity.
  destruct (CntkApiInstance.new Examples.same_shape Examples.diamond None)
    as [st|e] eqn:Hnew; [|vm_compute in Hnew; discriminate].
  destruct (terminal_outputs_are_unconsumed_layers Examples.same_shape
              Examples.diamond None st)
    as (terminal & Hout & Hnodup & Hlayers & _ & Hterminal).
  - refine (bool_decide_unpack _ _). vm_compute. exact I.
  - apply Forall_forall. refine (bool_decide_unpack _ _). vm_compute. exact I.
  - exact Hnew.
  - destruct (Hlayers (Examples.layer "D" "plus" ["B"; "C"] None))
      as (_ & _ & d & _ & _ & Hd & _ & Hterminal_d).
    { rewrite Hlist. do 3 right. left. }
    assert (Hin : d ∈ terminal).
    { apply Hterminal_d. intros l' Hl' Hother. rewrite Hlist in Hl'.
      repeat (apply elem_of_cons in Hl' as [->|Hl']);
        [set_solver|set_solver|set_solver|now destruct Hother|inversion Hl']. }
    assert (Honly : forall f, f ∈ terminal -> f = d).
    { intros f (l & Hl & Hf & Hleft)%Hterminal. rewrite Hlist in Hl.
      repeat (apply elem_of_cons in Hl as [->|Hl]).
      - exfalso. apply (Hleft (Examples.layer "B" "relu" ["A"] None));
          [rewrite Hlist; right; left|discriminate|left].
      - exfalso. apply (Hleft (Examples.layer "D" "plus" ["B"; "C"] None));
          [rewrite Hlist; do 3 right; left|discriminate|left].
      - exfalso. apply (Hleft (Examples.layer "D" "plus" ["B"; "C"] None));
          [rewrite Hlist; do 3 right; left|discriminate|right; left].
      - rewrite Hd in Hf. now injection Hf.
      - inversion Hl. }
    exists st, d. split; [reflexivity|]. split; [exact Hd|].
    rewrite Hout. do 2 f_equal.
    destruct terminal as [|t [|t' ts]].
    + inversion Hin.
    + now rewrite (Honly t ltac:(left)).
    + exfalso. apply NoDup_cons in Hnodup as [Hfirst _]. apply Hfirst.
      rewrite (Honly t ltac:(left)), (Honly t' ltac:(right; left)). left.
Defined.
